(** * DMpy: a shallow embedding of the model composition and execution engine

    The development follows [DMpy/utils.py] and [DMpy/model.py].  Python
    exceptions are values of [exn]; a function that may raise returns
    [result A = exn + A].  Floating-point numbers are idealised as rationals
    ([Q]); the fit statistics, which use the natural logarithm, live in [R].
    The noise helper, whose clipping depends on how comparisons treat NaN,
    is over binary64 floats ([PrimFloat.float]).
    Calls into Theano, NumPy, itertools and PyMC3 are modelled by small
    definitions that state the documented contract of the primitive, or are
    left as section variables when the claim does not depend on them. *)

From Stdlib Require Import String Ascii Bool Arith ZArith QArith Lia Reals.
From Stdlib Require Import List Sorted.
From Stdlib Require Floats.
Import ListNotations.
Open Scope string_scope.
Open Scope list_scope.
Open Scope nat_scope.

(** ** Python exceptions and the error monad *)

Module Py.

Inductive exn : Type :=
| ValueError (msg : string)
| TypeError (msg : string)
| IndexError (msg : string)
| AttributeError (msg : string)
| SyntaxError (msg : string)
| ZeroDivisionError (msg : string).

Definition result (A : Type) : Type := (exn + A)%type.

Definition ret {A : Type} (a : A) : result A := inr a.
Definition raise {A : Type} (e : exn) : result A := inl e.

Definition bind {A B : Type} (c : result A) (k : A -> result B) : result B :=
  match c with
  | inl e => inl e
  | inr a => k a
  end.

Definition is_ValueError {A : Type} (c : result A) : bool :=
  match c with
  | inl (ValueError _) => true
  | _ => false
  end.

Definition succeeded {A : Type} (c : result A) : bool :=
  match c with
  | inr _ => true
  | inl _ => false
  end.

(** [needle in haystack] on Python strings. *)
Fixpoint contains (needle haystack : string) : bool :=
  if String.prefix needle haystack then true
  else match haystack with
       | EmptyString => false
       | String _ rest => contains needle rest
       end.

(** [l[i]] for a non-negative index. *)
Definition getitem {A : Type} (l : list A) (i : nat) : result A :=
  match nth_error l i with
  | Some a => ret a
  | None => raise (IndexError "list index out of range")
  end.

(** Calling a function with positional and keyword arguments when its
    parameters are
    [parameters]: a keyword that names no parameter, or too many positional
    arguments, is a [TypeError] raised before the body runs. *)
Definition call_with_keywords {A : Type} (parameters : list string)
    (n_positional : nat) (keywords : list string) (body : result A)
  : result A :=
  if existsb (fun k => negb (existsb (String.eqb k) parameters)) keywords
  then raise (TypeError "got an unexpected keyword argument")
  else if List.length parameters <? n_positional + List.length keywords
  then raise (TypeError "takes fewer arguments than given")
  else body.

(** [s.lower()] *)
Definition lower_char (c : ascii) : ascii :=
  let n := nat_of_ascii c in
  if (65 <=? n) && (n <=? 90) then ascii_of_nat (n + 32) else c.

Fixpoint lower (s : string) : string :=
  match s with
  | EmptyString => EmptyString
  | String c rest => String (lower_char c) (lower rest)
  end.

(** [all(...)] over a list of booleans. *)
Definition all (l : list bool) : bool := forallb (fun b => b) l.

(** [any(...)] over a list of booleans. *)
Definition any (l : list bool) : bool := existsb (fun b => b) l.

End Py.

Export Py.

Declare Scope py_scope.
Delimit Scope py_scope with py.
Notation "x <- c ;; k" := (bind c (fun x => k))
  (at level 61, c at next level, right associativity) : py_scope.
Notation "' pat <- c ;; k" := (bind c (fun x => match x with pat => k end))
  (at level 61, pat pattern, c at next level, right associativity) : py_scope.
Open Scope py_scope.

(** ** Arrays *)

Module Np.

(** A vector holds one number per run; a matrix is a list of rows. *)
Definition vector : Type := list Q.
Definition matrix : Type := list vector.

(** A NumPy array of one or two dimensions. *)
Inductive ndarray : Type :=
| A1 (v : vector)
| A2 (m : matrix).

Definition n_cols (m : matrix) : nat :=
  match m with
  | [] => 0
  | row :: _ => length row
  end.

Definition shape (a : ndarray) : list nat :=
  match a with
  | A1 v => [length v]
  | A2 m => [length m; n_cols m]
  end.

Definition ndim (a : ndarray) : nat := length (shape a).

(** [a.shape[i]] *)
Definition shape_at (a : ndarray) (i : nat) : result nat :=
  match nth_error (shape a) i with
  | Some n => ret n
  | None => raise (IndexError "tuple index out of range")
  end.

Fixpoint transpose_rows (cols : nat) (m : matrix) : matrix :=
  match cols with
  | O => []
  | S c => map (fun row => hd 0%Q row) m
           :: transpose_rows c (map (fun row => tl row) m)
  end.

(** [a.T]: a one-dimensional array is its own transpose. *)
Definition transpose (a : ndarray) : ndarray :=
  match a with
  | A1 v => A1 v
  | A2 m => A2 (transpose_rows (n_cols m) m)
  end.

(** [np.repeat(v, n)]: every element repeated [n] times in place. *)
Definition np_repeat (v : vector) (n : nat) : vector :=
  flat_map (fun q => repeat q n) v.

(** [a.repeat(n, axis=0)]: every row repeated [n] times in place. *)
Definition repeat_rows {A : Type} (rows : list A) (n : nat) : list A :=
  flat_map (fun r => repeat r n) rows.

(** [T.ones_like(x)] *)
Definition ones_like (x : matrix) : matrix :=
  map (fun row => map (fun _ => 1%Q) row) x.

(** [a.squeeze()]: axes of length one are dropped. *)
Definition squeeze (a : ndarray) : ndarray :=
  match a with
  | A1 v => A1 v
  | A2 m =>
      match m with
      | [row] => A1 row
      | _ => if forallb (fun row => Nat.eqb (length row) 1) m
             then A1 (map (fun row => hd 0%Q row) m)
             else A2 m
      end
  end.

(** [a.min()] of an array of run counts. *)
Definition min_runs (l : list nat) : nat :=
  match l with
  | [] => 0
  | n :: rest => fold_left Nat.min rest n
  end.

(** [len(np.unique(l))] *)
Definition n_unique (l : list nat) : nat := length (nodup Nat.eq_dec l).

End Np.

Export Np.

(** ** The sequential-fold primitive ([theano.scan])

    [scan(fn, sequences, outputs_info, non_sequences)] calls [fn] once per
    step with, in this order, the current slice of every sequence, the
    previous value of every output whose [outputs_info] entry is not [None],
    and the non-sequences.  A sequence given with [taps=[-1]] is cut to
    [input[0:-1]], and the number of steps is the length of the shortest
    sequence.  Before iterating, [scan] calls [fn] once on placeholders and
    refuses a function whose number of returned values differs from
    [len(outputs_info)]. *)

Module Theano.

Definition py_function : Type := list vector -> result (list vector).

Record sequence : Type := { input : matrix; taps : Z }.

(** The part of a sequence that [scan] iterates over, for a single tap [k]:
    [input[k:]] when [k >= 0], [input[0:k]] when [k < 0]. *)
Definition tap_slice (s : sequence) : matrix :=
  if (0 <=? taps s)%Z
  then skipn (Z.to_nat (taps s)) (input s)
  else firstn (length (input s) - Z.to_nat (- taps s)) (input s).

Definition n_steps (slices : list matrix) : nat :=
  match slices with
  | [] => 0
  | s :: rest => fold_left Nat.min (map (@length vector) rest) (length s)
  end.

(** The arguments taken from the sequences at each step. *)
Definition steps (slices : list matrix) : list (list vector) :=
  map (fun t => map (fun s => nth t s []) slices) (seq 0 (n_steps slices)).

Definition initial_state (outputs_info : list (option vector)) : list vector :=
  flat_map (fun o => match o with Some v => [v] | None => [] end) outputs_info.

(** The returned values that are fed back at the next step. *)
Fixpoint fed_back (outputs_info : list (option vector)) (outs : list vector)
  : list vector :=
  match outputs_info, outs with
  | Some _ :: oi, o :: os => o :: fed_back oi os
  | None :: oi, _ :: os => fed_back oi os
  | _, _ => []
  end.

Fixpoint scan_loop (fn : py_function) (rows : list (list vector))
    (outputs_info : list (option vector)) (state non_sequences : list vector)
  : result (list (list vector)) :=
  match rows with
  | [] => ret []
  | r :: rest =>
      outs <- fn (r ++ state ++ non_sequences) ;;
      records <- scan_loop fn rest outputs_info (fed_back outputs_info outs)
                   non_sequences ;;
      ret (outs :: records)
  end.

(** What [scan] hands back: a bare tensor when [fn] has one output, a list of
    tensors otherwise. *)
Inductive scan_outputs : Type :=
| Single (m : matrix)
| Several (l : list matrix).

Definition none_as_outputs_info : string :=
  "Please provide None as outputs_info for any output that does not feed back into scan (i.e. it behaves like a map) ".

Definition scan (fn : py_function) (sequences : list sequence)
    (outputs_info : list (option vector)) (non_sequences : list vector)
  : result scan_outputs :=
  let slices := map tap_slice sequences in
  let init := initial_state outputs_info in
  traced <- fn (map (fun _ => []) slices ++ init ++ non_sequences) ;;
  if negb (length traced =? length outputs_info)
     && negb (length outputs_info =? 0)
  then raise (ValueError none_as_outputs_info)
  else
    records <- scan_loop fn (steps slices) outputs_info init non_sequences ;;
    let outs := map (fun i => map (fun r => nth i r []) records)
                    (seq 0 (length traced)) in
    ret (match outs with
         | [m] => Single m
         | _ => Several outs
         end).

End Theano.

Export Theano.

(** ** Parameters ([class Parameter]) and their PyMC3 distributions *)

Module Params.

(** The distribution objects that [generate_pymc_distribution] builds, as
    the constructor calls it makes.  An argument is a number (possibly
    [None]) or, for hierarchical priors, another distribution. *)
Inductive dist : Type :=
| BoundedNormal (name : string) (lower upper : option Q) (mu sd : dist_arg)
    (shape : option nat)
| Normal (name : string) (mu sd : dist_arg) (shape : option nat)
    (transform : option string)
| Uniform (name : string) (lower upper : option Q) (shape : option nat)
| Flat (name : string) (shape : option nat) (transform : option string)
with dist_arg : Type :=
| Num (q : option Q)
| Hyper (d : dist).

(** The [pymc_distribution] attribute: a constant array for a fixed
    parameter, a random variable otherwise. *)
Inductive bound_value : Type :=
| Const (v : vector)
| RandomVariable (d : dist).

Definition rv_name (d : dist) : string :=
  match d with
  | BoundedNormal n _ _ _ _ _ => n
  | Normal n _ _ _ _ => n
  | Uniform n _ _ _ => n
  | Flat n _ _ => n
  end.

(** [hasattr(rv, "transformation")]: bounded and uniform variables are
    transformed by PyMC3 itself, the others only on request. *)
Definition has_transformation (d : dist) : bool :=
  match d with
  | BoundedNormal _ _ _ _ _ _ => true
  | Uniform _ _ _ _ => true
  | Normal _ _ _ _ (Some _) => true
  | Flat _ _ (Some _) => true
  | _ => false
  end.

(** Does the distribution carry group-level priors? *)
Definition is_hierarchical (d : dist) : bool :=
  match d with
  | BoundedNormal _ _ _ (Hyper _) _ _ => true
  | BoundedNormal _ _ _ _ (Hyper _) _ => true
  | Normal _ (Hyper _) _ _ _ => true
  | Normal _ _ (Hyper _) _ _ => true
  | _ => false
  end.

Record parameter : Type := mkParameter {
  name : string;
  distribution : string;
  fixed : bool;
  dynamic : bool;
  lower_bound : option Q;
  upper_bound : option Q;
  mean : Q;
  variance : option Q;
  transform_method : option string;
  (** attributes added by [generate_pymc_distribution] *)
  pymc_distribution : option bound_value;
  backward : bool
}.

Definition is_None {A : Type} (o : option A) : bool :=
  match o with
  | None => true
  | Some _ => false
  end.

(** [Parameter.__init__] *)
Definition Parameter_init (name distribution : string)
    (lower_bound upper_bound : option Q) (mean : Q) (variance : option Q)
    (dynamic : bool) : result parameter :=
  if String.eqb distribution "uniform"
     && (is_None lower_bound || is_None upper_bound)
  then raise (ValueError
    "Must specify upper and lower bounds for parameters with uniform distribution")
  else ret {| name := name;
              distribution := distribution;
              fixed := String.eqb distribution "fixed";
              dynamic := dynamic;
              lower_bound := lower_bound;
              upper_bound := upper_bound;
              mean := mean;
              variance := variance;
              transform_method := None;
              pymc_distribution := None;
              backward := false |}.

Definition set_distribution (p : parameter) (d : string) : parameter :=
  {| name := name p; distribution := d; fixed := fixed p;
     dynamic := dynamic p; lower_bound := lower_bound p;
     upper_bound := upper_bound p; mean := mean p; variance := variance p;
     transform_method := transform_method p;
     pymc_distribution := pymc_distribution p; backward := backward p |}.

Definition set_pymc_distribution (p : parameter) (v : bound_value)
    (b : bool) : parameter :=
  {| name := name p; distribution := distribution p; fixed := fixed p;
     dynamic := dynamic p; lower_bound := lower_bound p;
     upper_bound := upper_bound p; mean := mean p; variance := variance p;
     transform_method := transform_method p;
     pymc_distribution := Some v; backward := b |}.

(** No group-level prior is bound to the value. *)
Definition individual_value (b : bound_value) : bool :=
  match b with
  | Const _ => true
  | RandomVariable d => negb (is_hierarchical d)
  end.

Definition individual (p : parameter) : bool :=
  match pymc_distribution p with
  | Some b => individual_value b
  | None => true
  end.

(** The prior is uniform or flat already (or the parameter is declared
    fixed and has no prior): what the MLE override leaves alone. *)
Definition uniform_or_flat (p : parameter) : bool :=
  String.eqb (distribution p) "uniform"
  || String.eqb (distribution p) "flat"
  || String.eqb (distribution p) "fixed".

Definition for_some {A : Type} (f : A -> bool) (o : option A) : bool :=
  match o with
  | Some a => f a
  | None => true
  end.

End Params.

Export Params.

(** ** [DMpy/utils.py] *)

Module Utils.

(** The MLE override at the head of [generate_pymc_distribution]: a prior
    that is not uniform, flat or fixed becomes uniform when both bounds are
    present and flat otherwise. *)
Definition mle_override (p : parameter) : parameter :=
  if negb (String.eqb (distribution p) "uniform")
     && negb (String.eqb (distribution p) "flat")
     && negb (String.eqb (distribution p) "fixed")
  then
    if negb (is_None (upper_bound p)) && negb (is_None (lower_bound p))
    then set_distribution p "uniform"
    else set_distribution p "flat"
  else p.

(** The [shape] keyword of the three branches of each family. *)
Definition rv_shape (hierarchical : bool) (n_subjects : nat) : option nat :=
  if hierarchical then Some n_subjects
  else if 1 <? n_subjects then Some n_subjects
  else None.

(** [generate_pymc_distribution(p, n_subjects, hierarchical, mle)].  The
    keyword options are always empty: [hasattr(p, '__pymc_kwargs')] looks the
    attribute up under its unmangled name, which the [Parameter] class never sets. *)
Definition generate_pymc_distribution (p : parameter) (n_subjects : nat)
    (hierarchical mle : bool) : result parameter :=
  let p := if mle then mle_override p else p in
  if fixed p then
    ret (set_pymc_distribution p (Const (repeat (mean p) n_subjects))
           (backward p))
  else if hierarchical && (n_subjects <? 2) then
    raise (ValueError "Hierarchical parameters only possible with > 1 subject")
  else if String.eqb (distribution p) "normal"
          && negb (is_None (lower_bound p)) && negb (is_None (upper_bound p))
  then
    let d :=
      if hierarchical then
        BoundedNormal (name p) (lower_bound p) (upper_bound p)
          (Hyper (BoundedNormal (name p ++ "_group_mu") (lower_bound p)
                    (upper_bound p) (Num (Some (mean p))) (Num (variance p))
                    None))
          (Hyper (Uniform (name p ++ "_group_sd") (Some 0%Q) (Some 100%Q)
                    None))
          (Some n_subjects)
      else
        BoundedNormal (name p) (lower_bound p) (upper_bound p)
          (Num (Some (mean p))) (Num (variance p))
          (rv_shape false n_subjects) in
    ret (set_pymc_distribution p (RandomVariable d) true)
  else if String.eqb (distribution p) "normal"
          && negb (is_None (lower_bound p))
  then
    let d :=
      if hierarchical then
        BoundedNormal (name p) (lower_bound p) None
          (Hyper (BoundedNormal (name p ++ "_group_mu") (lower_bound p) None
                    (Num (Some (mean p))) (Num (variance p)) None))
          (Hyper (Uniform (name p ++ "_group_sd") (Some 0%Q) (Some 100%Q)
                    None))
          (Some n_subjects)
      else
        BoundedNormal (name p) (lower_bound p) None
          (Num (Some (mean p))) (Num (variance p))
          (rv_shape false n_subjects) in
    ret (set_pymc_distribution p (RandomVariable d) true)
  else if String.eqb (distribution p) "normal" then
    let d :=
      if hierarchical then
        Normal (name p)
          (Hyper (Normal (name p ++ "_group_mu") (Num (Some (mean p)))
                    (Num (variance p)) None None))
          (Hyper (Uniform (name p ++ "_group_sd") (Some 0%Q) (Some 100%Q)
                    None))
          (Some n_subjects) (transform_method p)
      else
        Normal (name p) (Num (Some (mean p))) (Num (variance p))
          (rv_shape false n_subjects) (transform_method p) in
    ret (set_pymc_distribution p (RandomVariable d)
           (if has_transformation d then true else backward p))
  else if String.eqb (distribution p) "uniform" then
    let d := Uniform (name p) (lower_bound p) (upper_bound p)
               (rv_shape hierarchical n_subjects) in
    ret (set_pymc_distribution p (RandomVariable d)
           (if has_transformation d then true else backward p))
  else if String.eqb (distribution p) "flat" then
    let d :=
      if hierarchical || (1 <? n_subjects)
      then Flat (name p) (Some n_subjects) (transform_method p)
      else Flat (name p) None None in
    ret (set_pymc_distribution p (RandomVariable d)
           (if has_transformation d then true else backward p))
  else ret p.

(** [model_fit(logp, fit_values, vars, outcome)]: log likelihood, BIC, AIC. *)
Definition model_fit {E : Type} (logp : E -> R) (fit_values : E)
    (vars : list string) (outcome : ndarray) : R * R * R :=
  let log_likelihood := logp fit_values in
  let BIC := (INR (length vars) * ln (INR (hd 0%nat (shape outcome)))
              - 2 * log_likelihood)%R in
  let AIC := (2 * (INR (length vars) - log_likelihood))%R in
  (log_likelihood, BIC, AIC).

(** A response file as [pd.read_csv] sees it. *)
Record row : Type := { Subject : Z; Response : Q; sim_values : list Q }.

Record csv_file : Type := {
  parses : bool;            (** [read_csv] does not raise [ValueError] *)
  columns : list string;
  rows : list row
}.

(** The objects that the loader hands back in its tuple. *)
Inductive pyobj : Type :=
| ObjSubjects (l : list Z)
| ObjRuns (l : list nat)
| ObjArray (a : ndarray)
| ObjSims (s : option (list row))
| ObjNone.

Fixpoint insert_sorted (z : Z) (l : list Z) : list Z :=
  match l with
  | [] => [z]
  | y :: rest =>
      if (z <? y)%Z then z :: l
      else if (z =? y)%Z then l
      else y :: insert_sorted z rest
  end.

(** [np.unique]: the distinct values in increasing order. *)
Definition unique (l : list Z) : list Z := fold_right insert_sorted [] l.

(** The rows of a frame together with their position. *)
Definition indexed {A : Type} (l : list A) : list (nat * A) :=
  combine (seq 0 (length l)) l.

(** One cell of [data.pivot(columns='Subject', values='Response',
    index='Trial_index')]; two rows for one cell make the pivot fail. *)
Definition pivot_cell (n_trials : nat) (data : list row) (t : nat) (s : Z)
  : result Q :=
  match filter (fun ir => (fst ir mod n_trials =? t)
                          && (Subject (snd ir) =? s)%Z) (indexed data) with
  | [] => ret 0%Q
  | [ir] => ret (Response (snd ir))
  | _ => raise (ValueError "Index contains duplicate entries, cannot reshape")
  end.

Fixpoint sequence_results {A : Type} (l : list (result A)) : result (list A) :=
  match l with
  | [] => ret []
  | c :: rest => a <- c ;; r <- sequence_results rest ;; ret (a :: r)
  end.

Definition load_data_parameters : list string := ["data_file"].

(** [load_data(data_file)]: the tuple [(subjects, data, sims)]. *)
Definition load_data (data_file : csv_file) : result (list pyobj) :=
  if negb (parses data_file) then
    raise (ValueError
      "Responses are not in the correct format, ensure they are provided as a .csv or .txt file")
  else
  let data := rows data_file in
  if negb (existsb (String.eqb "Subject") (columns data_file))
     || negb (existsb (String.eqb "Response") (columns data_file))
  then raise (ValueError
      "Data file must contain the following columns: Subject, Response")
  else
  let subject_ids := unique (map Subject data) in
  let n_subjects := length subject_ids in
  if n_subjects =? 0 then
    raise (ZeroDivisionError "integer division or modulo by zero")
  else if negb (length data mod n_subjects =? 0) then
    raise (AttributeError "Unequal number of trials across subjects")
  else
  let n_trials := length data / n_subjects in
  let sim_columns :=
    filter (fun i => contains "_sim" i || contains "Subject" i)
           (columns data_file) in
  let sims :=
    if negb (length sim_columns =? 0)
    then Some (map snd (filter (fun ir => fst ir mod n_trials =? 0)
                               (indexed data)))
    else None in
  pivoted <- sequence_results
    (map (fun s => sequence_results
                     (map (fun t => pivot_cell n_trials data t s)
                          (seq 0 n_trials)))
         subject_ids) ;;
  ret [ObjSubjects subject_ids; ObjArray (A2 pivoted); ObjSims sims].

(** What the caller passes as outcomes. *)
Inductive outcomes_arg : Type :=
| OutcomesFile (loadtxt : result ndarray) (as_csv : csv_file)
| OutcomesArray (a : ndarray)
| OutcomesList (l : matrix)
| OutcomesOther.

(** What [load_outcomes] returns: an array, or the list it was given. *)
Inductive outcomes_value : Type :=
| AsArray (a : ndarray)
| AsList (l : matrix).

(** [load_outcomes(data)] *)
Definition load_outcomes (data : outcomes_arg) : result outcomes_value :=
  match data with
  | OutcomesFile loadtxt as_csv =>
      match loadtxt with
      | inr a => ret (AsArray a)
      | inl (ValueError _) =>
          t <- load_data as_csv ;;
          match t with
          | [_; ObjArray outcomes] => ret (AsArray outcomes)
          | [_; _] => raise (TypeError "outcomes are not an array")
          | _ :: _ :: _ :: _ => raise (ValueError "too many values to unpack")
          | _ => raise (ValueError "need more than 1 value to unpack")
          end
      | inl e => raise e
      end
  | OutcomesArray a => ret (AsArray a)
  | OutcomesList l => ret (AsList l)
  | OutcomesOther =>
      raise (ValueError
        "Outcome data must be either filename, numpy array, or list")
  end.

Fixpoint count_commas (s : string) : nat :=
  match s with
  | EmptyString => 0
  | String c rest =>
      (if Ascii.eqb c ","%char then 1 else 0) + count_commas rest
  end.

Definition return_convention : string :=
  "Unable to determine model outputs, make sure the return of the function is properly defined. Proper format should be return (value, outputs that are reused at the next step, other outputs that get saved)".

(** [n_returns(f)], on the source lines of [f] as [inspect.getsourcelines]
    gives them ([None] when the source cannot be retrieved): the number of
    comma-separated pieces of the last line.  The names of the returned
    values, which only label simulation results, are left out. *)
Definition n_returns (source : option (list string)) : result nat :=
  match source with
  | Some (first :: others) =>
      let return_code := last others first in
      ret (S (count_commas return_code))
  | _ => raise (SyntaxError return_convention)
  end.

(** [function_wrapper(f, n_returns, n_reused)]: the one-step initial model.
    It fills every output with its first argument and then overwrites the
    first [n_reused] outputs with [args[1:n_reused + 1]]. *)
Definition function_wrapper (f : py_function) (n_returns n_reused : nat)
  : py_function :=
  fun args =>
    first <- getitem args 0 ;;
    let outs := repeat first n_returns in
    let outs := firstn n_reused (skipn 1 args) ++ skipn n_reused outs in
    ret outs.

(** [generate_choices2(pa)], on the flattened array: a choice is made where
    the uniform draw lies below the choice probability.  [random n] is the
    draw of [np.random.random] for an array of [n] entries. *)
Definition generate_choices2 (random : nat -> vector) (pa : vector)
  : list Z :=
  map (fun rp => if Qle_bool (snd rp) (fst rp) then 0%Z else 1%Z)
      (combine (random (length pa)) pa).

End Utils.

Export Utils.

(** ** [DMpy/model.py]: parameter binding, noise, and the PyMC3 distribution *)

Module Model.

(** A model function: what calling it does, and its source lines as
    [inspect] returns them. *)
Record learning_function : Type := {
  call : py_function;
  source : option (list string);
  (** how many of the returned values the function takes back as arguments
      at the next step, after the return convention
      [(value, outputs that are reused at the next step, other outputs)] *)
  reused : nat
}.

(** An observation model takes the selected dynamic outputs followed by the
    observation parameters and returns [(prob, obs_outs)]. *)
Record observation_function : Type := {
  obs_call : list ndarray -> result (ndarray * list ndarray);
  obs_source : option (list string)
}.

(** The values of the free random variables at which a graph is evaluated. *)
Definition point : Type := string -> vector.

Definition value_of (pt : point) (b : bound_value) : vector :=
  match b with
  | Const v => v
  | RandomVariable d => pt (rv_name d)
  end.

Fixpoint map_result {A B : Type} (f : A -> result B) (l : list A)
  : result (list B) :=
  match l with
  | [] => ret []
  | a :: rest => b <- f a ;; bs <- map_result f rest ;; ret (b :: bs)
  end.

(** The loop that sorts bound learning parameters into dynamic and static. *)
Fixpoint split_parameters (ps : list parameter)
  : result (list bound_value * list bound_value) :=
  match ps with
  | [] => ret ([], [])
  | p :: rest =>
      match pymc_distribution p with
      | None =>
          raise (AttributeError
            "Parameter {0} has no distribution information, make sure at least the mean is specified")
      | Some b =>
          ' (dyn, stat) <- split_parameters rest ;;
          if dynamic p then ret (b :: dyn, stat) else ret (dyn, b :: stat)
      end
  end.

(** The learning parameter that an observation parameter of the same name
    is replaced with: the inner loop keeps the last match. *)
Definition shared_parameter (learning_parameters : list parameter)
    (p : parameter) : parameter :=
  fold_left (fun acc i => if String.eqb (name i) (name p) then i else acc)
            learning_parameters p.

(** [_initialise_parameters].  The two parameter lists are updated in place
    by the source, so the bound learning parameters are returned as well. *)
Definition _initialise_parameters (learning_parameters : list parameter)
    (observation_parameters : list (option parameter))
    (n_subjects : nat) (n_runs : list nat) (mle hierarchical : bool)
  : result (list parameter * list bound_value * list bound_value
            * list (option parameter)) :=
  learning_parameters <-
    map_result (fun p => generate_pymc_distribution p n_subjects hierarchical mle)
               learning_parameters ;;
  let learning_parameter_names := map name learning_parameters in
  ' (dynamic_parameters, static_parameters) <-
    split_parameters learning_parameters ;;
  first <- getitem observation_parameters 0 ;;
  observation_parameters <-
    match first with
    | None => ret observation_parameters
    | Some _ =>
        map_result
          (fun o =>
             match o with
             | None =>
                 raise (AttributeError
                   "'NoneType' object has no attribute 'name'")
             | Some p =>
                 if negb (existsb (String.eqb (name p))
                            learning_parameter_names)
                 then p' <- generate_pymc_distribution p n_subjects
                              hierarchical mle ;;
                      ret (Some p')
                 else ret (Some (shared_parameter learning_parameters p))
             end)
          observation_parameters
    end ;;
  ret (learning_parameters, dynamic_parameters, static_parameters,
       observation_parameters).

(** [_add_noise(timeseries, mean, sd, lower_bound, upper_bound)], on the
    flattened array of binary64 floats.  [noise] is the draw of
    [np.random.normal(mean, sd, timeseries.shape)].  The two masked
    assignments replace the entries for which [x > upper_bound], then
    those for which [x < lower_bound]; both comparisons are false on NaN. *)
Definition _add_noise
    (noise : PrimFloat.float -> PrimFloat.float -> nat -> list PrimFloat.float)
    (timeseries : list PrimFloat.float)
    (mean sd lower_bound upper_bound : PrimFloat.float)
  : list PrimFloat.float :=
  let noisy_timeseries :=
    map (fun tn => PrimFloat.add (fst tn) (snd tn))
        (combine timeseries (noise mean sd (length timeseries))) in
  let noisy_timeseries :=
    map (fun x => if PrimFloat.ltb upper_bound x then upper_bound else x)
        noisy_timeseries in
  let noisy_timeseries :=
    map (fun x => if PrimFloat.ltb x lower_bound then lower_bound else x)
        noisy_timeseries in
  noisy_timeseries.

(** *** [class _PyMCModel] *)

Record _PyMCModel : Type := {
  pm_learning_model : learning_function;
  pm_learning_model_initial : py_function;
  pm_observation_model : option observation_function;
  pm_learning_parameters : list parameter;
  pm_observation_parameters : list (option parameter);
  pm_observation_dynamic_inputs : list nat;
  pm_n_subjects : nat;
  (** the shared variables the model is built on *)
  pm_responses : ndarray;
  pm_outcomes : ndarray;
  pm_time : matrix;
  pm_n_runs : list nat;
  pm_logp_method : string;
  pm_dynamic_parameters : list bound_value;
  pm_static_parameters : list bound_value;
  pm_n_dynamic : nat;
  pm_n_learning_returns : nat
}.

(** [_PyMCModel.__init__] *)
Definition PyMCModel_init (learning_model : learning_function)
    (learning_model_initial : py_function)
    (learning_parameters : list parameter)
    (observation_model : option observation_function)
    (observation_parameters : list (option parameter))
    (observation_dynamic_inputs : list nat)
    (responses : ndarray) (hierarchical : bool) (n_subjects : nat)
    (time : matrix) (n_runs : list nat) (mle : bool) (outcomes : ndarray)
    (logp_method : string) : result _PyMCModel :=
  if negb (n_unique n_runs =? 1) then
    raise (ValueError "All subjects must have the same number of runs")
  else
    ' (learning_parameters, dynamic_parameters, static_parameters,
       observation_parameters) <-
      _initialise_parameters learning_parameters observation_parameters
        n_subjects n_runs mle hierarchical ;;
    n_learning_returns <- n_returns (source learning_model) ;;
    ret {| pm_learning_model := learning_model;
           pm_learning_model_initial := learning_model_initial;
           pm_observation_model := observation_model;
           pm_learning_parameters := learning_parameters;
           pm_observation_parameters := observation_parameters;
           pm_observation_dynamic_inputs := observation_dynamic_inputs;
           pm_n_subjects := n_subjects;
           pm_responses := responses;
           pm_outcomes := outcomes;
           pm_time := time;
           pm_n_runs := n_runs;
           pm_logp_method := logp_method;
           pm_dynamic_parameters := dynamic_parameters;
           pm_static_parameters := static_parameters;
           pm_n_dynamic := length dynamic_parameters;
           pm_n_learning_returns := n_learning_returns |}.

(** [self.responses] as the distribution sees it: transposed, and a
    one-dimensional array reshaped into a column. *)
Definition responses_view (self : _PyMCModel) : matrix :=
  match transpose (pm_responses self) with
  | A1 v => map (fun q => [q]) v
  | A2 m => m
  end.

Definition mismatch_message : string :=
  "Mismatch between number of dynamic outputs and number of dynamic inputs. Make sure function outputs and inputs match (i.e. all dynamic inputs have a corresponding returned value, and make sure dynamic parameters are correctly set to be dynamic and static parameters are set to be static".

(** The [outputs_info] list given to both scans. *)
Definition outputs_info_of (dynamic_parameters_reshaped : list vector)
    (n_learning_returns n_dynamic : nat) : list (option vector) :=
  map Some dynamic_parameters_reshaped
  ++ repeat None (n_learning_returns - n_dynamic).

(** [if not len(value): value = [value]; _value = [_value]]: a bare tensor
    is wrapped into a one-element list. *)
Definition as_lists (value _value : scan_outputs)
  : result (list matrix * list matrix) :=
  match value, _value with
  | Single v, Single v0 => ret ([v], [v0])
  | Several (v :: vs), Several l0 => ret (v :: vs, l0)
  | Several [], Several [] => ret ([[]], [[]])
  | _, _ => raise (TypeError "scan outputs cannot be joined")
  end.

(** The attributes that [get_value] sets first: every bound parameter
    repeated over the runs. *)
Definition static_parameters_reshaped (self : _PyMCModel) (pt : point)
  : list vector :=
  map (fun i => np_repeat (value_of pt i) (min_runs (pm_n_runs self)))
      (pm_static_parameters self).

Definition dynamic_parameters_reshaped (self : _PyMCModel) (pt : point)
  : list vector :=
  map (fun i => np_repeat (value_of pt i) (min_runs (pm_n_runs self)))
      (pm_dynamic_parameters self).

Definition observation_parameters_reshaped (self : _PyMCModel) (pt : point)
  : result (option (list ndarray)) :=
  first <- getitem (pm_observation_parameters self) 0 ;;
  match first with
  | None => ret None
  | Some _ =>
      l <- map_result
             (fun o =>
                match o with
                | Some {| pymc_distribution := Some b |} =>
                    ret (A1 (np_repeat (value_of pt b)
                               (min_runs (pm_n_runs self))))
                | _ => raise (AttributeError
                         "object has no attribute 'pymc_distribution'")
                end)
             (pm_observation_parameters self) ;;
      ret (Some l)
  end.

(** The [outputs_info] of both scans, and the arguments on which [scan]
    traces the learning model: a placeholder for each of the two sequences,
    the dynamic parameters, the static parameters. *)
Definition outputs_info (self : _PyMCModel) (pt : point)
  : list (option vector) :=
  outputs_info_of (dynamic_parameters_reshaped self pt)
    (pm_n_learning_returns self) (pm_n_dynamic self).

Definition traced_arguments (self : _PyMCModel) (pt : point) : list vector :=
  [[]; []] ++ dynamic_parameters_reshaped self pt
  ++ static_parameters_reshaped self pt.

(** [_PyMCModel.get_value(x)], evaluated at the point [pt]. *)
Definition get_value (self : _PyMCModel) (pt : point) (x : matrix)
  : result ndarray :=
  let static_parameters_reshaped := static_parameters_reshaped self pt in
  let dynamic_parameters_reshaped := dynamic_parameters_reshaped self pt in
  observation_parameters_reshaped <-
    observation_parameters_reshaped self pt ;;
  let outputs_info := outputs_info self pt in
  scans <-
    match
      (value <- scan (call (pm_learning_model self))
                  [ {| input := x; taps := (-1)%Z |};
                    {| input := ones_like x; taps := (-1)%Z |} ]
                  outputs_info static_parameters_reshaped ;;
       _value <- scan (pm_learning_model_initial self)
                   [ {| input := firstn 1 x; taps := 0%Z |};
                     {| input := firstn 2 (ones_like x); taps := 0%Z |} ]
                   outputs_info static_parameters_reshaped ;;
       ret (value, _value))
    with
    | inl (ValueError message) =>
        if contains "None as outputs_info" message
        then raise (ValueError mismatch_message)
        else raise (ValueError message)
    | other => other
    end ;;
  ' (value, _value) <- as_lists (fst scans) (snd scans) ;;
  let value := firstn (pm_n_dynamic self) value in
  value <- map_result
             (fun nv => v0 <- getitem _value (fst nv) ;; ret (v0 ++ snd nv))
             (indexed value) ;;
  observation_dynamics <-
    map_result (fun i => getitem value i)
               (pm_observation_dynamic_inputs self) ;;
  match pm_observation_model self with
  | Some observation_model =>
      match observation_parameters_reshaped with
      | None =>
          raise (TypeError
            "can only concatenate list (not NoneType) to list")
      | Some parameters =>
          ' (prob, obs_outs) <-
            obs_call observation_model
              (map A2 observation_dynamics ++ parameters) ;;
          ret (squeeze prob)
      end
  | None =>
      prob <- getitem value 0 ;;
      ret (A2 prob)
  end.

Section Objective.

(** The two reductions that [logp] imports from [DMpy.utils]. *)
Variable log_likelihood : matrix -> ndarray -> Q.
Variable r2 : matrix -> ndarray -> Q.

(** [_PyMCModel.logp(x)], evaluated at the point [pt]. *)
Definition logp (self : _PyMCModel) (pt : point) (x : matrix) : result Q :=
  prob <- get_value self pt x ;;
  if String.eqb (pm_logp_method self) "ll" then
    ret (log_likelihood (responses_view self) prob)
  else if String.eqb (pm_logp_method self) "r2" then
    ret (r2 (responses_view self) prob * 10000)%Q
  else raise (ValueError "Invalid likelihood function specified").

End Objective.


End Model.

(** ** [class DMModel] *)

Module DMModel.

Import Model.

(** A dictionary of values per variable name, as [find_MAP] returns it. *)
Definition estimate : Type := list (string * vector).

(** Keyword arguments handed through to PyMC3. *)
Definition kwargs : Type := list (string * Q).

(** Posterior samples per variable name. *)
Definition samples : Type := list (string * matrix).

(** [pm.df_summary]: mean and sd per index. *)
Definition summary : Type := list (string * (Q * Q)).

(** A parameter table: the subjects and one column per parameter. *)
Record table : Type := {
  tab_subjects : list Z;
  tab_columns : list (string * vector)
}.

(** The [pm.Model] context: its one observed variable, whose distribution
    is the [_PyMCModel], and its free random variables. *)
Record pymc3_model : Type := {
  observed : _PyMCModel;
  vars : list string
}.

Record t : Type := mk {
  learning_model : learning_function;
  learning_parameters : list parameter;
  observation_model : option observation_function;
  observation_parameters : list (option parameter);
  logp_method : string;
  observation_dynamic_inputs : list nat;
  n_learning_returns : nat;
  learning_model_initial : py_function;
  (** set by [_create_model] *)
  _pymc3_model : option pymc3_model;
  params : list parameter;
  fit_complete : bool;
  _fit_method : option string;
  (** set by [fit] *)
  subjects : list Z;
  n_subjects : nat;
  sims : option (list row);
  (** the Theano shared variables; [None] until the first model is built *)
  responses : option ndarray;
  outcomes : option ndarray;
  time : option matrix;
  n_runs : option (list nat);
  (** set by the estimators *)
  trace : option samples;
  map_estimate : estimate;
  raw_fit_values : estimate;
  fit_values : estimate;
  parameter_table : option table;
  recovery_correlations : option (option matrix);
  log_likelihood : option R;
  BIC : option R;
  AIC : option R;
  (** what the methods print and warn *)
  stdout : list string;
  warnings : list string;
  (** set by [simulate] *)
  sim_learning_parameters : list (string * vector);
  sim_observation_parameters : list (string * vector)
}.

Definition set_learning_parameters (self : t) (v : list parameter) : t :=
  mk (learning_model self) v (observation_model self)
     (observation_parameters self) (logp_method self)
     (observation_dynamic_inputs self) (n_learning_returns self)
     (learning_model_initial self) (_pymc3_model self) (params self)
     (fit_complete self) (_fit_method self) (subjects self) (n_subjects
     self) (sims self) (responses self) (outcomes self) (time self) (n_runs
     self) (trace self) (map_estimate self) (raw_fit_values self)
     (fit_values self) (parameter_table self) (recovery_correlations self)
     (log_likelihood self) (BIC self) (AIC self) (stdout self) (warnings
     self) (sim_learning_parameters self) (sim_observation_parameters self).

Definition set_observation_parameters (self : t) (v : list (option parameter)) : t :=
  mk (learning_model self) (learning_parameters self) (observation_model
     self) v (logp_method self) (observation_dynamic_inputs self)
     (n_learning_returns self) (learning_model_initial self) (_pymc3_model
     self) (params self) (fit_complete self) (_fit_method self) (subjects
     self) (n_subjects self) (sims self) (responses self) (outcomes self)
     (time self) (n_runs self) (trace self) (map_estimate self)
     (raw_fit_values self) (fit_values self) (parameter_table self)
     (recovery_correlations self) (log_likelihood self) (BIC self) (AIC
     self) (stdout self) (warnings self) (sim_learning_parameters self)
     (sim_observation_parameters self).

Definition set_logp_method (self : t) (v : string) : t :=
  mk (learning_model self) (learning_parameters self) (observation_model
     self) (observation_parameters self) v (observation_dynamic_inputs self)
     (n_learning_returns self) (learning_model_initial self) (_pymc3_model
     self) (params self) (fit_complete self) (_fit_method self) (subjects
     self) (n_subjects self) (sims self) (responses self) (outcomes self)
     (time self) (n_runs self) (trace self) (map_estimate self)
     (raw_fit_values self) (fit_values self) (parameter_table self)
     (recovery_correlations self) (log_likelihood self) (BIC self) (AIC
     self) (stdout self) (warnings self) (sim_learning_parameters self)
     (sim_observation_parameters self).

Definition set__pymc3_model (self : t) (v : option pymc3_model) : t :=
  mk (learning_model self) (learning_parameters self) (observation_model
     self) (observation_parameters self) (logp_method self)
     (observation_dynamic_inputs self) (n_learning_returns self)
     (learning_model_initial self) v (params self) (fit_complete self)
     (_fit_method self) (subjects self) (n_subjects self) (sims self)
     (responses self) (outcomes self) (time self) (n_runs self) (trace self)
     (map_estimate self) (raw_fit_values self) (fit_values self)
     (parameter_table self) (recovery_correlations self) (log_likelihood
     self) (BIC self) (AIC self) (stdout self) (warnings self)
     (sim_learning_parameters self) (sim_observation_parameters self).

Definition set_params (self : t) (v : list parameter) : t :=
  mk (learning_model self) (learning_parameters self) (observation_model
     self) (observation_parameters self) (logp_method self)
     (observation_dynamic_inputs self) (n_learning_returns self)
     (learning_model_initial self) (_pymc3_model self) v (fit_complete self)
     (_fit_method self) (subjects self) (n_subjects self) (sims self)
     (responses self) (outcomes self) (time self) (n_runs self) (trace self)
     (map_estimate self) (raw_fit_values self) (fit_values self)
     (parameter_table self) (recovery_correlations self) (log_likelihood
     self) (BIC self) (AIC self) (stdout self) (warnings self)
     (sim_learning_parameters self) (sim_observation_parameters self).

Definition set_fit_complete (self : t) (v : bool) : t :=
  mk (learning_model self) (learning_parameters self) (observation_model
     self) (observation_parameters self) (logp_method self)
     (observation_dynamic_inputs self) (n_learning_returns self)
     (learning_model_initial self) (_pymc3_model self) (params self) v
     (_fit_method self) (subjects self) (n_subjects self) (sims self)
     (responses self) (outcomes self) (time self) (n_runs self) (trace self)
     (map_estimate self) (raw_fit_values self) (fit_values self)
     (parameter_table self) (recovery_correlations self) (log_likelihood
     self) (BIC self) (AIC self) (stdout self) (warnings self)
     (sim_learning_parameters self) (sim_observation_parameters self).

Definition set__fit_method (self : t) (v : option string) : t :=
  mk (learning_model self) (learning_parameters self) (observation_model
     self) (observation_parameters self) (logp_method self)
     (observation_dynamic_inputs self) (n_learning_returns self)
     (learning_model_initial self) (_pymc3_model self) (params self)
     (fit_complete self) v (subjects self) (n_subjects self) (sims self)
     (responses self) (outcomes self) (time self) (n_runs self) (trace self)
     (map_estimate self) (raw_fit_values self) (fit_values self)
     (parameter_table self) (recovery_correlations self) (log_likelihood
     self) (BIC self) (AIC self) (stdout self) (warnings self)
     (sim_learning_parameters self) (sim_observation_parameters self).

Definition set_subjects (self : t) (v : list Z) : t :=
  mk (learning_model self) (learning_parameters self) (observation_model
     self) (observation_parameters self) (logp_method self)
     (observation_dynamic_inputs self) (n_learning_returns self)
     (learning_model_initial self) (_pymc3_model self) (params self)
     (fit_complete self) (_fit_method self) v (n_subjects self) (sims self)
     (responses self) (outcomes self) (time self) (n_runs self) (trace self)
     (map_estimate self) (raw_fit_values self) (fit_values self)
     (parameter_table self) (recovery_correlations self) (log_likelihood
     self) (BIC self) (AIC self) (stdout self) (warnings self)
     (sim_learning_parameters self) (sim_observation_parameters self).

Definition set_n_subjects (self : t) (v : nat) : t :=
  mk (learning_model self) (learning_parameters self) (observation_model
     self) (observation_parameters self) (logp_method self)
     (observation_dynamic_inputs self) (n_learning_returns self)
     (learning_model_initial self) (_pymc3_model self) (params self)
     (fit_complete self) (_fit_method self) (subjects self) v (sims self)
     (responses self) (outcomes self) (time self) (n_runs self) (trace self)
     (map_estimate self) (raw_fit_values self) (fit_values self)
     (parameter_table self) (recovery_correlations self) (log_likelihood
     self) (BIC self) (AIC self) (stdout self) (warnings self)
     (sim_learning_parameters self) (sim_observation_parameters self).

Definition set_sims (self : t) (v : option (list row)) : t :=
  mk (learning_model self) (learning_parameters self) (observation_model
     self) (observation_parameters self) (logp_method self)
     (observation_dynamic_inputs self) (n_learning_returns self)
     (learning_model_initial self) (_pymc3_model self) (params self)
     (fit_complete self) (_fit_method self) (subjects self) (n_subjects
     self) v (responses self) (outcomes self) (time self) (n_runs self)
     (trace self) (map_estimate self) (raw_fit_values self) (fit_values
     self) (parameter_table self) (recovery_correlations self)
     (log_likelihood self) (BIC self) (AIC self) (stdout self) (warnings
     self) (sim_learning_parameters self) (sim_observation_parameters self).

Definition set_trace (self : t) (v : option samples) : t :=
  mk (learning_model self) (learning_parameters self) (observation_model
     self) (observation_parameters self) (logp_method self)
     (observation_dynamic_inputs self) (n_learning_returns self)
     (learning_model_initial self) (_pymc3_model self) (params self)
     (fit_complete self) (_fit_method self) (subjects self) (n_subjects
     self) (sims self) (responses self) (outcomes self) (time self) (n_runs
     self) v (map_estimate self) (raw_fit_values self) (fit_values self)
     (parameter_table self) (recovery_correlations self) (log_likelihood
     self) (BIC self) (AIC self) (stdout self) (warnings self)
     (sim_learning_parameters self) (sim_observation_parameters self).

Definition set_map_estimate (self : t) (v : estimate) : t :=
  mk (learning_model self) (learning_parameters self) (observation_model
     self) (observation_parameters self) (logp_method self)
     (observation_dynamic_inputs self) (n_learning_returns self)
     (learning_model_initial self) (_pymc3_model self) (params self)
     (fit_complete self) (_fit_method self) (subjects self) (n_subjects
     self) (sims self) (responses self) (outcomes self) (time self) (n_runs
     self) (trace self) v (raw_fit_values self) (fit_values self)
     (parameter_table self) (recovery_correlations self) (log_likelihood
     self) (BIC self) (AIC self) (stdout self) (warnings self)
     (sim_learning_parameters self) (sim_observation_parameters self).

Definition set_raw_fit_values (self : t) (v : estimate) : t :=
  mk (learning_model self) (learning_parameters self) (observation_model
     self) (observation_parameters self) (logp_method self)
     (observation_dynamic_inputs self) (n_learning_returns self)
     (learning_model_initial self) (_pymc3_model self) (params self)
     (fit_complete self) (_fit_method self) (subjects self) (n_subjects
     self) (sims self) (responses self) (outcomes self) (time self) (n_runs
     self) (trace self) (map_estimate self) v (fit_values self)
     (parameter_table self) (recovery_correlations self) (log_likelihood
     self) (BIC self) (AIC self) (stdout self) (warnings self)
     (sim_learning_parameters self) (sim_observation_parameters self).

Definition set_fit_values (self : t) (v : estimate) : t :=
  mk (learning_model self) (learning_parameters self) (observation_model
     self) (observation_parameters self) (logp_method self)
     (observation_dynamic_inputs self) (n_learning_returns self)
     (learning_model_initial self) (_pymc3_model self) (params self)
     (fit_complete self) (_fit_method self) (subjects self) (n_subjects
     self) (sims self) (responses self) (outcomes self) (time self) (n_runs
     self) (trace self) (map_estimate self) (raw_fit_values self) v
     (parameter_table self) (recovery_correlations self) (log_likelihood
     self) (BIC self) (AIC self) (stdout self) (warnings self)
     (sim_learning_parameters self) (sim_observation_parameters self).

Definition set_parameter_table (self : t) (v : option table) : t :=
  mk (learning_model self) (learning_parameters self) (observation_model
     self) (observation_parameters self) (logp_method self)
     (observation_dynamic_inputs self) (n_learning_returns self)
     (learning_model_initial self) (_pymc3_model self) (params self)
     (fit_complete self) (_fit_method self) (subjects self) (n_subjects
     self) (sims self) (responses self) (outcomes self) (time self) (n_runs
     self) (trace self) (map_estimate self) (raw_fit_values self)
     (fit_values self) v (recovery_correlations self) (log_likelihood self)
     (BIC self) (AIC self) (stdout self) (warnings self)
     (sim_learning_parameters self) (sim_observation_parameters self).

Definition set_recovery_correlations (self : t) (v : option (option matrix)) : t :=
  mk (learning_model self) (learning_parameters self) (observation_model
     self) (observation_parameters self) (logp_method self)
     (observation_dynamic_inputs self) (n_learning_returns self)
     (learning_model_initial self) (_pymc3_model self) (params self)
     (fit_complete self) (_fit_method self) (subjects self) (n_subjects
     self) (sims self) (responses self) (outcomes self) (time self) (n_runs
     self) (trace self) (map_estimate self) (raw_fit_values self)
     (fit_values self) (parameter_table self) v (log_likelihood self) (BIC
     self) (AIC self) (stdout self) (warnings self) (sim_learning_parameters
     self) (sim_observation_parameters self).

Definition set_stdout (self : t) (v : list string) : t :=
  mk (learning_model self) (learning_parameters self) (observation_model
     self) (observation_parameters self) (logp_method self)
     (observation_dynamic_inputs self) (n_learning_returns self)
     (learning_model_initial self) (_pymc3_model self) (params self)
     (fit_complete self) (_fit_method self) (subjects self) (n_subjects
     self) (sims self) (responses self) (outcomes self) (time self) (n_runs
     self) (trace self) (map_estimate self) (raw_fit_values self)
     (fit_values self) (parameter_table self) (recovery_correlations self)
     (log_likelihood self) (BIC self) (AIC self) v (warnings self)
     (sim_learning_parameters self) (sim_observation_parameters self).

Definition set_warnings (self : t) (v : list string) : t :=
  mk (learning_model self) (learning_parameters self) (observation_model
     self) (observation_parameters self) (logp_method self)
     (observation_dynamic_inputs self) (n_learning_returns self)
     (learning_model_initial self) (_pymc3_model self) (params self)
     (fit_complete self) (_fit_method self) (subjects self) (n_subjects
     self) (sims self) (responses self) (outcomes self) (time self) (n_runs
     self) (trace self) (map_estimate self) (raw_fit_values self)
     (fit_values self) (parameter_table self) (recovery_correlations self)
     (log_likelihood self) (BIC self) (AIC self) (stdout self) v
     (sim_learning_parameters self) (sim_observation_parameters self).

Definition set_sim_learning_parameters (self : t) (v : list (string * vector)) : t :=
  mk (learning_model self) (learning_parameters self) (observation_model
     self) (observation_parameters self) (logp_method self)
     (observation_dynamic_inputs self) (n_learning_returns self)
     (learning_model_initial self) (_pymc3_model self) (params self)
     (fit_complete self) (_fit_method self) (subjects self) (n_subjects
     self) (sims self) (responses self) (outcomes self) (time self) (n_runs
     self) (trace self) (map_estimate self) (raw_fit_values self)
     (fit_values self) (parameter_table self) (recovery_correlations self)
     (log_likelihood self) (BIC self) (AIC self) (stdout self) (warnings
     self) v (sim_observation_parameters self).

Definition set_sim_observation_parameters (self : t) (v : list (string * vector)) : t :=
  mk (learning_model self) (learning_parameters self) (observation_model
     self) (observation_parameters self) (logp_method self)
     (observation_dynamic_inputs self) (n_learning_returns self)
     (learning_model_initial self) (_pymc3_model self) (params self)
     (fit_complete self) (_fit_method self) (subjects self) (n_subjects
     self) (sims self) (responses self) (outcomes self) (time self) (n_runs
     self) (trace self) (map_estimate self) (raw_fit_values self)
     (fit_values self) (parameter_table self) (recovery_correlations self)
     (log_likelihood self) (BIC self) (AIC self) (stdout self) (warnings
     self) (sim_learning_parameters self) v.

(** The four shared variables are always written together. *)
Definition set_shared (self : t) (v_responses : option ndarray) (v_outcomes : option ndarray) (v_time : option matrix) (v_n_runs : option (list nat)) : t :=
  mk (learning_model self) (learning_parameters self) (observation_model
     self) (observation_parameters self) (logp_method self)
     (observation_dynamic_inputs self) (n_learning_returns self)
     (learning_model_initial self) (_pymc3_model self) (params self)
     (fit_complete self) (_fit_method self) (subjects self) (n_subjects
     self) (sims self) v_responses v_outcomes v_time v_n_runs (trace self)
     (map_estimate self) (raw_fit_values self) (fit_values self)
     (parameter_table self) (recovery_correlations self) (log_likelihood
     self) (BIC self) (AIC self) (stdout self) (warnings self)
     (sim_learning_parameters self) (sim_observation_parameters self).

(** [self.log_likelihood, self.BIC, self.AIC = ...] *)
Definition set_statistics (self : t) (v_log_likelihood : option R) (v_BIC : option R) (v_AIC : option R) : t :=
  mk (learning_model self) (learning_parameters self) (observation_model
     self) (observation_parameters self) (logp_method self)
     (observation_dynamic_inputs self) (n_learning_returns self)
     (learning_model_initial self) (_pymc3_model self) (params self)
     (fit_complete self) (_fit_method self) (subjects self) (n_subjects
     self) (sims self) (responses self) (outcomes self) (time self) (n_runs
     self) (trace self) (map_estimate self) (raw_fit_values self)
     (fit_values self) (parameter_table self) (recovery_correlations self)
     v_log_likelihood v_BIC v_AIC (stdout self) (warnings self)
     (sim_learning_parameters self) (sim_observation_parameters self).

(** [dict[key] = value] *)
Fixpoint setitem {A : Type} (d : list (string * A)) (key : string) (value : A)
  : list (string * A) :=
  match d with
  | [] => [(key, value)]
  | (k, v) :: rest =>
      if String.eqb k key then (k, value) :: rest
      else (k, v) :: setitem rest key value
  end.

Definition keys {A : Type} (d : list (string * A)) : list string := map fst d.

Definition print (self : t) (line : string) : t :=
  set_stdout self (stdout self ++ [line]).

Definition warn (self : t) (message : string) : t :=
  set_warnings self (warnings self ++ [message]).

(** An observation parameter as given to the constructor: a parameter, the
    name of a learning parameter, or [None]. *)
Inductive obs_entry : Type :=
| ObsParameter (p : parameter)
| ObsMarker (s : string)
| ObsNone.

(** The index that replaces a marker: the inner loop over the learning
    parameters keeps the last one of that name. *)
Definition marker_index (learning_parameters : list parameter) (i : string)
  : option nat :=
  fold_left (fun acc nj => if String.eqb (name (snd nj)) i
                           then Some (fst nj) else acc)
            (indexed learning_parameters) None.

(** [DMModel.__init__] *)
Definition init (learning_model : learning_function)
    (learning_parameters : list parameter)
    (observation_model : option observation_function)
    (observation_parameters : list obs_entry) (logp_method : string)
  : result t :=
  n_learning_returns <- n_returns (source learning_model) ;;
  _ <- match observation_model with
       | Some o => n_returns (obs_source o)
       | None => ret 0
       end ;;
  let n_dynamic := length (filter dynamic learning_parameters) in
  let learning_model_initial :=
    function_wrapper (call learning_model) n_learning_returns n_dynamic in
  let observation_dynamic_inputs :=
    flat_map (fun i => match i with ObsMarker s => [s] | _ => [] end)
             observation_parameters in
  let observation_parameters :=
    flat_map (fun i => match i with
                       | ObsParameter p => [Some p]
                       | ObsNone => [None]
                       | ObsMarker _ => []
                       end)
             observation_parameters in
  observation_dynamic_inputs <-
    map_result
      (fun i => match marker_index learning_parameters i with
                | Some nn => ret nn
                | None =>
                    raise (ValueError
                      "Observation model dynamic inputs don't match with learning model parameter names")
                end)
      observation_dynamic_inputs ;;
  ret (mk learning_model learning_parameters observation_model
          observation_parameters logp_method (0 :: observation_dynamic_inputs)
          n_learning_returns learning_model_initial
          None [] false None [] 0 None None None None None
          None [] [] [] None None None None None [] [] [] []).

(** The point at which a graph is traced when it is built. *)
Definition placeholder : point := fun _ => [].

(** The free random variables that binding registers: one per learning
    parameter that is not fixed, one per observation parameter that is
    neither fixed nor shared with the learning model. *)
Definition free_variables (learning_parameters : list parameter)
    (observation_parameters : list (option parameter)) : list string :=
  let rv p := match pymc_distribution p with
              | Some (RandomVariable d) => [rv_name d]
              | _ => []
              end in
  flat_map rv learning_parameters
  ++ flat_map (fun o => match o with
                        | Some p =>
                            if existsb (String.eqb (name p))
                                 (map name learning_parameters)
                            then [] else rv p
                        | None => []
                        end)
              observation_parameters.

Definition attribute {A : Type} (o : option A) (what : string) : result A :=
  match o with
  | Some a => ret a
  | None => raise (AttributeError what)
  end.

Definition as_matrix (a : ndarray) : result matrix :=
  match a with
  | A2 m => ret m
  | A1 _ => raise (IndexError "too many indices for array")
  end.

(** What the class imports and does not define itself: the two
    reductions of [DMpy.utils] that [logp] uses, the estimation primitives
    of PyMC3, and the table helpers. *)
Record backend : Type := {
  utils_log_likelihood : matrix -> ndarray -> Q;
  utils_r2 : matrix -> ndarray -> Q;
  find_MAP : pymc3_model -> kwargs -> result estimate;
  pm_sample : pymc3_model -> kwargs -> result samples;
  pm_fit : pymc3_model -> kwargs -> result summary;
  sample_approx : summary -> kwargs -> result samples;
  df_summary : samples -> summary;
  (** [model.logp(point)] *)
  model_logp : pymc3_model -> estimate -> R;
  (** [p.backward(x).eval()]: the change of variables of a bounded prior *)
  backward_eval : parameter -> vector -> vector;
  (** [parameter_table(df_summary, subjects)] *)
  utils_parameter_table : summary -> list Z -> result table;
  (** the table join and the correlations of [recovery] *)
  recovery_analysis : table -> list row -> result (table * option matrix)
}.

Section Fitting.

Variable lib : backend.

(** [DMModel._create_model(mle)].  The distribution is created with
    [observed=self.outcomes], so PyMC3 builds its [logp] graph on the
    outcomes at once and an error of [get_value] surfaces here. *)
Definition _create_model (self : t) (mle : bool) : result t :=
  shared_responses <- attribute (responses self) "responses" ;;
  shared_outcomes <- attribute (outcomes self) "outcomes" ;;
  shared_time <- attribute (time self) "time" ;;
  shared_n_runs <- attribute (n_runs self) "n_runs" ;;
  m <- PyMCModel_init (learning_model self) (learning_model_initial self)
         (learning_parameters self) (observation_model self)
         (observation_parameters self) (observation_dynamic_inputs self)
         shared_responses false (n_subjects self) shared_time shared_n_runs
         mle shared_outcomes (logp_method self) ;;
  x <- as_matrix shared_outcomes ;;
  _ <- logp (utils_log_likelihood lib) (utils_r2 lib) m placeholder x ;;
  let self := set_learning_parameters self (pm_learning_parameters m) in
  let self := set_observation_parameters self (pm_observation_parameters m) in
  let self :=
    set_params self
      (pm_learning_parameters m
       ++ flat_map (fun o => match o with Some p => [p] | None => [] end)
                   (pm_observation_parameters m)) in
  let self :=
    set__pymc3_model self
      (Some {| observed := m;
               vars := free_variables (pm_learning_parameters m)
                         (pm_observation_parameters m) |}) in
  ret (print self "Created model").

(** [DMModel.recovery()] *)
Definition recovery (self : t) : result (t * option matrix) :=
  match sims self with
  | None =>
      raise (AttributeError
        "Response file provided for model fitting does not include simulated parameter values")
  | Some simulated =>
      match parameter_table self with
      | None =>
          raise (AttributeError
            "The model has not been fit, this is necessary to run parameter recovery tests")
      | Some fitted =>
          ' (merged, se_cor) <- recovery_analysis lib fitted simulated ;;
          ret (set_parameter_table self (Some merged), se_cor)
      end
  end.

(** [x.set_value(...)] on the four shared variables: the compiled model
    reads the same variables, so it sees the new data. *)
Definition set_value (self : t) (new_responses new_outcomes : ndarray)
    (new_time : matrix) (new_n_runs : list nat) : result t :=
  _ <- attribute (responses self) "responses" ;;
  _ <- attribute (outcomes self) "outcomes" ;;
  _ <- attribute (time self) "time" ;;
  _ <- attribute (n_runs self) "n_runs" ;;
  let self :=
    set_shared self (Some new_responses) (Some new_outcomes) (Some new_time)
      (Some new_n_runs) in
  ret (set__pymc3_model self
         (option_map
            (fun model =>
               let m := observed model in
               {| observed :=
                    {| pm_learning_model := pm_learning_model m;
                       pm_learning_model_initial := pm_learning_model_initial m;
                       pm_observation_model := pm_observation_model m;
                       pm_learning_parameters := pm_learning_parameters m;
                       pm_observation_parameters := pm_observation_parameters m;
                       pm_observation_dynamic_inputs :=
                         pm_observation_dynamic_inputs m;
                       pm_n_subjects := pm_n_subjects m;
                       pm_responses := new_responses;
                       pm_outcomes := new_outcomes;
                       pm_time := new_time;
                       pm_n_runs := new_n_runs;
                       pm_logp_method := pm_logp_method m;
                       pm_dynamic_parameters := pm_dynamic_parameters m;
                       pm_static_parameters := pm_static_parameters m;
                       pm_n_dynamic := pm_n_dynamic m;
                       pm_n_learning_returns := pm_n_learning_returns m |};
                  vars := vars model |})
            (_pymc3_model self))).

(** [re.search('.+(?=_.+__)', m)]: the longest proper prefix of [m] that is
    followed by an underscore, at least one character, and a double
    underscore. *)
Definition followed_by_suffix (rest : string) : bool :=
  match rest with
  | String "_" (String _ tail) => contains "__" tail
  | _ => false
  end.

Fixpoint longest_prefix (j : nat) (m : string) : option string :=
  match j with
  | O => None
  | S j' =>
      if followed_by_suffix (substring j (String.length m - j) m)
      then Some (substring 0 j m)
      else longest_prefix j' m
  end.

Definition search_transformed (m : string) : option string :=
  longest_prefix (String.length m) m.

(** The loop of [_fit_MAP] that maps optimiser coordinates back to the
    natural scale of each parameter. *)
Definition untransform_one (p : parameter) (raw : estimate)
    (untransformed_params : estimate) (mv : string * vector)
  : result estimate :=
  let m := fst mv in
  let matches :=
    match search_transformed m with
    | Some n => String.eqb n (name p)
    | None => false
    end in
  if matches || String.eqb m (name p) then
    if contains "__" m then
      if backward p
      then ret (setitem untransformed_params (name p)
                  (backward_eval lib p (snd mv)))
      else raise (AttributeError
             "Parameter instance has no attribute 'backward'")
    else ret (setitem untransformed_params (name p) (snd mv))
  else ret untransformed_params.

Fixpoint fold_result {A B : Type} (f : B -> A -> result B) (l : list A)
    (b : B) : result B :=
  match l with
  | [] => ret b
  | a :: rest => b' <- f b a ;; fold_result f rest b'
  end.

Definition untransform (ps : list parameter) (raw : estimate)
  : result estimate :=
  fold_result
    (fun acc p => fold_result (untransform_one p raw) raw acc) ps [].

(** [DMModel._fit_MAP(mle, recovery, suppress_table, kwargs)] *)
Definition _fit_MAP (self : t) (mle recovery_flag suppress_table : bool)
    (kw : kwargs) : result t :=
  let self :=
    if mle then print self "Finding MLE estimate"
    else print self "Finding MAP estimate" in
  let self := print self "Performing model fitting for {0} subjects" in
  let self := set_map_estimate self [] in
  model <- attribute (_pymc3_model self) "__enter__" ;;
  (* a ValueError of find_MAP is warned about and raised again *)
  found <- find_MAP lib model kw ;;
  let self := set_map_estimate self found in
  let self := set_raw_fit_values self found in
  let self := set_fit_complete self true in
  untransformed_params <- untransform (params self) (raw_fit_values self) ;;
  let self := set_fit_values self untransformed_params in
  let self := print self "PARAMETER ESTIMATES" in
  let self :=
    set_parameter_table self
      (Some {| tab_subjects := subjects self;
               tab_columns := fit_values self |}) in
  self <-
    (if recovery_flag && negb (is_None (sims self))
     then ' (self, se_cor) <- recovery self ;;
          ret (set_recovery_correlations self (Some se_cor))
     else ret self) ;;
  let self :=
    if negb suppress_table then print self "parameter_table" else self in
  shared_outcomes <- attribute (outcomes self) "outcomes" ;;
  let '(ll, bic, aic) :=
    model_fit (model_logp lib model) (map_estimate self) (vars model)
      shared_outcomes in
  let self := set_statistics self (Some ll) (Some bic) (Some aic) in
  ret (print self "Finished model fitting in {0} seconds").

(** The messages shared by [_fit_MCMC] and [_fit_variational]. *)
Definition announce_hierarchical (self : t) (hierarchical : bool) : t :=
  if hierarchical && (n_subjects self <? 2) then
    warn self
      "Warning: Hierarchical model fitting only possible with more than one subject, fitting individual subject"
  else if hierarchical && (1 <? n_subjects self) then
    print self "Performing hierarchical model fitting for {0} subjects"
  else if negb hierarchical && (1 <? n_subjects self) then
    print self "Performing non-hierarchical model fitting for {0} subjects"
  else self.

(** [DMModel._fit_MCMC(hierarchical, recovery, suppress_table, kwargs)] *)
Definition _fit_MCMC (self : t) (hierarchical recovery_flag
    suppress_table : bool) (kw : kwargs) : result t :=
  let self := print self "Fitting model using NUTS" in
  let self := announce_hierarchical self hierarchical in
  model <- attribute (_pymc3_model self) "__enter__" ;;
  sampled <- pm_sample lib model kw ;;
  let self := set_trace self (Some sampled) in
  let self :=
    set_fit_values self
      (map (fun r => (fst r, [fst (snd r)])) (df_summary lib sampled)) in
  let self := print self "PARAMETER ESTIMATES" in
  tab <- utils_parameter_table lib (df_summary lib sampled) (subjects self) ;;
  let self := set_parameter_table self (Some tab) in
  let self :=
    if negb suppress_table then print self "parameter_table" else self in
  self <-
    (if recovery_flag && negb (is_None (sims self))
     then ' (self, se_cor) <- recovery self ;;
          ret (set_recovery_correlations self (Some se_cor))
     else if recovery_flag
     then ret (warn self
       "No simulations have been performed, unable to perform parameter recovery tests")
     else ret self) ;;
  let self := set_fit_complete self true in
  ret (print self "Finished model fitting in {0} seconds").

(** [DMModel._fit_variational(hierarchical, recovery, suppress_table,
    fit_kwargs, sample_kwargs)] *)
Definition _fit_variational (self : t) (hierarchical recovery_flag
    suppress_table : bool) (fit_kwargs sample_kwargs : kwargs) : result t :=
  let self := print self "Fitting model using ADVI" in
  let self := announce_hierarchical self hierarchical in
  model <- attribute (_pymc3_model self) "__enter__" ;;
  approx <- pm_fit lib model fit_kwargs ;;
  sampled <- sample_approx lib approx sample_kwargs ;;
  let self := set_trace self (Some sampled) in
  let self := print self "Done" in
  let self :=
    set_fit_values self
      (map (fun r => (fst r, [fst (snd r)])) (df_summary lib sampled)) in
  let self := set_fit_complete self true in
  let self := print self "PARAMETER ESTIMATES" in
  tab <- utils_parameter_table lib (df_summary lib sampled) (subjects self) ;;
  let self := set_parameter_table self (Some tab) in
  let self :=
    if negb suppress_table then print self "parameter_table" else self in
  self <-
    (if recovery_flag && negb (is_None (sims self))
     then ' (self, se_cor) <- recovery self ;;
          ret (set_recovery_correlations self (Some se_cor))
     else ret self) ;;
  ret (print self "Finished model fitting in {0} seconds").

(** *** [DMModel.fit] *)

(** The five values that [fit] unpacks from the loader. *)
Record loaded : Type := {
  l_subjects : list Z;
  l_n_runs : list nat;
  l_responses : ndarray;
  l_sims : option (list row);
  l_outcomes : option ndarray
}.

(** [subjects, n_runs, responses, self.sims, loaded_outcomes = ...] *)
Definition unpack_loaded (returned : list pyobj) : result loaded :=
  match returned with
  | [a; b; c; d; e] =>
      match a, b, c with
      | ObjSubjects ids, ObjRuns runs, ObjArray resp =>
          found_sims <- match d with
                        | ObjSims found => ret found
                        | ObjNone => ret None
                        | _ => raise (TypeError "sims is not a table")
                        end ;;
          found_outcomes <- match e with
                            | ObjArray o => ret (Some o)
                            | ObjNone => ret None
                            | _ => raise (TypeError "outcomes is not an array")
                            end ;;
          ret {| l_subjects := ids; l_n_runs := runs; l_responses := resp;
                 l_sims := found_sims; l_outcomes := found_outcomes |}
      | _, _, _ => raise (TypeError "loaded data has the wrong types")
      end
  | _ :: _ :: _ :: _ :: _ :: _ :: _ =>
      raise (ValueError "too many values to unpack")
  | _ => raise (ValueError "need more values to unpack")
  end.

Definition eqb_method (stored : option string) (method : string) : bool :=
  match stored with
  | Some s => String.eqb s method
  | None => false
  end.

Definition is_in (s : string) (l : list string) : bool :=
  existsb (String.eqb s) l.

(** The body of [fit] after the loader has returned. *)
Definition fit_body (self : t) (data : loaded)
    (outcomes_given : option outcomes_arg) (fit_method : string)
    (hierarchical recovery_flag : bool) (fit_kwargs sample_kwargs : option kwargs)
    (logp_method_given : string) (suppress_table : bool) : result t :=
  let self := set_sims self (l_sims data) in
  if is_None outcomes_given && is_None (l_outcomes data) then
    raise (ValueError
      "No outcomes provided. Please provide outcomes either as an array or as a column in the response file")
  else
  outcomes_loaded <-
    match l_outcomes data, outcomes_given with
    | Some loaded_outcomes, _ => ret (AsArray loaded_outcomes)
    | None, Some given => load_outcomes given
    | None, None => raise (ValueError "No outcomes provided")
    end ;;
  let self := set_subjects self (l_subjects data) in
  let n_subjects_now := length (l_subjects data) in
  let fit_kwargs := match fit_kwargs with Some k => k | None => [] end in
  let sample_kwargs := match sample_kwargs with Some k => k | None => [] end in
  let self := set_logp_method self logp_method_given in
  (* if responses.shape[0] == 1: responses = responses[0] *)
  responses_now <-
    match l_responses data with
    | A2 [only_row] => ret (A1 only_row)
    | A1 [_] => raise (IndexError "tuple index out of range")
    | other => ret other
    end ;;
  n_response_trials <- shape_at responses_now 1 ;;
  outcomes_now <-
    match outcomes_loaded with
    | AsArray a => ret a
    | AsList _ => raise (AttributeError "'list' object has no attribute 'shape'")
    end ;;
  n_outcome_trials <- shape_at outcomes_now 0 ;;
  if negb (n_response_trials =? n_outcome_trials) then
    raise (ValueError "Responses ({0}) and outcomes ({1}) have unequal lengths")
  else
  let mle := is_in fit_method ["MLE"; "mle"] in
  n_outcome_columns <- shape_at outcomes_now 1 ;;
  let time_now :=
    map (fun i => repeat (inject_Z (Z.of_nat i)) n_outcome_columns)
        (seq 0 n_outcome_trials) in
  self <-
    (if is_None (_pymc3_model self)
        || negb (eqb_method (_fit_method self) (lower fit_method))
        || negb (n_subjects_now =? n_subjects self)
     then
       let self :=
         set_shared self (Some responses_now) (Some outcomes_now)
           (Some time_now) (Some (l_n_runs data)) in
       let self := set_n_subjects self n_subjects_now in
       _create_model self mle
     else ret self) ;;
  self <- set_value self responses_now outcomes_now time_now (l_n_runs data) ;;
  let self := set_n_subjects self n_subjects_now in
  let self := set__fit_method self (Some (lower fit_method)) in
  if is_in fit_method ["MLE"; "mle"] then
    _fit_MAP self true recovery_flag suppress_table fit_kwargs
  else if is_in fit_method ["MAP"; "map"] then
    _fit_MAP self false recovery_flag suppress_table fit_kwargs
  else if is_in fit_method ["variational"; "Variational"] then
    _fit_variational self hierarchical recovery_flag suppress_table
      fit_kwargs sample_kwargs
  else if is_in fit_method ["MCMC"; "mcmc"] then
    _fit_MCMC self hierarchical recovery_flag suppress_table sample_kwargs
  else
    raise (ValueError
      "Invalid fitting method provided ({0}). Fit method should be one of {1}").

(** [fit] over any loader: load, unpack five values, run the body. *)
Definition fit_with (loader : csv_file -> option (list Z) -> result (list pyobj))
    (self : t) (responses_file : csv_file)
    (outcomes_given : option outcomes_arg) (fit_method : string)
    (hierarchical recovery_flag : bool) (exclude : option (list Z))
    (fit_kwargs sample_kwargs : option kwargs)
    (logp_method_given : string) (suppress_table : bool) : result t :=
  returned <- loader responses_file exclude ;;
  data <- unpack_loaded returned ;;
  fit_body self data outcomes_given fit_method hierarchical recovery_flag
    fit_kwargs sample_kwargs logp_method_given suppress_table.

(** [DMModel.fit], with the loader of [DMpy.utils], called as
    [load_data(responses, exclude=exclude)]. *)
Definition fit : t -> csv_file -> option outcomes_arg -> string -> bool ->
    bool -> option (list Z) -> option kwargs -> option kwargs -> string ->
    bool -> result t :=
  fit_with (fun data_file exclude =>
              call_with_keywords load_data_parameters 1 ["exclude"]
                (load_data data_file)).

End Fitting.

(** *** Views of the state used to compare two runs *)

Definition on_state (f : t -> t) (r : result t) : result t :=
  match r with
  | inr self => inr (f self)
  | inl e => inl e
  end.

(** The state without what was printed and warned. *)
Definition quiet (self : t) : t := set_warnings (set_stdout self []) [].

(** The state without what was printed and without the name of the method
    of the last fit. *)
Definition estimates (self : t) : t :=
  set__fit_method (set_stdout self []) None.

(** Every prior of the model is uniform or flat. *)
Definition flat_priors (self : t) : bool :=
  forallb uniform_or_flat (learning_parameters self)
  && forallb (for_some uniform_or_flat) (observation_parameters self).

(** No parameter of the state, or of its compiled model, carries a
    group-level prior. *)
Definition individual_model (m : _PyMCModel) : bool :=
  forallb individual (pm_learning_parameters m)
  && forallb (for_some individual) (pm_observation_parameters m)
  && forallb individual_value (pm_dynamic_parameters m)
  && forallb individual_value (pm_static_parameters m).

Definition individual_priors (self : t) : bool :=
  forallb individual (learning_parameters self)
  && forallb (for_some individual) (observation_parameters self).

Definition individual_state (self : t) : bool :=
  individual_priors self
  && forallb individual (params self)
  && for_some (fun model => individual_model (observed model))
       (_pymc3_model self).

(** Two states with the same parameters and the same compiled model. *)
Definition same_model (before after : t) : Prop :=
  _pymc3_model after = _pymc3_model before
  /\ learning_parameters after = learning_parameters before
  /\ observation_parameters after = observation_parameters before
  /\ params after = params before.

(** *** [DMModel.simulate] *)

(** A value in a parameter dictionary: a single number, or something with a
    length (a list or an array). *)
Inductive pvalue : Type :=
| Scalar (q : Q)
| Values (l : list Q).

(** [itertools.product]: the first list varies slowest. *)
Fixpoint product (lists : list (list Q)) : list (list Q) :=
  match lists with
  | [] => [[]]
  | l :: rest => flat_map (fun x => map (cons x) (product rest)) l
  end.

(** [np.repeat(v, counts)] with an array of counts, which must have one
    entry or as many as [v]. *)
Definition np_repeat_counts (v : vector) (counts : list nat) : result vector :=
  match counts with
  | [n] => ret (np_repeat v n)
  | _ =>
      if length counts =? length v
      then ret (flat_map (fun vc => repeat (fst vc) (snd vc)) (combine v counts))
      else raise (ValueError "operands could not be broadcast together")
  end.

(** The block of [simulate] that creates the parameter combinations from
    the lists of values of all parameters. *)
Definition parameter_combinations (combinations params_from_fit : bool)
    (n_subjects : nat) (parameter_values : list (list Q))
  : result (list (list Q)) :=
  if combinations then
    let p_combinations := product parameter_values in
    ret (repeat_rows p_combinations n_subjects)
  else
    match parameter_values with
    | [] => raise (IndexError "list index out of range")
    | first :: _ =>
        if negb (all (map (fun i => length i =? length first)
                          parameter_values))
        then raise (ValueError
               "Each parameter should have the same number of values")
        else
          let p_combinations :=
            map (fun i => map (fun j => nth i j 0%Q) parameter_values)
                (seq 0 (length first)) in
          if negb params_from_fit
          then ret (repeat_rows p_combinations n_subjects)
          else ret p_combinations
    end.

(** The rows that two paired lists stand for. *)
Definition paired (c d : list Q) : list (list Q) :=
  map (fun xy => [fst xy; snd xy]) (combine c d).

(** [p_combinations[:, n]] *)
Definition column (p_combinations : list (list Q)) (n : nat) : result vector :=
  match p_combinations with
  | [] => raise (IndexError "too many indices for array")
  | _ => map_result (fun r => getitem r n) p_combinations
  end.

Definition as_list (v : pvalue) : list Q :=
  match v with
  | Scalar q => [q]
  | Values l => l
  end.

(** Parameter values taken from the last fit. *)
Definition values_from_fit (self : t) (shared_n_runs : list nat)
  : result (list (string * pvalue) * list (string * pvalue)) :=
  let learning_parameter_names := map name (learning_parameters self) in
  first <- getitem (observation_parameters self) 0 ;;
  observation_parameter_names <-
    match first with
    | None => ret None
    | Some _ =>
        names <- map_result
                   (fun o => match o with
                             | Some p => ret (name p)
                             | None =>
                                 raise (AttributeError
                                   "'NoneType' object has no attribute 'name'")
                             end)
                   (observation_parameters self) ;;
        ret (Some names)
    end ;;
  let is_observation p :=
    match observation_parameter_names with
    | Some names => is_in p names
    | None => false
    end in
  ' (sim_learning, sim_observation) <-
    fold_result
      (fun acc pv =>
         if is_in (fst pv) learning_parameter_names then
           r <- np_repeat_counts (snd pv) shared_n_runs ;;
           ret (setitem (fst acc) (fst pv) (Values r), snd acc)
         else if is_observation (fst pv) then
           r <- np_repeat_counts (snd pv) shared_n_runs ;;
           ret (fst acc, setitem (snd acc) (fst pv) (Values r))
         else ret acc)
      (fit_values self) ([], []) ;;
  let counts := map (fun n => n * n_subjects self) shared_n_runs in
  sim_learning <-
    fold_result
      (fun acc p =>
         if negb (is_in p (keys acc)) then
           let means := map mean (filter (fun i => String.eqb (name i) p)
                                         (learning_parameters self)) in
           r <- np_repeat_counts means counts ;;
           ret (setitem acc p (Values r))
         else ret acc)
      learning_parameter_names sim_learning ;;
  sim_observation <-
    match observation_parameter_names with
    | None => ret sim_observation
    | Some names =>
        fold_result
          (fun acc p =>
             if negb (is_in p (keys acc)) then
               let means :=
                 flat_map (fun o => match o with
                                    | Some i => if String.eqb (name i) p
                                                then [mean i] else []
                                    | None => []
                                    end)
                          (observation_parameters self) in
               r <- np_repeat_counts means counts ;;
               ret (setitem acc p (Values r))
             else ret acc)
          names sim_observation
    end ;;
  ret (sim_learning, sim_observation).

(** What the first part of [simulate] hands to the rest of the method. *)
Record prepared : Type := {
  prepared_self : t;
  p_combinations : list (list Q);
  prepared_outcomes : outcomes_value;
  prepared_n_subjects : nat;
  params_from_fit : bool
}.

(** [DMModel.simulate], up to the point where every parameter has its
    column of values (the statements before the row names are generated). *)
Definition simulate_parameters (self : t)
    (outcomes_given : option outcomes_arg)
    (learning_given observation_given : option (list (string * pvalue)))
    (n_subjects_given : nat) (combinations : bool) (runs_per_subject : nat)
  : result prepared :=
  if is_None learning_given && negb (fit_complete self) then
    raise (ValueError
      "No parameter values provided and model has not been fit. Must explicitly provide parameter values for simulation or fit the model first")
  else
  ' (sim_learning, sim_observation, from_fit, n_subjects_now, outcomes_now) <-
    match learning_given with
    | Some given =>
        let sim_observation :=
          match observation_given with Some o => o | None => [] end in
        let n_subjects_now := n_subjects_given * runs_per_subject in
        outcomes_now <-
          match outcomes_given with
          | Some (OutcomesArray a) => load_outcomes (OutcomesArray a)
          | Some (OutcomesList l) => load_outcomes (OutcomesList l)
          | _ => raise (ValueError "Outcomes are not in the correct format")
          end ;;
        ret (given, sim_observation, false, n_subjects_now, outcomes_now)
    | None =>
        shared_n_runs <- attribute (n_runs self) "n_runs" ;;
        shared_outcomes <- attribute (outcomes self) "outcomes" ;;
        ' (sim_learning, sim_observation) <-
          values_from_fit self shared_n_runs ;;
        ret (sim_learning, sim_observation, true, n_subjects self,
             AsArray shared_outcomes)
    end ;;
  (* any(... for i in learning_parameters.values()) *)
  _ <- match learning_given with
       | Some given => ret given
       | None =>
           raise (AttributeError
             "'NoneType' object has no attribute 'values'")
       end ;;
  let sim_learning := map (fun pv => (fst pv, as_list (snd pv))) sim_learning in
  let sim_observation :=
    map (fun pv => (fst pv, as_list (snd pv))) sim_observation in
  let parameter_values := map snd sim_learning ++ map snd sim_observation in
  combos <-
    parameter_combinations combinations from_fit n_subjects_now
      parameter_values ;;
  (* put combinations of parameters back into dictionaries *)
  ' (sim_learning, sim_observation) <-
    fold_result
      (fun acc np =>
         c <- column combos (fst np) ;;
         if is_in (snd np) (keys (fst acc))
         then ret (setitem (fst acc) (snd np) c, snd acc)
         else ret (fst acc, setitem (snd acc) (snd np) c))
      (indexed (keys sim_learning ++ keys sim_observation))
      (sim_learning, sim_observation) ;;
  let self := set_sim_learning_parameters self sim_learning in
  let self := set_sim_observation_parameters self sim_observation in
  ret {| prepared_self := self;
         p_combinations := combos;
         prepared_outcomes := outcomes_now;
         prepared_n_subjects := n_subjects_now;
         params_from_fit := from_fit |}.

Section Simulation.

(** The rest of [simulate]: row names, the compiled scan function, noise,
    choices and the response file. *)
Variable simulation : Type.
Variable run_simulation : prepared -> result (t * simulation).

Definition simulate (self : t) (outcomes_given : option outcomes_arg)
    (learning_given observation_given : option (list (string * pvalue)))
    (n_subjects_given : nat) (combinations : bool) (runs_per_subject : nat)
  : result (t * simulation) :=
  ready <- simulate_parameters self outcomes_given learning_given
             observation_given n_subjects_given combinations runs_per_subject ;;
  run_simulation ready.

End Simulation.

(** *** [DMModel.simulate]: from the parameter columns to the call of [scan] *)

(** The row numbers of the simulated output,
    [np.repeat(np.arange(0, n / runs_per_subject), runs_per_subject)], one of
    which is read for every row of [p_combinations].  The row names
    themselves only label the output and are left out. *)
Definition row_numbers (n_rows runs_per_subject : nat) : result (list nat) :=
  if runs_per_subject =? 0 then
    raise (ZeroDivisionError "integer division or modulo by zero")
  else
    let numbers :=
      repeat_rows (seq 0 (n_rows / runs_per_subject)) runs_per_subject in
    map_result (fun i => getitem numbers i) (seq 0 n_rows).

Definition no_value_provided : string :=
  "Parameter {0} has no value provided".

(** The loop that takes the values of the learning parameters out of their
    dictionary, sorted into dynamic and static. *)
Definition learning_values (learning_parameters : list parameter)
    (sim_learning : list (string * vector))
  : result (list vector * list vector) :=
  fold_result
    (fun acc i =>
       let found :=
         map snd (filter (fun pv => String.eqb (fst pv) (name i))
                         sim_learning) in
       match found with
       | [] => raise (ValueError no_value_provided)
       | _ => if dynamic i
              then ret (fst acc ++ found, snd acc)
              else ret (fst acc, snd acc ++ found)
       end)
    learning_parameters ([], []).

(** The same loop over the observation parameters. *)
Definition observation_values (observation_parameters : list (option parameter))
    (sim_observation : list (string * vector)) : result (list vector) :=
  fold_result
    (fun acc o =>
       match o with
       | None =>
           raise (AttributeError "'NoneType' object has no attribute 'name'")
       | Some i =>
           let found :=
             map snd (filter (fun pv => String.eqb (name i) (fst pv))
                             sim_observation) in
           match found with
           | [] => raise (ValueError no_value_provided)
           | _ => ret (acc ++ found)
           end
       end)
    observation_parameters [].

(** [m.T] on a matrix. *)
Definition matrix_T (m : matrix) : matrix := transpose_rows (n_cols m) m.

(** The block of [simulate] that brings the outcomes into shape: a
    one-dimensional array becomes one row, too few rows are tiled, and the
    array is transposed once unless the parameters come from a fit and once
    more when its second axis has [n_subjects] entries.  The two axis lengths
    are followed through the transpositions as NumPy does. *)
Definition simulation_outcomes (self : t) (outcomes : outcomes_value)
    (n_rows n_subjects : nat) (params_from_fit : bool) : result (t * matrix) :=
  let a := match outcomes with
           | AsArray a => a
           | AsList [] => A1 []
           | AsList l => A2 l
           end in
  let m := match a with
           | A1 v => [v]
           | A2 m => m
           end in
  ' (self, m) <-
    (if length m <? n_rows then
       let self :=
         warn self
           "Fewer outcome lists than simulated subjects, attempting to use same outcomes for each subject" in
       if length m =? 0 then
         raise (ValueError
           "Unable to repeat outcome arrays to match number of subjects, make sure to either provide a unique list of outcomes for each subject or make sure the number of simulated subjects is divisible by the number of outcomes. Number of outcome arrays = {0}, number of simulated subject = {1}")
       else ret (self, concat (repeat m (n_rows / length m)))
     else ret (self, m)) ;;
  let '(n0, n1) := (length m, n_cols m) in
  if negb ((n0 =? n_rows) || (n1 =? n_rows)) then
    raise (ValueError
      "Number of outcome lists provided does not match number of subjects")
  else
    let '(m, n0, n1) :=
      if negb params_from_fit then (matrix_T m, n1, n0) else (m, n0, n1) in
    let m := if n1 =? n_subjects then matrix_T m else m in
    ret (self, m).

(** What [simulate] gives to the compiled scan function. *)
Record simulation_inputs : Type := {
  inputs_self : t;
  sim_outcomes : matrix;
  sim_time : matrix;
  sim_static : list vector;
  sim_outputs_info : list (option vector);
  sim_observation : list vector
}.

(** [DMModel.simulate] from the row names to the call of the scan
    function. *)
Definition simulate_inputs (ready : prepared) (runs_per_subject : nat)
  : result simulation_inputs :=
  let self := prepared_self ready in
  _ <- row_numbers (length (p_combinations ready)) runs_per_subject ;;
  ' (sim_dynamic, sim_static) <-
    learning_values (learning_parameters self)
      (sim_learning_parameters self) ;;
  sim_observation <-
    match observation_model self with
    | Some _ =>
        observation_values (observation_parameters self)
          (sim_observation_parameters self)
    | None => ret []
    end ;;
  ' (self, outcomes) <-
    simulation_outcomes self (prepared_outcomes ready)
      (length (p_combinations ready)) (prepared_n_subjects ready)
      (params_from_fit ready) ;;
  let outputs_info :=
    map Some sim_dynamic
    ++ repeat None (n_learning_returns self - length sim_dynamic) in
  let time :=
    map (fun i => repeat (inject_Z (Z.of_nat i)) (n_cols outcomes))
        (seq 0 (length outcomes)) in
  ret {| inputs_self := self;
         sim_outcomes := outcomes;
         sim_time := time;
         sim_static := sim_static;
         sim_outputs_info := outputs_info;
         sim_observation := sim_observation |}.

End DMModel.

(** ** Worked instances *)

Module Examples.

Import Model.

Definition vadd (a b : vector) : vector :=
  map (fun p => (fst p + snd p)%Q) (combine a b).

Definition vsub (a b : vector) : vector :=
  map (fun p => (fst p - snd p)%Q) (combine a b).

Definition vmul (a b : vector) : vector :=
  map (fun p => (fst p * snd p)%Q) (combine a b).

(** [def cumulative(o, t, v): return v + o] *)
Definition cumulative_call : py_function :=
  fun args =>
    match args with
    | [o; t; v] => ret [vadd v o]
    | _ => raise (TypeError "cumulative() takes exactly 3 arguments")
    end.

Definition cumulative : learning_function :=
  {| call := cumulative_call;
     source := Some ["def cumulative(o, t, v):"; "    return v + o"];
     reused := 1 |}.

(** The same function with its return written as a one-element tuple. *)
Definition cumulative_tuple : learning_function :=
  {| call := cumulative_call;
     source := Some ["def cumulative(o, t, v):"; "    return (v + o,)"];
     reused := 1 |}.

(** [Parameter(name, 'fixed', mean=m, dynamic=dyn)] *)
Definition fixed_parameter (nm : string) (m : Q) (dyn : bool) : parameter :=
  mkParameter nm "fixed" true dyn None None m None None None false.

Definition outcomes_123 : matrix := [[1]; [2]; [3]]%Q.

(** The distribution that a [DMModel] over [f] with one dynamic parameter
    [v], initial value 0, builds for one subject with one run. *)
Definition fold_distribution (f : learning_function) : result _PyMCModel :=
  self <- DMModel.init f [fixed_parameter "v" 0 true] None [DMModel.ObsNone]
            "ll" ;;
  PyMCModel_init (DMModel.learning_model self)
    (DMModel.learning_model_initial self) (DMModel.learning_parameters self)
    (DMModel.observation_model self) (DMModel.observation_parameters self)
    (DMModel.observation_dynamic_inputs self) (A2 [[0; 0; 0]%Q]) false 1 []
    [1] false (A2 outcomes_123) "ll".

Definition fold_recurrence (f : learning_function) : result ndarray :=
  m <- fold_distribution f ;;
  get_value m DMModel.placeholder outcomes_123.

(** [def rescorla_wagner(o, t, v, alpha)]: the value is fed back, the
    prediction error is only recorded. *)
Definition rescorla_wagner_call : py_function :=
  fun args =>
    match args with
    | [o; t; v; alpha] =>
        let pe := vsub o v in
        let value := vadd v (vmul alpha pe) in
        ret [value; pe]
    | _ => raise (TypeError "rescorla_wagner() takes exactly 4 arguments")
    end.

Definition rescorla_wagner : learning_function :=
  {| call := rescorla_wagner_call;
     source := Some ["def rescorla_wagner(o, t, v, alpha):";
                     "    pe = o - v";
                     "    value = v + alpha * pe";
                     "    return (value, pe)"];
     reused := 1 |}.

(** The distribution built for [f] and the learning parameters [ps], one
    subject, one run, three trials. *)
Definition distribution_of (f : learning_function) (ps : list parameter)
    (method : string) : result _PyMCModel :=
  self <- DMModel.init f ps None [DMModel.ObsNone] method ;;
  PyMCModel_init (DMModel.learning_model self)
    (DMModel.learning_model_initial self) (DMModel.learning_parameters self)
    (DMModel.observation_model self) (DMModel.observation_parameters self)
    (DMModel.observation_dynamic_inputs self) (A2 [[0; 1; 1]%Q]) false 1 []
    [1] false (A2 outcomes_123) method.

(** The learning rate declared dynamic by mistake. *)
Definition misdeclared : list parameter :=
  [fixed_parameter "v" (1 # 2) true; fixed_parameter "alpha" (1 # 2) true].

(** [def drift(o, t, v, w): return v + w + o]: two states are taken back
    but a single value is returned. *)
Definition drift_call : py_function :=
  fun args =>
    match args with
    | [o; t; v; w] => ret [vadd (vadd v w) o]
    | _ => raise (TypeError "drift() takes exactly 4 arguments")
    end.

Definition drift : learning_function :=
  {| call := drift_call;
     source := Some ["def drift(o, t, v, w):"; "    return v + w + o"];
     reused := 2 |}.

Definition two_states : list parameter :=
  [fixed_parameter "v" 0 true; fixed_parameter "w" 0 true].

(** A distribution before anything is bound to it. *)
Definition unbuilt : _PyMCModel :=
  {| pm_learning_model := cumulative;
     pm_learning_model_initial := cumulative_call;
     pm_observation_model := None;
     pm_learning_parameters := [];
     pm_observation_parameters := [];
     pm_observation_dynamic_inputs := [];
     pm_n_subjects := 0;
     pm_responses := A2 [];
     pm_outcomes := A2 [];
     pm_time := [];
     pm_n_runs := [];
     pm_logp_method := "";
     pm_dynamic_parameters := [];
     pm_static_parameters := [];
     pm_n_dynamic := 0;
     pm_n_learning_returns := 0 |}.

Definition built (r : result _PyMCModel) : _PyMCModel :=
  match r with
  | inr m => m
  | inl _ => unbuilt
  end.

(** Mean absolute agreement and squared agreement, standing in for the two
    reductions of [DMpy.utils]. *)
Definition total (a : ndarray) : Q :=
  match a with
  | A1 v => fold_right Qplus 0%Q v
  | A2 m => fold_right Qplus 0%Q (concat m)
  end.

Definition example_log_likelihood (resp : matrix) (prob : ndarray) : Q :=
  (total (A2 resp) - total prob)%Q.

Definition example_r2 (resp : matrix) (prob : ndarray) : Q :=
  (total (A2 resp) * total prob)%Q.

(** Value lists for the parameter expansion. *)
Definition three_values : list Q := [(1 # 10); (2 # 10); (3 # 10)].
Definition four_values : list Q := [1; 2; 3; 4]%Q.
Definition five_values : list Q := [1; 2; 3; 4; 5]%Q.
Definition five_more : list Q := [6; 7; 8; 9; 10]%Q.

(** *** A two-subject fit *)

(** Learning rate [alpha] and initial value [v], both with a uniform prior
    on (0, 1). *)
Definition alpha_uniform : parameter :=
  mkParameter "alpha" "uniform" false false (Some 0%Q) (Some 1%Q) (1 # 2)
    None None None false.

Definition v_uniform : parameter :=
  mkParameter "v" "uniform" false true (Some 0%Q) (Some 1%Q) (1 # 2)
    None None None false.

Definition two_subjects : DMModel.loaded :=
  {| DMModel.l_subjects := [1; 2]%Z;
     DMModel.l_n_runs := [1; 1];
     DMModel.l_responses := A2 [[0; 1; 1]; [1; 1; 0]]%Q;
     DMModel.l_sims := None;
     DMModel.l_outcomes := Some (A2 [[1; 1]; [0; 1]; [1; 0]]%Q) |}.

(** A loader that honours the five-value contract of [fit]. *)
Definition five_value_loader (f : csv_file) (exclude : option (list Z))
  : result (list pyobj) :=
  ret [ObjSubjects [1; 2]%Z; ObjRuns [1; 1];
       ObjArray (A2 [[0; 1; 1]; [1; 1; 0]]%Q); ObjNone;
       ObjArray (A2 [[1; 1]; [0; 1]; [1; 0]]%Q)].

Definition response_file : csv_file :=
  {| parses := true;
     columns := ["Subject"; "Response"];
     rows := [ {| Subject := 1; Response := 0; sim_values := [] |};
               {| Subject := 1; Response := 1; sim_values := [] |};
               {| Subject := 2; Response := 1; sim_values := [] |};
               {| Subject := 2; Response := 1; sim_values := [] |} ] |}.

(** Estimation primitives that return fixed answers. *)
Definition fixed_answers : DMModel.backend :=
  {| DMModel.utils_log_likelihood := example_log_likelihood;
     DMModel.utils_r2 := example_r2;
     DMModel.find_MAP :=
       fun _ _ => ret [("v_interval__", [0; 0]%Q);
                       ("alpha_interval__", [0; 0]%Q)];
     DMModel.pm_sample := fun _ _ => ret [("alpha", [[(1 # 2); (1 # 2)]])];
     DMModel.pm_fit := fun _ _ => ret [("alpha", ((1 # 2), (1 # 10)))];
     DMModel.sample_approx :=
       fun _ _ => ret [("alpha", [[(1 # 2); (1 # 2)]])];
     DMModel.df_summary := fun _ => [("alpha", ((1 # 2), (1 # 10)))];
     DMModel.model_logp := fun _ _ => (-3)%R;
     DMModel.backward_eval :=
       fun _ x => map (fun q => ((1 # 2) + q)%Q) x;
     DMModel.utils_parameter_table :=
       fun s ids =>
         ret {| DMModel.tab_subjects := ids;
                DMModel.tab_columns :=
                  map (fun r => (fst r, [fst (snd r)])) s |};
     DMModel.recovery_analysis := fun fitted _ => ret (fitted, None) |}.

(** A state before [__init__] has run. *)
Definition blank : DMModel.t :=
  DMModel.mk rescorla_wagner [] None [] "" [] 0 rescorla_wagner_call
    None [] false None [] 0 None None None None None
    None [] [] [] None None None None None [] [] [] [].

Definition declared (r : result DMModel.t) : DMModel.t :=
  match r with
  | inr self => self
  | inl _ => blank
  end.

(** [DMModel(rescorla_wagner, [v, alpha], None, None)] *)
Definition learner : DMModel.t :=
  declared (DMModel.init rescorla_wagner [v_uniform; alpha_uniform] None
              [DMModel.ObsNone] "ll").

(** The state after [fit(..., fit_method=method)] on the two subjects. *)
Definition fitted (method : string) (hierarchical : bool) : result DMModel.t :=
  DMModel.fit_body fixed_answers learner two_subjects None
    method hierarchical false None None "ll" true.

(** Estimation primitives whose point estimate depends on the objective of
    the compiled model it is given: zeros under the log likelihood, ones
    under any other likelihood method. *)
Definition objective_sensitive : DMModel.backend :=
  {| DMModel.utils_log_likelihood := example_log_likelihood;
     DMModel.utils_r2 := example_r2;
     DMModel.find_MAP :=
       fun model _ =>
         if String.eqb (Model.pm_logp_method (DMModel.observed model)) "ll"
         then ret [("v_interval__", [0; 0]%Q);
                   ("alpha_interval__", [0; 0]%Q)]
         else ret [("v_interval__", [1; 1]%Q);
                   ("alpha_interval__", [1; 1]%Q)];
     DMModel.pm_sample := DMModel.pm_sample fixed_answers;
     DMModel.pm_fit := DMModel.pm_fit fixed_answers;
     DMModel.sample_approx := DMModel.sample_approx fixed_answers;
     DMModel.df_summary := DMModel.df_summary fixed_answers;
     DMModel.model_logp := DMModel.model_logp fixed_answers;
     DMModel.backward_eval := DMModel.backward_eval fixed_answers;
     DMModel.utils_parameter_table :=
       DMModel.utils_parameter_table fixed_answers;
     DMModel.recovery_analysis := DMModel.recovery_analysis fixed_answers |}.

(** The learner after a first fit with method MAP and the log likelihood,
    with those primitives. *)
Definition fitted_before : DMModel.t :=
  declared (DMModel.fit_body objective_sensitive learner two_subjects None
              "MAP" false false None None "ll" true).

(** Two value lists for two parameters of the learner. *)
Definition three_by_four : list (string * DMModel.pvalue) :=
  [("v", DMModel.Values three_values); ("alpha", DMModel.Values four_values)].

End Examples.

(** * Properties *)

Lemma bind_inr {A B : Type} (c : result A) (k : A -> result B) (b : B) :
  bind c k = inr b -> exists a, c = inr a /\ k a = inr b.
Proof. destruct c as [e|a]; simpl; [discriminate | eauto]. Qed.

(** ** Noise injection *)

(** *** Order of binary64 floats *)

Lemma SFcompare_antisym (x y : SpecFloat.spec_float) :
  SpecFloat.SFcompare y x = option_map CompOpp (SpecFloat.SFcompare x y).
Proof.
  destruct x as [s1|s1| |s1 m1 e1], y as [s2|s2| |s2 m2 e2]; simpl;
    try reflexivity;
    try (destruct s1; reflexivity);
    try (destruct s2; reflexivity);
    try (destruct s1, s2; reflexivity).
  pose proof (Pos.compare_antisym m1 m2) as Hm. unfold Pos.compare in Hm.
  rewrite (Z.compare_antisym e1 e2), Hm.
  destruct s1, s2; simpl; try reflexivity;
    destruct (e1 ?= e2)%Z; simpl; rewrite ?CompOpp_involutive; reflexivity.
Qed.

Lemma SFcompare_refl (x : SpecFloat.spec_float) :
  x <> SpecFloat.S754_nan -> SpecFloat.SFcompare x x = Some Eq.
Proof.
  destruct x as [s|s| |s m e]; simpl; intros Hx;
    try reflexivity; try contradiction.
  - destruct s; reflexivity.
  - rewrite Z.compare_refl, Pos.compare_cont_refl. destruct s; reflexivity.
Qed.

Lemma SFcompare_None (x y : SpecFloat.spec_float) :
  SpecFloat.SFcompare x y = None ->
  x = SpecFloat.S754_nan \/ y = SpecFloat.S754_nan.
Proof.
  destruct x as [s1|s1| |s1 m1 e1], y as [s2|s2| |s2 m2 e2]; simpl;
    intros H; try discriminate H; auto.
Qed.

Lemma is_nan_Prim2SF (x : PrimFloat.float) :
  PrimFloat.is_nan x = true <-> FloatOps.Prim2SF x = SpecFloat.S754_nan.
Proof.
  unfold PrimFloat.is_nan. rewrite FloatAxioms.eqb_spec.
  unfold SpecFloat.SFeqb. split.
  - intros H.
    destruct (FloatOps.Prim2SF x) as [s|s| |s m e] eqn:Ex; try reflexivity;
      rewrite SFcompare_refl in H by discriminate; discriminate H.
  - intros ->. reflexivity.
Qed.

Lemma leb_not_nan (x y : PrimFloat.float) :
  PrimFloat.leb x y = true ->
  PrimFloat.is_nan x = false /\ PrimFloat.is_nan y = false.
Proof.
  rewrite FloatAxioms.leb_spec. unfold SpecFloat.SFleb. intros H.
  split; apply not_true_iff_false; intros Hnan;
    apply is_nan_Prim2SF in Hnan; rewrite Hnan in H.
  - discriminate H.
  - destruct (FloatOps.Prim2SF x); discriminate H.
Qed.

Lemma leb_refl (x : PrimFloat.float) :
  PrimFloat.is_nan x = false -> PrimFloat.leb x x = true.
Proof.
  intros Hx. rewrite FloatAxioms.leb_spec. unfold SpecFloat.SFleb.
  rewrite SFcompare_refl; [reflexivity|].
  intros Hnan. apply is_nan_Prim2SF in Hnan. congruence.
Qed.

(** On numbers, "not less" is "greater or equal". *)
Lemma ltb_false_leb (x y : PrimFloat.float) :
  PrimFloat.is_nan x = false -> PrimFloat.is_nan y = false ->
  PrimFloat.ltb x y = false -> PrimFloat.leb y x = true.
Proof.
  intros Hx Hy. rewrite FloatAxioms.ltb_spec, FloatAxioms.leb_spec.
  unfold SpecFloat.SFltb, SpecFloat.SFleb.
  rewrite (SFcompare_antisym (FloatOps.Prim2SF x) (FloatOps.Prim2SF y)).
  destruct (SpecFloat.SFcompare (FloatOps.Prim2SF x) (FloatOps.Prim2SF y))
    as [[| |]|] eqn:E; simpl; intros H; try reflexivity; try discriminate H.
  apply SFcompare_None in E. exfalso.
  destruct E as [E|E]; apply is_nan_Prim2SF in E; congruence.
Qed.

Lemma leb_ltb_false (x y : PrimFloat.float) :
  PrimFloat.leb x y = true -> PrimFloat.ltb y x = false.
Proof.
  rewrite FloatAxioms.ltb_spec, FloatAxioms.leb_spec.
  unfold SpecFloat.SFltb, SpecFloat.SFleb.
  rewrite (SFcompare_antisym (FloatOps.Prim2SF x) (FloatOps.Prim2SF y)).
  destruct (SpecFloat.SFcompare (FloatOps.Prim2SF x) (FloatOps.Prim2SF y))
    as [[| |]|]; simpl; intros H; try reflexivity; discriminate H.
Qed.

Lemma ltb_leb (x y : PrimFloat.float) :
  PrimFloat.ltb x y = true -> PrimFloat.leb x y = true.
Proof.
  rewrite FloatAxioms.ltb_spec, FloatAxioms.leb_spec.
  unfold SpecFloat.SFltb, SpecFloat.SFleb.
  destruct (SpecFloat.SFcompare (FloatOps.Prim2SF x) (FloatOps.Prim2SF y))
    as [[| |]|]; intros H; try reflexivity; discriminate H.
Qed.

Lemma ltb_nan_l (x y : PrimFloat.float) :
  PrimFloat.is_nan x = true -> PrimFloat.ltb x y = false.
Proof.
  intros Hx. apply is_nan_Prim2SF in Hx.
  rewrite FloatAxioms.ltb_spec, Hx. reflexivity.
Qed.

Lemma ltb_nan_r (x y : PrimFloat.float) :
  PrimFloat.is_nan y = true -> PrimFloat.ltb x y = false.
Proof.
  intros Hy. apply is_nan_Prim2SF in Hy.
  rewrite FloatAxioms.ltb_spec, Hy. unfold SpecFloat.SFltb.
  destruct (FloatOps.Prim2SF x); reflexivity.
Qed.

(** The two masked assignments on one entry. *)
Lemma clip_entry (lower_bound upper_bound z : PrimFloat.float) :
  PrimFloat.leb lower_bound upper_bound = true ->
  let u := if PrimFloat.ltb upper_bound z then upper_bound else z in
  let y := if PrimFloat.ltb u lower_bound then lower_bound else u in
  if PrimFloat.is_nan z
  then y = z
  else PrimFloat.leb lower_bound y = true
       /\ PrimFloat.leb y upper_bound = true.
Proof.
  intros Hbounds. cbv zeta.
  destruct (leb_not_nan _ _ Hbounds) as [Hlower Hupper].
  destruct (PrimFloat.is_nan z) eqn:Hz.
  - rewrite (ltb_nan_r upper_bound z Hz), (ltb_nan_l z lower_bound Hz).
    reflexivity.
  - destruct (PrimFloat.ltb upper_bound z) eqn:Hup.
    + rewrite (leb_ltb_false _ _ Hbounds).
      split; [exact Hbounds | apply leb_refl; exact Hupper].
    + destruct (PrimFloat.ltb z lower_bound) eqn:Hlow.
      * split; [apply leb_refl; exact Hlower | exact Hbounds].
      * split; apply ltb_false_leb; assumption.
Qed.

(** The claim of C10 as it is written, on an array that holds a NaN: the
    entry passes both masks and is returned as it is, outside the
    bounds. *)
Lemma add_noise_nan_counterexample :
  PrimFloat.leb PrimFloat.zero PrimFloat.one = true
  /\ Model._add_noise (fun _ _ n => repeat PrimFloat.zero n)
       [PrimFloat.nan; PrimFloat.two] PrimFloat.zero PrimFloat.zero
       PrimFloat.zero PrimFloat.one
     = [PrimFloat.nan; PrimFloat.one]
  /\ PrimFloat.leb PrimFloat.zero PrimFloat.nan = false
  /\ PrimFloat.leb PrimFloat.nan PrimFloat.one = false.
Proof. repeat split; vm_compute; reflexivity. Qed.

(** C10, as the code has it.  Whatever the draw of the noise, for bounds
    with [lower_bound <= upper_bound], every entry of the array that
    [_add_noise] returns whose noisy value [timeseries + noise] is a number
    lies between [lower_bound] and [upper_bound]; an entry whose noisy
    value is NaN is returned as that NaN. *)
Theorem add_noise_within_bounds
    (noise : PrimFloat.float -> PrimFloat.float -> nat -> list PrimFloat.float)
    (timeseries : list PrimFloat.float)
    (mean sd lower_bound upper_bound : PrimFloat.float) :
  PrimFloat.leb lower_bound upper_bound = true ->
  Forall2 (fun z y =>
             if PrimFloat.is_nan z
             then y = z
             else PrimFloat.leb lower_bound y = true
                  /\ PrimFloat.leb y upper_bound = true)
          (map (fun tn => PrimFloat.add (fst tn) (snd tn))
               (combine timeseries (noise mean sd (length timeseries))))
          (Model._add_noise noise timeseries mean sd lower_bound upper_bound).
Proof.
  intros Hbounds. unfold Model._add_noise.
  generalize (combine timeseries (noise mean sd (length timeseries))) as l.
  induction l as [|tn l IH]; simpl; constructor; [|exact IH].
  exact (clip_entry lower_bound upper_bound _ Hbounds).
Qed.

Lemma add_noise_within_bounds_witness :
  PrimFloat.leb PrimFloat.zero PrimFloat.one = true
  /\ Forall2 (fun z y =>
                if PrimFloat.is_nan z
                then y = z
                else PrimFloat.leb PrimFloat.zero y = true
                     /\ PrimFloat.leb y PrimFloat.one = true)
       (map (fun tn => PrimFloat.add (fst tn) (snd tn))
            (combine [PrimFloat.two; PrimFloat.nan]
                     (repeat PrimFloat.one (length [PrimFloat.two; PrimFloat.nan]))))
       (Model._add_noise (fun _ _ n => repeat PrimFloat.one n)
          [PrimFloat.two; PrimFloat.nan] PrimFloat.zero PrimFloat.one
          PrimFloat.zero PrimFloat.one).
Proof.
  split; [reflexivity|].
  apply (add_noise_within_bounds (fun _ _ n => repeat PrimFloat.one n)
           [PrimFloat.two; PrimFloat.nan] PrimFloat.zero PrimFloat.one
           PrimFloat.zero PrimFloat.one).
  reflexivity.
Defined.

(** ** Parameter expansion in [simulate] *)

Lemma length_product_cons (l : list Q) (rest : list (list Q)) :
  length (DMModel.product (l :: rest))
  = length l * length (DMModel.product rest).
Proof.
  simpl. induction l as [|x l IH]; simpl.
  - reflexivity.
  - rewrite length_app, length_map, IH. reflexivity.
Qed.

Lemma length_product (lists : list (list Q)) :
  length (DMModel.product lists)
  = fold_right Nat.mul 1 (map (@length Q) lists).
Proof.
  induction lists as [|l rest IH].
  - reflexivity.
  - rewrite length_product_cons, IH. reflexivity.
Qed.

Lemma length_repeat_rows {A : Type} (rows : list A) (n : nat) :
  length (repeat_rows rows n) = length rows * n.
Proof.
  unfold repeat_rows. induction rows as [|r rows IH]; simpl.
  - reflexivity.
  - rewrite length_app, repeat_length, IH. reflexivity.
Qed.

Lemma all_lengths_false (first odd : list Q) (values : list (list Q)) :
  In odd values -> length odd <> length first ->
  all (map (fun i => length i =? length first) values) = false.
Proof.
  intros Hin Hneq. unfold all.
  induction values as [|v values IH]; simpl.
  - destruct Hin.
  - destruct Hin as [-> | Hin].
    + apply Nat.eqb_neq in Hneq. rewrite Hneq. reflexivity.
    + rewrite (IH Hin). apply andb_false_r.
Qed.

Lemma product_width (lists : list (list Q)) :
  Forall (fun r => length r = length lists) (DMModel.product lists).
Proof.
  induction lists as [|l rest IH]; simpl.
  - repeat constructor.
  - apply Forall_forall. intros r Hr.
    apply in_flat_map in Hr as [x [_ Hr]].
    apply in_map_iff in Hr as [r' [<- Hr']].
    rewrite Forall_forall in IH. simpl. f_equal. auto.
Qed.

Lemma In_repeat_rows {A : Type} (rows : list A) (n : nat) (r : A) :
  In r (repeat_rows rows n) -> In r rows.
Proof.
  unfold repeat_rows. intros H.
  apply in_flat_map in H as [x [Hx Hr]].
  apply repeat_spec in Hr. subst r. exact Hx.
Qed.

Lemma parameter_combinations_width (combinations params_from_fit : bool)
    (n_subjects : nat) (parameter_values rows : list (list Q)) :
  DMModel.parameter_combinations combinations params_from_fit n_subjects
    parameter_values = inr rows ->
  Forall (fun r => length r = length parameter_values) rows.
Proof.
  unfold DMModel.parameter_combinations. intros H.
  destruct combinations.
  - injection H as <-.
    apply Forall_forall. intros r Hr. apply In_repeat_rows in Hr.
    pose proof (product_width parameter_values) as Hw.
    rewrite Forall_forall in Hw. auto.
  - destruct parameter_values as [|first others]; [discriminate H|].
    destruct (negb (all _)); [discriminate H|].
    assert (Hrows : Forall (fun r => length r = length (first :: others))
                      (map (fun i => map (fun j => nth i j 0%Q)
                                         (first :: others))
                           (seq 0 (length first)))).
    { apply Forall_forall. intros r Hr.
      apply in_map_iff in Hr as [i [<- _]]. apply length_map. }
    destruct (negb params_from_fit); injection H as <-; [|exact Hrows].
    apply Forall_forall. intros r Hr. apply In_repeat_rows in Hr.
    rewrite Forall_forall in Hrows. auto.
Qed.

Lemma map_result_In_total {A B : Type} (f : A -> result B) (l : list A) :
  (forall a, In a l -> exists b, f a = inr b) ->
  exists r, Model.map_result f l = inr r.
Proof.
  induction l as [|a l IH]; simpl; intros Hf; [eauto|].
  destruct (Hf a (or_introl eq_refl)) as [b ->]. simpl.
  destruct IH as [r ->]; [intros a' Ha'; apply Hf; right; exact Ha'|].
  simpl. eauto.
Qed.

Lemma fold_result_total {A B : Type} (f : B -> A -> result B) (l : list A)
    (b : B) :
  (forall acc a, In a l -> exists b', f acc a = inr b') ->
  exists r, DMModel.fold_result f l b = inr r.
Proof.
  revert b. induction l as [|a l IH]; simpl; intros b Hf; [eauto|].
  destruct (Hf b a (or_introl eq_refl)) as [b' ->]. simpl.
  apply IH. intros acc a' Ha'. apply Hf. right. exact Ha'.
Qed.

Lemma column_total (rows : list (list Q)) (width n : nat) :
  rows <> [] ->
  Forall (fun r => length r = width) rows ->
  n < width ->
  exists c, DMModel.column rows n = inr c.
Proof.
  intros Hne Hrows Hn. unfold DMModel.column.
  destruct rows as [|r rows]; [contradiction|].
  apply map_result_In_total. intros a Ha.
  rewrite Forall_forall in Hrows. specialize (Hrows a Ha).
  unfold getitem.
  destruct (nth_error a n) eqn:E; [eauto|].
  apply nth_error_None in E. lia.
Qed.

Lemma In_indexed {A : Type} (l : list A) (i : nat) (a : A) :
  In (i, a) (indexed l) -> i < length l.
Proof.
  unfold indexed. intros H. apply in_combine_l in H.
  apply in_seq in H. lia.
Qed.

(** The first part of [simulate] with supplied parameter values: the
    outcomes are accepted when they are an array or a list, and the rows of
    parameter values are those of the expansion block applied to the value
    lists of both dictionaries with [n_subjects * runs_per_subject]
    replications. *)
Lemma simulate_parameters_supplied (self : DMModel.t) (og : outcomes_arg)
    (given : list (string * DMModel.pvalue))
    (observation : option (list (string * DMModel.pvalue)))
    (n_subjects : nat) (combinations : bool) (runs_per_subject : nat) :
  (exists a, og = OutcomesArray a) \/ (exists l, og = OutcomesList l) ->
  let values :=
    map (fun pv => DMModel.as_list (snd pv)) given
    ++ map (fun pv => DMModel.as_list (snd pv))
           (match observation with Some o => o | None => [] end) in
  match DMModel.parameter_combinations combinations false
          (n_subjects * runs_per_subject) values with
  | inl e =>
      DMModel.simulate_parameters self (Some og) (Some given) observation
        n_subjects combinations runs_per_subject = inl e
  | inr [] =>
      succeeded
        (DMModel.simulate_parameters self (Some og) (Some given) observation
           n_subjects combinations runs_per_subject) = true ->
      values = []
  | inr combos =>
      exists ready,
        DMModel.simulate_parameters self (Some og) (Some given) observation
          n_subjects combinations runs_per_subject = inr ready
        /\ DMModel.p_combinations ready = combos
        /\ DMModel.prepared_n_subjects ready = n_subjects * runs_per_subject
        /\ DMModel.params_from_fit ready = false
  end.
Proof.
  intros Hog. cbv zeta. unfold DMModel.simulate_parameters.
  cbn [Params.is_None andb].
  assert (Hloaded : exists v,
    match Some og with
    | Some (OutcomesArray a) => load_outcomes (OutcomesArray a)
    | Some (OutcomesList l) => load_outcomes (OutcomesList l)
    | _ => raise (ValueError "Outcomes are not in the correct format")
    end = inr v).
  { destruct Hog as [[a ->]|[l ->]]; simpl; eauto. }
  destruct Hloaded as [v ->]. cbn [bind ret].
  rewrite !map_map. cbn [fst snd].
  set (values := map (fun x : string * DMModel.pvalue => DMModel.as_list (snd x)) given
                 ++ map (fun x : string * DMModel.pvalue => DMModel.as_list (snd x))
                        (match observation with Some o => o | None => [] end)).
  destruct (DMModel.parameter_combinations combinations false
              (n_subjects * runs_per_subject) values) as [e|combos] eqn:Hcombos;
    [reflexivity|].
  cbn [bind].
  pose proof (parameter_combinations_width _ _ _ _ _ Hcombos) as Hwidth.
  destruct combos as [|row combos].
  - intros Hok.
    destruct values as [|first others] eqn:Hvalues; [reflexivity|].
    exfalso.
    assert (Hkeys : exists k ks,
      DMModel.keys (map (fun x : string * DMModel.pvalue =>
                           (fst x, DMModel.as_list (snd x))) given)
      ++ DMModel.keys (map (fun x : string * DMModel.pvalue =>
                              (fst x, DMModel.as_list (snd x)))
                           (match observation with Some o => o | None => [] end))
      = k :: ks).
    { subst values. unfold DMModel.keys.
      destruct given as [|[k v'] given]; simpl in *.
      - destruct (match observation with Some o => o | None => [] end)
          as [|[k v'] rest]; [discriminate Hvalues | simpl; eauto].
      - eauto. }
    destruct Hkeys as [k [ks Hkeys]].
    rewrite Hkeys in Hok. unfold indexed in Hok. cbn in Hok.
    discriminate Hok.
  - match goal with
    | |- exists ready, bind (DMModel.fold_result ?f ?l ?b) _ = _ /\ _ =>
        destruct (fold_result_total f l b) as [[sl so] Hfold]
    end.
    { intros acc [i key] Hin. apply In_indexed in Hin.
      destruct (column_total (row :: combos) (length values) i)
        as [c Hc]; [discriminate | exact Hwidth | |].
      - unfold DMModel.keys in Hin.
        rewrite length_app, !length_map in Hin.
        subst values. rewrite length_app, !length_map. exact Hin.
      - cbn [fst snd]. rewrite Hc. cbn [bind].
        destruct (DMModel.is_in key _); eauto. }
    rewrite Hfold. cbn [bind]. eexists. split; [reflexivity|].
    cbn. auto.
Qed.

Lemma product_two (a b : list Q) :
  DMModel.product [a; b] = flat_map (fun x => map (fun y => [x; y]) b) a.
Proof.
  cbn [DMModel.product].
  assert (Hb : flat_map (fun x : Q => map (cons x) [[]]) b
               = map (fun y => [y]) b).
  { induction b as [|y b IH]; simpl; [reflexivity | f_equal; exact IH]. }
  rewrite Hb. apply flat_map_ext. intros x. rewrite map_map. reflexivity.
Qed.




(** ** The recurrence *)

(** With the two sequences that [get_value] gives to [scan], the first
    value the initial model returns is its second argument: the row of
    ones, not the first dynamic parameter. *)
Lemma function_wrapper_first_output (f : py_function) (n_returns n_reused : nat)
    (o t : vector) (rest : list vector) :
  0 < n_reused ->
  exists others,
    Utils.function_wrapper f n_returns n_reused (o :: t :: rest)
    = inr (t :: others).
Proof.
  intros Hpos. destruct n_reused as [|k]; [lia|].
  unfold Utils.function_wrapper. simpl. eexists. reflexivity.
Qed.

(** C2. For the model [(v + o)] with one dynamic parameter of initial value
    0 and the outcomes [1, 2, 3], the recurrence is [1, 1, 3]: the trial-0
    record is the row of ones and not the initial value, so the result is
    not [0, 1, 3].  When the return is written as the tuple [(v + o,)] the
    counted returns are two and the evaluation raises the mismatch error. *)
Theorem fold_recurrence_trial_0 :
  Examples.fold_recurrence Examples.cumulative
  = inr (A2 [[1]; [1]; [3]]%Q)
  /\ Examples.fold_recurrence Examples.cumulative
     <> inr (A2 [[0]; [1]; [3]]%Q)
  /\ Examples.fold_recurrence Examples.cumulative_tuple
     = inl (ValueError Model.mismatch_message).
Proof.
  assert (H : Examples.fold_recurrence Examples.cumulative
              = inr (A2 [[1]; [1]; [3]]%Q)) by (vm_compute; reflexivity).
  split; [exact H | split].
  - rewrite H. intros Heq. discriminate Heq.
  - vm_compute. reflexivity.
Qed.

(** The claim of C3 as it is written, on the recurrence: a model whose
    declared dynamic count differs from the reused outputs of its step
    function fails with a configuration error. *)
Lemma recurrence_arity_counterexample :
  match Examples.distribution_of Examples.rescorla_wagner
          Examples.misdeclared "ll" with
  | inr m =>
      Model.pm_n_dynamic m = 2
      /\ Model.reused (Model.pm_learning_model m) = 1
      /\ Model.get_value m DMModel.placeholder Examples.outcomes_123
         = inr (A2 [[1]; [6 # 8]; [176 # 128]]%Q)
  | inl _ => False
  end
  /\ ~ (forall (self : Model._PyMCModel) (pt : Model.point) (x : matrix),
          Model.pm_n_dynamic self <> Model.reused (Model.pm_learning_model self) ->
          exists message, Model.get_value self pt x = inl (ValueError message)).
Proof.
  assert (H : exists m,
             Examples.distribution_of Examples.rescorla_wagner
               Examples.misdeclared "ll" = inr m
             /\ Model.pm_n_dynamic m = 2
             /\ Model.reused (Model.pm_learning_model m) = 1
             /\ Model.get_value m DMModel.placeholder Examples.outcomes_123
                = inr (A2 [[1]; [6 # 8]; [176 # 128]]%Q)).
  { eexists. split; [vm_compute; reflexivity|].
    split; [reflexivity | split; [reflexivity | vm_compute; reflexivity]]. }
  destruct H as [m [Hm [Hdyn [Hreused Hvalue]]]].
  split.
  - rewrite Hm. auto.
  - intros Hclaim.
    destruct (Hclaim m DMModel.placeholder Examples.outcomes_123) as [message Hfail].
    + rewrite Hdyn, Hreused. discriminate.
    + rewrite Hvalue in Hfail. discriminate Hfail.
Qed.


Lemma initial_state_outputs_info (d : list vector) (n k : nat) :
  initial_state (Model.outputs_info_of d n k) = d.
Proof.
  unfold Model.outputs_info_of, initial_state.
  rewrite flat_map_app.
  assert (Hnone : forall j, flat_map (fun o : option vector =>
                      match o with Some v => [v] | None => [] end)
                    (repeat None j) = []).
  { induction j as [|j IH]; simpl; auto. }
  rewrite Hnone, app_nil_r.
  induction d as [|v d IH]; simpl; [reflexivity | rewrite IH; reflexivity].
Qed.

Lemma contains_none_as_outputs_info :
  contains "None as outputs_info" none_as_outputs_info = true.
Proof. vm_compute. reflexivity. Qed.

(** C3, as the code has it. When the prelude of [get_value] succeeds and the
    step function returns a number of values that differs from the length
    of the (non-empty) [outputs_info] list, [get_value] raises the mismatch
    [ValueError] and returns nothing. *)
Theorem recurrence_arity_mismatch (self : Model._PyMCModel)
    (pt : Model.point) (x : matrix) (reshaped : option (list ndarray))
    (outs : list vector) :
  Model.observation_parameters_reshaped self pt = inr reshaped ->
  Model.call (Model.pm_learning_model self) (Model.traced_arguments self pt)
  = inr outs ->
  length outs <> length (Model.outputs_info self pt) ->
  Model.outputs_info self pt <> [] ->
  Model.get_value self pt x = inl (ValueError Model.mismatch_message).
Proof.
  intros Hprelude Htrace Hcount Hnonempty.
  unfold Model.get_value. rewrite Hprelude. cbn [bind].
  unfold scan at 1. cbn [map].
  fold (Model.outputs_info self pt).
  unfold Model.outputs_info at 1.
  rewrite initial_state_outputs_info.
  unfold Model.traced_arguments in Htrace. cbn [app] in Htrace |- *.
  rewrite Htrace. cbn [bind].
  fold (Model.outputs_info self pt).
  apply Nat.eqb_neq in Hcount. rewrite Hcount.
  destruct (Model.outputs_info self pt) as [|i rest] eqn:Hinfo;
    [contradiction|].
  cbn [negb andb length Nat.eqb raise bind].
  rewrite contains_none_as_outputs_info. reflexivity.
Qed.

(** More dynamic parameters than returned values is such a mismatch. *)
Lemma more_dynamic_than_returns (self : Model._PyMCModel) (pt : Model.point)
    (outs : list vector) :
  length outs < length (Model.pm_dynamic_parameters self) ->
  length outs <> length (Model.outputs_info self pt)
  /\ Model.outputs_info self pt <> [].
Proof.
  intros Hless.
  assert (Hlen : length (Model.pm_dynamic_parameters self)
                 <= length (Model.outputs_info self pt)).
  { unfold Model.outputs_info, Model.outputs_info_of,
      Model.dynamic_parameters_reshaped.
    rewrite length_app, !length_map. lia. }
  split; [lia|].
  intros Hnil. rewrite Hnil in Hlen. simpl in Hlen. lia.
Qed.

Lemma recurrence_arity_mismatch_witness :
  Model.get_value
    (Examples.built (Examples.distribution_of Examples.drift
                       Examples.two_states "ll"))
    DMModel.placeholder Examples.outcomes_123
  = inl (ValueError Model.mismatch_message).
Proof.
  apply (recurrence_arity_mismatch
           (Examples.built (Examples.distribution_of Examples.drift
                              Examples.two_states "ll"))
           DMModel.placeholder Examples.outcomes_123 None [[]]).
  - reflexivity.
  - reflexivity.
  - vm_compute. intros H; discriminate H.
  - vm_compute. intros H; discriminate H.
Defined.

(** ** The objective *)

(** C4. On the probabilities that [get_value] returns, [logp] is the
    log-likelihood reduction for method ['ll'], the R-squared reduction
    times 10000 for method ['r2'], and a [ValueError] for any other method. *)
Theorem logp_objective (log_likelihood r2 : matrix -> ndarray -> Q)
    (self : Model._PyMCModel) (pt : Model.point) (x : matrix)
    (prob : ndarray) :
  Model.get_value self pt x = inr prob ->
  (Model.pm_logp_method self = "ll" ->
   Model.logp log_likelihood r2 self pt x
   = inr (log_likelihood (Model.responses_view self) prob))
  /\ (Model.pm_logp_method self = "r2" ->
      Model.logp log_likelihood r2 self pt x
      = inr (r2 (Model.responses_view self) prob * 10000)%Q)
  /\ (Model.pm_logp_method self <> "ll" ->
      Model.pm_logp_method self <> "r2" ->
      Model.logp log_likelihood r2 self pt x
      = inl (ValueError "Invalid likelihood function specified")).
Proof.
  intros Hprob. unfold Model.logp. rewrite Hprob. cbn [bind].
  split; [|split].
  - intros ->. reflexivity.
  - intros ->. reflexivity.
  - intros Hll Hr2.
    apply String.eqb_neq in Hll. apply String.eqb_neq in Hr2.
    rewrite Hll, Hr2. reflexivity.
Qed.

Lemma logp_objective_witness :
  Model.logp Examples.example_log_likelihood Examples.example_r2
    (Examples.built (Examples.distribution_of Examples.rescorla_wagner
                       Examples.misdeclared "ll"))
    DMModel.placeholder Examples.outcomes_123
  = inr ((2 - (1 + (6 # 8) + (176 # 128)))%Q)
  /\ Model.logp Examples.example_log_likelihood Examples.example_r2
       (Examples.built (Examples.distribution_of Examples.rescorla_wagner
                          Examples.misdeclared "r2"))
       DMModel.placeholder Examples.outcomes_123
     = inr ((2 * (1 + (6 # 8) + (176 # 128)) * 10000)%Q)
  /\ Model.logp Examples.example_log_likelihood Examples.example_r2
       (Examples.built (Examples.distribution_of Examples.rescorla_wagner
                          Examples.misdeclared "aic"))
       DMModel.placeholder Examples.outcomes_123
     = inl (ValueError "Invalid likelihood function specified").
Proof.
  pose (model := fun method =>
          Examples.built (Examples.distribution_of Examples.rescorla_wagner
                            Examples.misdeclared method)).
  assert (Hprob : forall method,
             Model.get_value (model method) DMModel.placeholder
               Examples.outcomes_123
             = inr (A2 [[1]; [6 # 8]; [176 # 128]]%Q)).
  { intros method. vm_compute. reflexivity. }
  pose proof (logp_objective Examples.example_log_likelihood
                Examples.example_r2 (model "ll") DMModel.placeholder
                Examples.outcomes_123 _ (Hprob "ll")) as [Hll _].
  pose proof (logp_objective Examples.example_log_likelihood
                Examples.example_r2 (model "r2") DMModel.placeholder
                Examples.outcomes_123 _ (Hprob "r2")) as [_ [Hr2 _]].
  pose proof (logp_objective Examples.example_log_likelihood
                Examples.example_r2 (model "aic") DMModel.placeholder
                Examples.outcomes_123 _ (Hprob "aic")) as [_ [_ Hother]].
  split; [|split].
  - fold (model "ll"). rewrite (Hll eq_refl). vm_compute. reflexivity.
  - fold (model "r2"). rewrite (Hr2 eq_refl). vm_compute. reflexivity.
  - fold (model "aic"). apply Hother.
    + vm_compute. intros H; discriminate H.
    + vm_compute. intros H; discriminate H.
Defined.

(** ** The data loader *)

(** What [load_data] returns has three components, which cannot be unpacked
    into the five names of [fit]. *)
Lemma load_data_three_values (data_file : csv_file) (returned : list pyobj) :
  Utils.load_data data_file = inr returned ->
  length returned = 3
  /\ DMModel.unpack_loaded returned
     = inl (ValueError "need more values to unpack").
Proof.
  unfold Utils.load_data. intros H.
  destruct (negb (parses data_file)); [discriminate H|].
  destruct (negb (existsb (String.eqb "Subject") (columns data_file))
            || negb (existsb (String.eqb "Response") (columns data_file)));
    [discriminate H|].
  destruct (length (unique (map Subject (rows data_file))) =? 0);
    [discriminate H|].
  destruct (negb (length (rows data_file)
                  mod length (unique (map Subject (rows data_file))) =? 0));
    [discriminate H|].
  apply bind_inr in H as [pivoted [_ H]].
  injection H as <-. split; reflexivity.
Qed.

(** C1. [fit] calls the loader with the keyword [exclude], which
    [load_data(data_file)] does not take: every call of [fit] raises a
    [TypeError] before anything is unpacked or compared. *)
Theorem fit_raises_TypeError (lib : DMModel.backend) (self : DMModel.t)
    (responses : csv_file) (outcomes : option outcomes_arg)
    (fit_method : string) (hierarchical recovery : bool)
    (exclude : option (list Z)) (fit_kwargs sample_kwargs : option DMModel.kwargs)
    (logp_method : string) (suppress_table : bool) :
  DMModel.fit lib self responses outcomes fit_method hierarchical recovery
    exclude fit_kwargs sample_kwargs logp_method suppress_table
  = inl (TypeError "got an unexpected keyword argument").
Proof. reflexivity. Qed.

(** ** Simulation from a fit *)

(** C8. Without learning parameters and without a completed fit,
    [simulate] raises the configuration error.  With a completed fit it
    collects the fitted values and then reads [learning_parameters.values()]
    of [None]: it never returns a result, and on the fitted two-subject
    learner it raises [AttributeError]. *)
Theorem simulate_without_parameters (simulation : Type)
    (run_simulation : DMModel.prepared -> result (DMModel.t * simulation))
    (self : DMModel.t) (outcomes : option outcomes_arg)
    (observation_parameters : option (list (string * DMModel.pvalue)))
    (n_subjects : nat) (combinations : bool) (runs_per_subject : nat) :
  succeeded (DMModel.simulate simulation run_simulation self outcomes None
               observation_parameters n_subjects combinations runs_per_subject)
  = false
  /\ (if DMModel.fit_complete self then True
      else DMModel.simulate simulation run_simulation self outcomes None
             observation_parameters n_subjects combinations runs_per_subject
           = inl (ValueError
                "No parameter values provided and model has not been fit. Must explicitly provide parameter values for simulation or fit the model first"))
  /\ (s <- Examples.fitted "MAP" false ;;
      DMModel.simulate simulation run_simulation s outcomes None
        observation_parameters n_subjects combinations runs_per_subject)
     = inl (AttributeError "'NoneType' object has no attribute 'values'").
Proof.
  split; [|split].
  - unfold DMModel.simulate, DMModel.simulate_parameters.
    destruct (DMModel.fit_complete self); cbn [Params.is_None negb andb].
    + destruct (DMModel.attribute (DMModel.n_runs self) "n_runs");
        [reflexivity|]. cbn [bind].
      destruct (DMModel.attribute (DMModel.outcomes self) "outcomes");
        [reflexivity|]. cbn [bind].
      destruct (DMModel.values_from_fit self l) as [e|[sl so]];
        [reflexivity|]. reflexivity.
    + reflexivity.
  - destruct (DMModel.fit_complete self) eqn:Hfit; [exact I|].
    unfold DMModel.simulate, DMModel.simulate_parameters.
    rewrite Hfit. reflexivity.
  - lazy. reflexivity.
Qed.

(** ** Fit statistics *)

(** [recovery] only replaces the parameter table. *)
Lemma recovery_table (lib : DMModel.backend) (self s' : DMModel.t)
    (se_cor : option matrix) :
  DMModel.recovery lib self = inr (s', se_cor) ->
  exists merged, s' = DMModel.set_parameter_table self (Some merged).
Proof.
  unfold DMModel.recovery. intros H.
  destruct (DMModel.sims self) as [simulated|]; [|discriminate H].
  destruct (DMModel.parameter_table self) as [fitted|]; [|discriminate H].
  apply bind_inr in H as [[merged c] [_ H]].
  injection H as <- <-. eauto.
Qed.

Lemma fit_MAP_statistics (lib : DMModel.backend) (self s' : DMModel.t)
    (mle recovery suppress_table : bool) (kw : DMModel.kwargs) :
  DMModel._fit_MAP lib self mle recovery suppress_table kw = inr s' ->
  exists model o,
    DMModel._pymc3_model s' = Some model
    /\ DMModel.outcomes s' = Some o
    /\ DMModel.log_likelihood s'
       = Some (DMModel.model_logp lib model (DMModel.map_estimate s'))
    /\ DMModel.BIC s'
       = Some (INR (length (DMModel.vars model))
               * ln (INR (hd 0%nat (shape o)))
               - 2 * DMModel.model_logp lib model (DMModel.map_estimate s'))%R
    /\ DMModel.AIC s'
       = Some (2 * (INR (length (DMModel.vars model))
                    - DMModel.model_logp lib model (DMModel.map_estimate s')))%R.
Proof.
  unfold DMModel._fit_MAP. intros H.
  apply bind_inr in H as [model [Hmodel H]].
  apply bind_inr in H as [found [Hfound H]].
  apply bind_inr in H as [untransformed [Huntransformed H]].
  apply bind_inr in H as [s1 [Hrecovery H]].
  apply bind_inr in H as [o [Houtcomes H]].
  unfold model_fit in H. cbn [DMModel.print] in H. injection H as <-.
  assert (Hkeep : DMModel._pymc3_model s1 = Some model
                  /\ DMModel.outcomes s1 = DMModel.outcomes
                       (if negb suppress_table then DMModel.print s1 "parameter_table" else s1)
                  /\ DMModel.map_estimate s1 = found).
  { destruct (recovery && negb (Params.is_None _)) eqn:Hflag in Hrecovery.
    - apply bind_inr in Hrecovery as [[s2 se_cor] [Hrec Hret]].
      injection Hret as <-.
      apply recovery_table in Hrec as [merged ->].
      unfold DMModel.attribute in Hmodel.
      destruct mle; cbn in Hmodel |- *;
        destruct (DMModel._pymc3_model self); try discriminate Hmodel;
        injection Hmodel as ->; destruct suppress_table; auto.
    - injection Hrecovery as <-.
      unfold DMModel.attribute in Hmodel.
      destruct mle; cbn in Hmodel |- *;
        destruct (DMModel._pymc3_model self); try discriminate Hmodel;
        injection Hmodel as ->; destruct suppress_table; auto. }
  destruct Hkeep as [Hm [Ho Hest]].
  exists model, o.
  assert (Ho' : DMModel.outcomes s1 = Some o).
  { rewrite Ho. unfold DMModel.attribute in Houtcomes.
    destruct (DMModel.outcomes _); [injection Houtcomes as ->; reflexivity
                                   | discriminate Houtcomes]. }
  destruct suppress_table; cbn; rewrite ?Hm, ?Ho', ?Hest; auto 10.
Qed.

Lemma fit_MCMC_statistics (lib : DMModel.backend) (self s' : DMModel.t)
    (hierarchical recovery suppress_table : bool) (kw : DMModel.kwargs) :
  DMModel._fit_MCMC lib self hierarchical recovery suppress_table kw = inr s' ->
  DMModel.log_likelihood s' = DMModel.log_likelihood self
  /\ DMModel.BIC s' = DMModel.BIC self
  /\ DMModel.AIC s' = DMModel.AIC self.
Proof.
  unfold DMModel._fit_MCMC. intros H.
  apply bind_inr in H as [model [_ H]].
  apply bind_inr in H as [sampled [_ H]].
  apply bind_inr in H as [tab [_ H]].
  apply bind_inr in H as [s1 [Hrecovery H]].
  injection H as <-.
  assert (Hannounce : forall s : DMModel.t,
             DMModel.log_likelihood (DMModel.announce_hierarchical s hierarchical)
             = DMModel.log_likelihood s
             /\ DMModel.BIC (DMModel.announce_hierarchical s hierarchical)
                = DMModel.BIC s
             /\ DMModel.AIC (DMModel.announce_hierarchical s hierarchical)
                = DMModel.AIC s).
  { intros s. unfold DMModel.announce_hierarchical.
    repeat match goal with
           | |- context [if ?c then _ else _] => destruct c
           end; auto. }
  destruct (Hannounce (DMModel.print self "Fitting model using NUTS"))
    as [Hl [Hb Ha]].
  destruct (recovery && negb (Params.is_None _)) eqn:Hflag in Hrecovery.
  - apply bind_inr in Hrecovery as [[s2 se_cor] [Hrec Hret]].
    injection Hret as <-.
    apply recovery_table in Hrec as [merged ->].
    destruct suppress_table; cbn in *; rewrite Hl, Hb, Ha; auto.
  - destruct recovery; injection Hrecovery as <-;
      destruct suppress_table; cbn in *; rewrite Hl, Hb, Ha; auto.
Qed.

Lemma fit_variational_statistics (lib : DMModel.backend)
    (self s' : DMModel.t) (hierarchical recovery suppress_table : bool)
    (fit_kwargs sample_kwargs : DMModel.kwargs) :
  DMModel._fit_variational lib self hierarchical recovery suppress_table
    fit_kwargs sample_kwargs = inr s' ->
  DMModel.log_likelihood s' = DMModel.log_likelihood self
  /\ DMModel.BIC s' = DMModel.BIC self
  /\ DMModel.AIC s' = DMModel.AIC self.
Proof.
  unfold DMModel._fit_variational. intros H.
  apply bind_inr in H as [model [_ H]].
  apply bind_inr in H as [approx [_ H]].
  apply bind_inr in H as [sampled [_ H]].
  apply bind_inr in H as [tab [_ H]].
  apply bind_inr in H as [s1 [Hrecovery H]].
  injection H as <-.
  assert (Hannounce : forall s : DMModel.t,
             DMModel.log_likelihood (DMModel.announce_hierarchical s hierarchical)
             = DMModel.log_likelihood s
             /\ DMModel.BIC (DMModel.announce_hierarchical s hierarchical)
                = DMModel.BIC s
             /\ DMModel.AIC (DMModel.announce_hierarchical s hierarchical)
                = DMModel.AIC s).
  { intros s. unfold DMModel.announce_hierarchical.
    repeat match goal with
           | |- context [if ?c then _ else _] => destruct c
           end; auto. }
  destruct (Hannounce (DMModel.print self "Fitting model using ADVI"))
    as [Hl [Hb Ha]].
  destruct (recovery && negb (Params.is_None _)) eqn:Hflag in Hrecovery.
  - apply bind_inr in Hrecovery as [[s2 se_cor] [Hrec Hret]].
    injection Hret as <-.
    apply recovery_table in Hrec as [merged ->].
    destruct suppress_table; cbn in *; rewrite Hl, Hb, Ha; auto.
  - injection Hrecovery as <-;
      destruct suppress_table; cbn in *; rewrite Hl, Hb, Ha; auto.
Qed.

Lemma create_model_statistics (lib : DMModel.backend) (self s' : DMModel.t)
    (mle : bool) :
  DMModel._create_model lib self mle = inr s' ->
  DMModel.log_likelihood s' = DMModel.log_likelihood self
  /\ DMModel.BIC s' = DMModel.BIC self
  /\ DMModel.AIC s' = DMModel.AIC self.
Proof.
  unfold DMModel._create_model. intros H.
  repeat (apply bind_inr in H as [? [_ H]]).
  injection H as <-. cbn. auto.
Qed.

Lemma set_value_statistics (self s' : DMModel.t) (r o : ndarray)
    (tm : matrix) (runs : list nat) :
  DMModel.set_value self r o tm runs = inr s' ->
  DMModel.log_likelihood s' = DMModel.log_likelihood self
  /\ DMModel.BIC s' = DMModel.BIC self
  /\ DMModel.AIC s' = DMModel.AIC self.
Proof.
  unfold DMModel.set_value. intros H.
  repeat (apply bind_inr in H as [? [_ H]]).
  injection H as <-. cbn. auto.
Qed.

(** What [fit_body] hands to the estimator it dispatches to. *)
Lemma fit_body_dispatch (lib : DMModel.backend) (self s' : DMModel.t)
    (data : DMModel.loaded) (outcomes : option outcomes_arg)
    (fit_method : string) (hierarchical recovery : bool)
    (fit_kwargs sample_kwargs : option DMModel.kwargs) (logp_method : string)
    (suppress_table : bool) :
  DMModel.fit_body lib self data outcomes fit_method hierarchical recovery
    fit_kwargs sample_kwargs logp_method suppress_table = inr s' ->
  exists ready fk sk,
    DMModel.log_likelihood ready = DMModel.log_likelihood self
    /\ DMModel.BIC ready = DMModel.BIC self
    /\ DMModel.AIC ready = DMModel.AIC self
    /\ (if DMModel.is_in fit_method ["MLE"; "mle"] then
          DMModel._fit_MAP lib ready true recovery suppress_table fk
        else if DMModel.is_in fit_method ["MAP"; "map"] then
          DMModel._fit_MAP lib ready false recovery suppress_table fk
        else if DMModel.is_in fit_method ["variational"; "Variational"] then
          DMModel._fit_variational lib ready hierarchical recovery
            suppress_table fk sk
        else if DMModel.is_in fit_method ["MCMC"; "mcmc"] then
          DMModel._fit_MCMC lib ready hierarchical recovery suppress_table sk
        else
          inl (ValueError
            "Invalid fitting method provided ({0}). Fit method should be one of {1}"))
       = inr s'.
Proof.
  unfold DMModel.fit_body. intros H.
  destruct (Params.is_None outcomes && Params.is_None (DMModel.l_outcomes data));
    [discriminate H|].
  apply bind_inr in H as [outcomes_loaded [_ H]].
  apply bind_inr in H as [responses_now [_ H]].
  apply bind_inr in H as [n_response_trials [_ H]].
  apply bind_inr in H as [outcomes_now [_ H]].
  apply bind_inr in H as [n_outcome_trials [_ H]].
  destruct (negb (n_response_trials =? n_outcome_trials)); [discriminate H|].
  apply bind_inr in H as [n_outcome_columns [_ H]].
  apply bind_inr in H as [s1 [Hcreate H]].
  apply bind_inr in H as [s2 [Hset H]].
  eexists _, _, _. split; [|split; [|split; [|exact H]]].
  all: apply set_value_statistics in Hset as [Hl [Hb Ha]]; cbn;
    rewrite ?Hl, ?Hb, ?Ha;
    match type of Hcreate with
    | (if ?c then _ else _) = _ => destruct c
    end;
    [apply create_model_statistics in Hcreate as [Hl' [Hb' Ha']];
       rewrite ?Hl', ?Hb', ?Ha'; reflexivity
    | injection Hcreate as <-; reflexivity].
Qed.




(** ** The hierarchical argument of [fit] *)

Lemma quiet_announce (self : DMModel.t) (hierarchical : bool) :
  DMModel.quiet (DMModel.announce_hierarchical self hierarchical)
  = DMModel.quiet self.
Proof.
  unfold DMModel.announce_hierarchical.
  repeat match goal with
         | |- context [if ?c then _ else _] => destruct c
         end; reflexivity.
Qed.

(** Two runs of the same code on states that differ only in what they
    printed: the scrutinees agree, so both sides are split together. *)
Ltac innermost c :=
  lazymatch c with
  | bind _ _ => fail
  | inr _ => fail
  | inl _ => fail
  | true => fail
  | false => fail
  | Some _ => fail
  | None => fail
  | (_, _) => fail
  | match _ with _ => _ end => fail
  | _ => idtac
  end.

Ltac state_cbn :=
  cbn [bind ret raise negb andb orb Params.is_None DMModel.quiet
       DMModel.estimates
       DMModel.learning_model DMModel.learning_parameters
       DMModel.observation_model DMModel.observation_parameters
       DMModel.logp_method DMModel.observation_dynamic_inputs
       DMModel.n_learning_returns DMModel.learning_model_initial
       DMModel._pymc3_model DMModel.params DMModel.fit_complete
       DMModel._fit_method DMModel.subjects DMModel.n_subjects
       DMModel.sims DMModel.responses DMModel.outcomes DMModel.time
       DMModel.n_runs DMModel.trace DMModel.map_estimate
       DMModel.raw_fit_values DMModel.fit_values
       DMModel.parameter_table DMModel.recovery_correlations
       DMModel.log_likelihood DMModel.BIC DMModel.AIC DMModel.stdout
       DMModel.warnings DMModel.sim_learning_parameters
       DMModel.sim_observation_parameters
       DMModel.set_learning_parameters
       DMModel.set_observation_parameters DMModel.set_logp_method
       DMModel.set__pymc3_model DMModel.set_params
       DMModel.set_fit_complete DMModel.set__fit_method
       DMModel.set_subjects DMModel.set_n_subjects DMModel.set_sims
       DMModel.set_trace DMModel.set_map_estimate
       DMModel.set_raw_fit_values DMModel.set_fit_values
       DMModel.set_parameter_table DMModel.set_recovery_correlations
       DMModel.set_stdout DMModel.set_warnings
       DMModel.set_sim_learning_parameters
       DMModel.set_sim_observation_parameters DMModel.set_shared
       DMModel.set_statistics DMModel.set_value DMModel.print
       DMModel.warn DMModel.on_state DMModel.attribute].

Ltac in_step :=
  repeat (state_cbn;
          first
            [ reflexivity
            | match goal with
              | |- context [bind ?c _] => innermost c; destruct c
              | |- context [match ?c with _ => _ end] =>
                  innermost c; destruct c
              end ]).

Lemma fit_MCMC_quiet (lib : DMModel.backend) (s1 s2 : DMModel.t)
    (h1 h2 recovery suppress_table : bool) (kw : DMModel.kwargs) :
  DMModel.quiet s1 = DMModel.quiet s2 ->
  DMModel.on_state DMModel.quiet
    (DMModel._fit_MCMC lib s1 h1 recovery suppress_table kw)
  = DMModel.on_state DMModel.quiet
      (DMModel._fit_MCMC lib s2 h2 recovery suppress_table kw).
Proof.
  intros H.
  assert (Hq : DMModel.quiet
                 (DMModel.announce_hierarchical
                    (DMModel.print s1 "Fitting model using NUTS") h1)
               = DMModel.quiet
                   (DMModel.announce_hierarchical
                      (DMModel.print s2 "Fitting model using NUTS") h2)).
  { rewrite !quiet_announce. exact H. }
  unfold DMModel._fit_MCMC.
  generalize dependent (DMModel.announce_hierarchical
                          (DMModel.print s1 "Fitting model using NUTS") h1).
  generalize dependent (DMModel.announce_hierarchical
                          (DMModel.print s2 "Fitting model using NUTS") h2).
  clear. intros b a Hq.
  destruct a, b. unfold DMModel.quiet in Hq. cbn in Hq.
  injection Hq as; subst.
  unfold DMModel.recovery.
  destruct recovery, suppress_table;
  cbn [negb andb Params.is_None DMModel._pymc3_model DMModel.sims DMModel.parameter_table
       DMModel.subjects DMModel.print DMModel.warn DMModel.set_trace
       DMModel.set_fit_values DMModel.set_parameter_table
       DMModel.set_recovery_correlations DMModel.set_fit_complete
       DMModel.set_stdout DMModel.set_warnings DMModel.stdout
       DMModel.warnings].
  all: in_step.
Qed.

Lemma fit_variational_quiet (lib : DMModel.backend) (s1 s2 : DMModel.t)
    (h1 h2 recovery suppress_table : bool)
    (fit_kwargs sample_kwargs : DMModel.kwargs) :
  DMModel.quiet s1 = DMModel.quiet s2 ->
  DMModel.on_state DMModel.quiet
    (DMModel._fit_variational lib s1 h1 recovery suppress_table fit_kwargs
       sample_kwargs)
  = DMModel.on_state DMModel.quiet
      (DMModel._fit_variational lib s2 h2 recovery suppress_table fit_kwargs
         sample_kwargs).
Proof.
  intros H.
  assert (Hq : DMModel.quiet
                 (DMModel.announce_hierarchical
                    (DMModel.print s1 "Fitting model using ADVI") h1)
               = DMModel.quiet
                   (DMModel.announce_hierarchical
                      (DMModel.print s2 "Fitting model using ADVI") h2)).
  { rewrite !quiet_announce. exact H. }
  unfold DMModel._fit_variational.
  generalize dependent (DMModel.announce_hierarchical
                          (DMModel.print s1 "Fitting model using ADVI") h1).
  generalize dependent (DMModel.announce_hierarchical
                          (DMModel.print s2 "Fitting model using ADVI") h2).
  clear. intros b a Hq.
  destruct a, b. unfold DMModel.quiet in Hq. cbn in Hq.
  injection Hq as; subst.
  unfold DMModel.recovery.
  destruct recovery, suppress_table;
  cbn [negb andb Params.is_None DMModel._pymc3_model DMModel.sims
       DMModel.parameter_table
       DMModel.subjects DMModel.print DMModel.warn DMModel.set_trace
       DMModel.set_fit_values DMModel.set_parameter_table
       DMModel.set_recovery_correlations DMModel.set_fit_complete
       DMModel.set_stdout DMModel.set_warnings DMModel.stdout
       DMModel.warnings].
  all: in_step.
Qed.

Ltac same_prefix :=
  match goal with
  | |- DMModel.on_state _ (bind ?c _) = DMModel.on_state _ (bind ?c _) =>
      destruct c; cbn [bind]; [reflexivity|]
  | |- DMModel.on_state _ (if ?c then _ else _)
       = DMModel.on_state _ (if ?c then _ else _) =>
      destruct c; [try reflexivity|]
  end.

(** For every method the outcome of [fit] does not depend on the
    [hierarchical] argument, apart from what is printed and warned. *)
Lemma fit_body_hierarchical (lib : DMModel.backend) (self : DMModel.t)
    (data : DMModel.loaded) (outcomes : option outcomes_arg)
    (fit_method : string) (h1 h2 recovery : bool)
    (fit_kwargs sample_kwargs : option DMModel.kwargs) (logp_method : string)
    (suppress_table : bool) :
  DMModel.on_state DMModel.quiet
    (DMModel.fit_body lib self data outcomes fit_method h1 recovery
       fit_kwargs sample_kwargs logp_method suppress_table)
  = DMModel.on_state DMModel.quiet
      (DMModel.fit_body lib self data outcomes fit_method h2 recovery
         fit_kwargs sample_kwargs logp_method suppress_table).
Proof.
  unfold DMModel.fit_body. cbv zeta.
  repeat same_prefix.
  - apply fit_variational_quiet. reflexivity.
  - apply fit_MCMC_quiet. reflexivity.
  - reflexivity.
Qed.

(** *** No group-level prior is bound on the fit path *)

Lemma individual_mle_override (p : parameter) :
  individual (Utils.mle_override p) = individual p.
Proof.
  unfold Utils.mle_override.
  repeat match goal with
         | |- context [if ?c then _ else _] => destruct c
         end; reflexivity.
Qed.

Lemma generate_individual (p p' : parameter) (n_subjects : nat) (mle : bool) :
  individual p = true ->
  Utils.generate_pymc_distribution p n_subjects false mle = inr p' ->
  individual p' = true.
Proof.
  intros Hp. unfold Utils.generate_pymc_distribution.
  assert (Hq : individual (if mle then Utils.mle_override p else p) = true).
  { destruct mle; [rewrite individual_mle_override|]; exact Hp. }
  generalize dependent (if mle then Utils.mle_override p else p).
  intros q Hq H. cbv zeta in H. cbn [andb] in H.
  repeat match type of H with
         | (if ?c then _ else _) = _ => destruct c
         end;
    injection H as <-; try exact Hq; unfold individual; cbn;
    try reflexivity;
    destruct n_subjects as [|[|n]]; reflexivity.
Qed.

Lemma map_result_forallb {A B : Type} (f : A -> result B) (P : A -> bool)
    (Q : B -> bool) (l : list A) (l' : list B) :
  (forall a b, P a = true -> f a = inr b -> Q b = true) ->
  forallb P l = true -> Model.map_result f l = inr l' ->
  forallb Q l' = true.
Proof.
  intros Hf. revert l'. induction l as [|a l IH]; intros l' Hl H.
  - injection H as <-. reflexivity.
  - cbn in Hl. apply andb_prop in Hl as [Ha Hl].
    cbn in H. apply bind_inr in H as [b [Hb H]].
    apply bind_inr in H as [bs [Hbs H]]. injection H as <-.
    cbn. rewrite (Hf a b Ha Hb), (IH bs Hl Hbs). reflexivity.
Qed.

Lemma split_parameters_individual (ps : list parameter)
    (dyn stat : list bound_value) :
  forallb individual ps = true ->
  Model.split_parameters ps = inr (dyn, stat) ->
  forallb individual_value dyn = true /\ forallb individual_value stat = true.
Proof.
  revert dyn stat. induction ps as [|p ps IH]; intros dyn stat Hps H.
  - injection H as <- <-. auto.
  - cbn in Hps. apply andb_prop in Hps as [Hp Hps].
    cbn in H. unfold individual in Hp.
    destruct (pymc_distribution p) as [b|]; [|discriminate H].
    apply bind_inr in H as [[d s] [Hrest H]].
    destruct (IH d s Hps Hrest) as [Hd Hs].
    destruct (dynamic p); injection H as <- <-; cbn;
      rewrite ?Hp, ?Hd, ?Hs; auto.
Qed.

Lemma last_match_individual (l : list parameter) (nm : string)
    (acc : parameter) :
  forallb individual l = true -> individual acc = true ->
  individual
    (fold_left (fun acc i => if String.eqb (name i) nm then i else acc) l acc)
  = true.
Proof.
  revert acc. induction l as [|i l IH]; intros acc Hl Hacc.
  - exact Hacc.
  - cbn in Hl. apply andb_prop in Hl as [Hi Hl]. cbn.
    apply IH; [exact Hl|].
    destruct (String.eqb (name i) nm); assumption.
Qed.

Lemma shared_parameter_individual (l : list parameter) (p : parameter) :
  forallb individual l = true -> individual p = true ->
  individual (Model.shared_parameter l p) = true.
Proof. apply last_match_individual. Qed.

Lemma initialise_parameters_individual (ls ls' : list parameter)
    (os os' : list (option parameter)) (dyn stat : list bound_value)
    (n_subjects : nat) (runs : list nat) (mle : bool) :
  forallb individual ls = true ->
  forallb (for_some individual) os = true ->
  Model._initialise_parameters ls os n_subjects runs mle false
  = inr (ls', dyn, stat, os') ->
  forallb individual ls' = true
  /\ forallb (for_some individual) os' = true
  /\ forallb individual_value dyn = true
  /\ forallb individual_value stat = true.
Proof.
  intros Hls Hos. unfold Model._initialise_parameters. intros H.
  apply bind_inr in H as [bound [Hbound H]].
  apply bind_inr in H as [[d s] [Hsplit H]].
  apply bind_inr in H as [first [_ H]].
  apply bind_inr in H as [obs [Hobs H]].
  injection H as <- <- <- <-.
  assert (Hbound' : forallb individual bound = true).
  { apply (fun Hf => map_result_forallb _ individual individual ls bound
                          Hf Hls Hbound).
    intros a b Ha Hb. exact (generate_individual a b n_subjects mle Ha Hb). }
  destruct (split_parameters_individual bound d s Hbound' Hsplit) as [Hd Hs].
  repeat split; try assumption.
  destruct first as [p0|].
  - apply (fun Hf => map_result_forallb _ (for_some individual)
                          (for_some individual) os obs Hf Hos Hobs).
    intros [a|] b Ha Hb; [|discriminate Hb].
    destruct (negb _) in Hb.
    + apply bind_inr in Hb as [a' [Ha' Hb]]. injection Hb as <-.
      exact (generate_individual a a' n_subjects mle Ha Ha').
    + injection Hb as <-. cbn.
      apply shared_parameter_individual; assumption.
  - injection Hobs as <-. exact Hos.
Qed.

Lemma forallb_some {A : Type} (f : A -> bool) (os : list (option A)) :
  forallb f (flat_map (fun o => match o with Some p => [p] | None => [] end) os)
  = forallb (for_some f) os.
Proof.
  induction os as [|[a|] os IH]; cbn; rewrite ?IH; reflexivity.
Qed.

Lemma create_model_individual (lib : DMModel.backend) (self s' : DMModel.t)
    (mle : bool) :
  DMModel.individual_priors self = true ->
  DMModel._create_model lib self mle = inr s' ->
  DMModel.individual_state s' = true /\ DMModel._pymc3_model s' <> None.
Proof.
  unfold DMModel.individual_priors. intros Hself H.
  apply andb_prop in Hself as [Hls Hos].
  unfold DMModel._create_model in H.
  apply bind_inr in H as [r [_ H]].
  apply bind_inr in H as [o [_ H]].
  apply bind_inr in H as [tm [_ H]].
  apply bind_inr in H as [runs [_ H]].
  apply bind_inr in H as [m [Hm H]].
  apply bind_inr in H as [x [_ H]].
  apply bind_inr in H as [q [_ H]].
  injection H as <-.
  unfold Model.PyMCModel_init in Hm.
  destruct (negb (n_unique runs =? 1)); [discriminate Hm|].
  apply bind_inr in Hm as [[[[ls' dyn] stat] os'] [Hinit Hm]].
  apply bind_inr in Hm as [n [_ Hm]].
  injection Hm as <-.
  destruct (initialise_parameters_individual _ _ _ _ _ _ _ _ _ Hls Hos Hinit)
    as [Hls' [Hos' [Hdyn Hstat]]].
  split; [|cbn; discriminate].
  unfold DMModel.individual_state, DMModel.individual_priors,
    DMModel.individual_model. cbn.
  rewrite forallb_app, forallb_some, Hls', Hos', Hdyn, Hstat. reflexivity.
Qed.

Lemma set_value_individual (self s' : DMModel.t) (r o : ndarray)
    (tm : matrix) (runs : list nat) :
  DMModel.set_value self r o tm runs = inr s' ->
  DMModel.individual_state s' = DMModel.individual_state self
  /\ (DMModel._pymc3_model self <> None -> DMModel._pymc3_model s' <> None).
Proof.
  unfold DMModel.set_value. intros H.
  repeat (apply bind_inr in H as [? [_ H]]).
  injection H as <-.
  unfold DMModel.individual_state, DMModel.individual_priors. cbn.
  destruct (DMModel._pymc3_model self); cbn; split; auto; discriminate.
Qed.

Lemma same_model_individual (before after : DMModel.t) :
  DMModel.same_model before after ->
  DMModel.individual_state after = DMModel.individual_state before.
Proof.
  intros [Hm [Hl [Ho Hp]]].
  unfold DMModel.individual_state, DMModel.individual_priors.
  rewrite Hm, Hl, Ho, Hp. reflexivity.
Qed.

Lemma same_model_announce (self : DMModel.t) (hierarchical : bool) :
  DMModel.same_model self (DMModel.announce_hierarchical self hierarchical).
Proof.
  unfold DMModel.announce_hierarchical, DMModel.same_model.
  repeat match goal with
         | |- context [if ?c then _ else _] => destruct c
         end; cbn; auto.
Qed.

Lemma fit_MAP_same_model (lib : DMModel.backend) (self s' : DMModel.t)
    (mle recovery suppress_table : bool) (kw : DMModel.kwargs) :
  DMModel._fit_MAP lib self mle recovery suppress_table kw = inr s' ->
  DMModel.same_model self s'.
Proof.
  unfold DMModel._fit_MAP. intros H.
  apply bind_inr in H as [model [_ H]].
  apply bind_inr in H as [found [_ H]].
  apply bind_inr in H as [untransformed [_ H]].
  apply bind_inr in H as [s1 [Hrecovery H]].
  apply bind_inr in H as [o [_ H]].
  unfold model_fit in H. injection H as <-.
  unfold DMModel.same_model.
  destruct (recovery && negb (Params.is_None _)) eqn:Hflag in Hrecovery.
  - apply bind_inr in Hrecovery as [[s2 se_cor] [Hrec Hret]].
    injection Hret as <-.
    apply recovery_table in Hrec as [merged ->].
    destruct mle, suppress_table; cbn; auto.
  - injection Hrecovery as <-.
    destruct mle, suppress_table; cbn; auto.
Qed.

Lemma fit_MCMC_same_model (lib : DMModel.backend) (self s' : DMModel.t)
    (hierarchical recovery suppress_table : bool) (kw : DMModel.kwargs) :
  DMModel._fit_MCMC lib self hierarchical recovery suppress_table kw = inr s' ->
  DMModel.same_model self s'.
Proof.
  unfold DMModel._fit_MCMC. intros H.
  apply bind_inr in H as [model [_ H]].
  apply bind_inr in H as [sampled [_ H]].
  apply bind_inr in H as [tab [_ H]].
  apply bind_inr in H as [s1 [Hrecovery H]].
  injection H as <-.
  destruct (same_model_announce
              (DMModel.print self "Fitting model using NUTS") hierarchical)
    as [Hm [Hl [Ho Hp]]].
  unfold DMModel.same_model.
  destruct (recovery && negb (Params.is_None _)) eqn:Hflag in Hrecovery.
  - apply bind_inr in Hrecovery as [[s2 se_cor] [Hrec Hret]].
    injection Hret as <-.
    apply recovery_table in Hrec as [merged ->].
    destruct suppress_table; cbn in *; rewrite Hm, Hl, Ho, Hp; auto.
  - destruct recovery; injection Hrecovery as <-;
      destruct suppress_table; cbn in *; rewrite Hm, Hl, Ho, Hp; auto.
Qed.

Lemma fit_variational_same_model (lib : DMModel.backend)
    (self s' : DMModel.t) (hierarchical recovery suppress_table : bool)
    (fit_kwargs sample_kwargs : DMModel.kwargs) :
  DMModel._fit_variational lib self hierarchical recovery suppress_table
    fit_kwargs sample_kwargs = inr s' ->
  DMModel.same_model self s'.
Proof.
  unfold DMModel._fit_variational. intros H.
  apply bind_inr in H as [model [_ H]].
  apply bind_inr in H as [approx [_ H]].
  apply bind_inr in H as [sampled [_ H]].
  apply bind_inr in H as [tab [_ H]].
  apply bind_inr in H as [s1 [Hrecovery H]].
  injection H as <-.
  destruct (same_model_announce
              (DMModel.print self "Fitting model using ADVI") hierarchical)
    as [Hm [Hl [Ho Hp]]].
  unfold DMModel.same_model.
  destruct (recovery && negb (Params.is_None _)) eqn:Hflag in Hrecovery.
  - apply bind_inr in Hrecovery as [[s2 se_cor] [Hrec Hret]].
    injection Hret as <-.
    apply recovery_table in Hrec as [merged ->].
    destruct suppress_table; cbn in *; rewrite Hm, Hl, Ho, Hp; auto.
  - injection Hrecovery as <-;
      destruct suppress_table; cbn in *; rewrite Hm, Hl, Ho, Hp; auto.
Qed.

Lemma fit_body_individual (lib : DMModel.backend) (self s' : DMModel.t)
    (data : DMModel.loaded) (outcomes : option outcomes_arg)
    (fit_method : string) (hierarchical recovery : bool)
    (fit_kwargs sample_kwargs : option DMModel.kwargs) (logp_method : string)
    (suppress_table : bool) :
  DMModel.individual_state self = true ->
  DMModel.fit_body lib self data outcomes fit_method hierarchical recovery
    fit_kwargs sample_kwargs logp_method suppress_table = inr s' ->
  DMModel.individual_state s' = true /\ DMModel._pymc3_model s' <> None.
Proof.
  intros Hself. unfold DMModel.fit_body. intros H.
  destruct (Params.is_None outcomes && Params.is_None (DMModel.l_outcomes data));
    [discriminate H|].
  apply bind_inr in H as [outcomes_loaded [_ H]].
  apply bind_inr in H as [responses_now [_ H]].
  apply bind_inr in H as [n_response_trials [_ H]].
  apply bind_inr in H as [outcomes_now [_ H]].
  apply bind_inr in H as [n_outcome_trials [_ H]].
  destruct (negb (n_response_trials =? n_outcome_trials)); [discriminate H|].
  apply bind_inr in H as [n_outcome_columns [_ H]].
  apply bind_inr in H as [s1 [Hcreate H]].
  apply bind_inr in H as [s2 [Hset H]].
  assert (Hs1 : DMModel.individual_state s1 = true
                /\ DMModel._pymc3_model s1 <> None).
  { match type of Hcreate with
    | (if ?c then _ else _) = _ => destruct c eqn:Hcache
    end.
    - apply create_model_individual in Hcreate; [exact Hcreate|].
      unfold DMModel.individual_state in Hself.
      apply andb_prop in Hself as [Hself _].
      apply andb_prop in Hself as [Hself _]. exact Hself.
    - injection Hcreate as <-. split; [exact Hself|].
      apply orb_false_elim in Hcache as [Hcache _].
      apply orb_false_elim in Hcache as [Hcache _].
      cbn in Hcache |- *.
      destruct (DMModel._pymc3_model self); [discriminate | discriminate Hcache]. }
  destruct Hs1 as [Hind Hmodel].
  apply set_value_individual in Hset as [Hind2 Hmodel2].
  assert (Hready : forall ready,
             DMModel.same_model
               (DMModel.set__fit_method
                  (DMModel.set_n_subjects s2 (length (DMModel.l_subjects data)))
                  (Some (lower fit_method))) ready ->
             DMModel.individual_state ready = true
             /\ DMModel._pymc3_model ready <> None).
  { intros ready Hsame.
    rewrite (same_model_individual _ _ Hsame).
    destruct Hsame as [Hm _]. rewrite Hm.
    split; [rewrite <- Hind, <- Hind2; reflexivity | exact (Hmodel2 Hmodel)]. }
  repeat match type of H with
         | (if ?c then _ else _) = _ => destruct c
         end; try discriminate H; apply Hready.
  - exact (fit_MAP_same_model _ _ _ _ _ _ _ H).
  - exact (fit_MAP_same_model _ _ _ _ _ _ _ H).
  - exact (fit_variational_same_model _ _ _ _ _ _ _ _ H).
  - exact (fit_MCMC_same_model _ _ _ _ _ _ _ H).
Qed.

(** C9. [fit] binds no group-level prior, whatever [hierarchical] is: from
    a state whose parameters carry none, a fit that succeeds leaves a
    compiled model and parameters that carry none; and two calls that
    differ only in [hierarchical] end in the same state up to what is
    printed and warned. *)
Theorem fit_ignores_hierarchical (lib : DMModel.backend)
    (loader : csv_file -> option (list Z) -> result (list pyobj))
    (self s' : DMModel.t) (responses : csv_file)
    (outcomes : option outcomes_arg) (fit_method : string)
    (hierarchical other recovery : bool) (exclude : option (list Z))
    (fit_kwargs sample_kwargs : option DMModel.kwargs) (logp_method : string)
    (suppress_table : bool) :
  DMModel.individual_state self = true ->
  DMModel.fit_with lib loader self responses outcomes fit_method hierarchical
    recovery exclude fit_kwargs sample_kwargs logp_method suppress_table
  = inr s' ->
  (DMModel.individual_state s' = true /\ DMModel._pymc3_model s' <> None)
  /\ DMModel.on_state DMModel.quiet
       (DMModel.fit_with lib loader self responses outcomes fit_method other
          recovery exclude fit_kwargs sample_kwargs logp_method suppress_table)
     = inr (DMModel.quiet s').
Proof.
  intros Hself Hfit. split.
  - unfold DMModel.fit_with in Hfit.
    apply bind_inr in Hfit as [returned [_ Hfit]].
    apply bind_inr in Hfit as [data [_ Hfit]].
    exact (fit_body_individual _ _ _ _ _ _ _ _ _ _ _ _ Hself Hfit).
  - replace (inr (DMModel.quiet s'))
      with (DMModel.on_state DMModel.quiet
              (DMModel.fit_with lib loader self responses outcomes fit_method
                 hierarchical recovery exclude fit_kwargs sample_kwargs
                 logp_method suppress_table))
      by (rewrite Hfit; reflexivity).
    unfold DMModel.fit_with.
    destruct (loader responses exclude) as [e|returned]; [reflexivity|].
    cbn [bind].
    destruct (DMModel.unpack_loaded returned) as [e|data]; [reflexivity|].
    cbn [bind]. apply fit_body_hierarchical.
Qed.

Lemma fit_ignores_hierarchical_witness :
  DMModel.individual_state Examples.learner = true
  /\ exists s',
       DMModel.fit_with Examples.fixed_answers Examples.five_value_loader
         Examples.learner Examples.response_file None "MCMC" true false
         None None None "ll" true = inr s'
       /\ (DMModel.individual_state s' = true
           /\ DMModel._pymc3_model s' <> None)
       /\ DMModel.on_state DMModel.quiet
            (DMModel.fit_with Examples.fixed_answers
               Examples.five_value_loader Examples.learner
               Examples.response_file None "MCMC" false false None None None
               "ll" true)
          = inr (DMModel.quiet s').
Proof.
  split; [reflexivity|].
  destruct (DMModel.fit_with Examples.fixed_answers
              Examples.five_value_loader Examples.learner
              Examples.response_file None "MCMC" true false None None None
              "ll" true) as [e|s'] eqn:Hfit.
  - exfalso.
    assert (Hok : succeeded
                    (DMModel.fit_with Examples.fixed_answers
                       Examples.five_value_loader Examples.learner
                       Examples.response_file None "MCMC" true false None
                       None None "ll" true) = true) by (lazy; reflexivity).
    rewrite Hfit in Hok. discriminate Hok.
  - exists s'. split; [reflexivity|].
    exact (fit_ignores_hierarchical Examples.fixed_answers
             Examples.five_value_loader Examples.learner s'
             Examples.response_file None "MCMC" true false false None None
             None "ll" true eq_refl Hfit).
Defined.

(** ** MLE is MAP under flat priors *)

Lemma mle_override_flat (p : parameter) :
  uniform_or_flat p = true -> Utils.mle_override p = p.
Proof.
  unfold uniform_or_flat, Utils.mle_override. intros H.
  destruct (String.eqb (distribution p) "uniform");
    destruct (String.eqb (distribution p) "flat");
    destruct (String.eqb (distribution p) "fixed");
    try reflexivity; discriminate H.
Qed.

(** Binding under MLE is binding the overridden parameter without MLE. *)
Lemma generate_mle (p : parameter) (n_subjects : nat) (hierarchical : bool) :
  Utils.generate_pymc_distribution p n_subjects hierarchical true
  = Utils.generate_pymc_distribution (Utils.mle_override p) n_subjects
      hierarchical false.
Proof. reflexivity. Qed.

Lemma generate_mle_flat (p : parameter) (n_subjects : nat)
    (hierarchical : bool) :
  uniform_or_flat p = true ->
  Utils.generate_pymc_distribution p n_subjects hierarchical true
  = Utils.generate_pymc_distribution p n_subjects hierarchical false.
Proof.
  intros H. rewrite generate_mle, (mle_override_flat p H). reflexivity.
Qed.

Lemma map_result_ext {A B : Type} (f g : A -> result B) (P : A -> bool)
    (l : list A) :
  (forall a, P a = true -> f a = g a) ->
  forallb P l = true -> Model.map_result f l = Model.map_result g l.
Proof.
  intros Hfg. induction l as [|a l IH]; intros Hl.
  - reflexivity.
  - cbn in Hl. apply andb_prop in Hl as [Ha Hl].
    cbn. rewrite (Hfg a Ha), (IH Hl). reflexivity.
Qed.

Lemma initialise_parameters_mle_flat (ls : list parameter)
    (os : list (option parameter)) (n_subjects : nat) (runs : list nat)
    (hierarchical : bool) :
  forallb uniform_or_flat ls = true ->
  forallb (for_some uniform_or_flat) os = true ->
  Model._initialise_parameters ls os n_subjects runs true hierarchical
  = Model._initialise_parameters ls os n_subjects runs false hierarchical.
Proof.
  intros Hls Hos. unfold Model._initialise_parameters.
  rewrite (map_result_ext
             (fun p => generate_pymc_distribution p n_subjects hierarchical true)
             (fun p => generate_pymc_distribution p n_subjects hierarchical false)
             uniform_or_flat ls
             (fun a Ha => generate_mle_flat a n_subjects hierarchical Ha) Hls).
  destruct (Model.map_result _ ls) as [e|bound]; [reflexivity|]. cbn [bind].
  destruct (Model.split_parameters bound) as [e|[dyn stat]]; [reflexivity|].
  cbn [bind].
  destruct (getitem os 0) as [e|first]; [reflexivity|]. cbn [bind].
  destruct first as [p0|]; [|reflexivity].
  erewrite (map_result_ext _ _ (for_some uniform_or_flat) os _ Hos).
  reflexivity.
  Unshelve.
  intros [a|] Ha; [|reflexivity]. cbn beta iota.
  rewrite (generate_mle_flat a n_subjects hierarchical Ha). reflexivity.
Qed.

Lemma create_model_mle_flat (lib : DMModel.backend) (self : DMModel.t) :
  DMModel.flat_priors self = true ->
  DMModel._create_model lib self true = DMModel._create_model lib self false.
Proof.
  unfold DMModel.flat_priors. intros H. apply andb_prop in H as [Hls Hos].
  unfold DMModel._create_model, Model.PyMCModel_init.
  destruct (DMModel.attribute (DMModel.responses self) "responses");
    [reflexivity|]. cbn [bind].
  destruct (DMModel.attribute (DMModel.outcomes self) "outcomes");
    [reflexivity|]. cbn [bind].
  destruct (DMModel.attribute (DMModel.time self) "time");
    [reflexivity|]. cbn [bind].
  destruct (DMModel.attribute (DMModel.n_runs self) "n_runs");
    [reflexivity|]. cbn [bind].
  rewrite (initialise_parameters_mle_flat _ _ _ _ false Hls Hos).
  reflexivity.
Qed.

(** [estimates] commutes with every update that [_fit_MAP] makes. *)
Lemma estimates_print (self : DMModel.t) (line : string) :
  DMModel.estimates (DMModel.print self line) = DMModel.estimates self.
Proof. reflexivity. Qed.

Lemma estimates_set_stdout (self : DMModel.t) (lines : list string) :
  DMModel.estimates (DMModel.set_stdout self lines) = DMModel.estimates self.
Proof. reflexivity. Qed.

Lemma estimates_set_map_estimate (self : DMModel.t) (v : DMModel.estimate) :
  DMModel.estimates (DMModel.set_map_estimate self v)
  = DMModel.set_map_estimate (DMModel.estimates self) v.
Proof. reflexivity. Qed.

Lemma estimates_set_raw_fit_values (self : DMModel.t) (v : DMModel.estimate) :
  DMModel.estimates (DMModel.set_raw_fit_values self v)
  = DMModel.set_raw_fit_values (DMModel.estimates self) v.
Proof. reflexivity. Qed.

Lemma estimates_set_fit_values (self : DMModel.t) (v : DMModel.estimate) :
  DMModel.estimates (DMModel.set_fit_values self v)
  = DMModel.set_fit_values (DMModel.estimates self) v.
Proof. reflexivity. Qed.

Lemma estimates_set_fit_complete (self : DMModel.t) (v : bool) :
  DMModel.estimates (DMModel.set_fit_complete self v)
  = DMModel.set_fit_complete (DMModel.estimates self) v.
Proof. reflexivity. Qed.

Lemma estimates_set_parameter_table (self : DMModel.t)
    (v : option DMModel.table) :
  DMModel.estimates (DMModel.set_parameter_table self v)
  = DMModel.set_parameter_table (DMModel.estimates self) v.
Proof. reflexivity. Qed.

Lemma estimates_set_recovery_correlations (self : DMModel.t)
    (v : option (option matrix)) :
  DMModel.estimates (DMModel.set_recovery_correlations self v)
  = DMModel.set_recovery_correlations (DMModel.estimates self) v.
Proof. reflexivity. Qed.

Lemma estimates_set_statistics (self : DMModel.t) (a b c : option R) :
  DMModel.estimates (DMModel.set_statistics self a b c)
  = DMModel.set_statistics (DMModel.estimates self) a b c.
Proof. reflexivity. Qed.

Create Rewrite HintDb estimates_db.

#[local] Hint Rewrite estimates_print estimates_set_stdout
  estimates_set_map_estimate estimates_set_raw_fit_values
  estimates_set_fit_values estimates_set_fit_complete
  estimates_set_parameter_table estimates_set_recovery_correlations
  estimates_set_statistics : estimates_db.

Lemma estimates_fields (s1 s2 : DMModel.t) :
  DMModel.estimates s1 = DMModel.estimates s2 ->
  DMModel._pymc3_model s1 = DMModel._pymc3_model s2
  /\ DMModel.params s1 = DMModel.params s2
  /\ DMModel.sims s1 = DMModel.sims s2
  /\ DMModel.subjects s1 = DMModel.subjects s2
  /\ DMModel.outcomes s1 = DMModel.outcomes s2.
Proof.
  intros H. repeat split.
  - exact (f_equal DMModel._pymc3_model H).
  - exact (f_equal DMModel.params H).
  - exact (f_equal DMModel.sims H).
  - exact (f_equal DMModel.subjects H).
  - exact (f_equal DMModel.outcomes H).
Qed.

Ltac state_pass :=
  cbn [DMModel._pymc3_model DMModel.params DMModel.sims DMModel.subjects
       DMModel.outcomes DMModel.parameter_table DMModel.raw_fit_values
       DMModel.fit_values DMModel.map_estimate DMModel.stdout
       DMModel.print DMModel.set_stdout DMModel.set_map_estimate
       DMModel.set_raw_fit_values DMModel.set_fit_complete
       DMModel.set_fit_values DMModel.set_parameter_table
       DMModel.set_recovery_correlations DMModel.set_statistics].

Ltac monad_pass :=
  cbn [bind ret raise negb andb orb Params.is_None DMModel.on_state
       DMModel.attribute].

Ltac fields_cbn := state_pass; monad_pass; state_pass; monad_pass.

Lemma fit_MAP_estimates (lib : DMModel.backend) (s1 s2 : DMModel.t)
    (mle1 mle2 recovery suppress_table : bool) (kw : DMModel.kwargs) :
  DMModel.estimates s1 = DMModel.estimates s2 ->
  DMModel.on_state DMModel.estimates
    (DMModel._fit_MAP lib s1 mle1 recovery suppress_table kw)
  = DMModel.on_state DMModel.estimates
      (DMModel._fit_MAP lib s2 mle2 recovery suppress_table kw).
Proof.
  intros H.
  destruct (estimates_fields s1 s2 H) as [Hm [Hp [Hs [Hsub Ho]]]].
  unfold DMModel._fit_MAP, DMModel.recovery, model_fit. cbv zeta.
  destruct mle1, mle2, recovery, suppress_table.
  all: repeat (fields_cbn; rewrite ?Hm, ?Hp, ?Hs, ?Hsub, ?Ho;
               first
                 [ reflexivity
                 | match goal with
                   | |- inr _ = inr _ =>
                       f_equal;
                       autorewrite with estimates_db;
                       rewrite H; reflexivity
                   | |- context [bind ?c _] => innermost c; destruct c
                   | |- context [match ?c with _ => _ end] =>
                       innermost c; destruct c
                   end ]).
Qed.

Ltac same_estimates_prefix :=
  match goal with
  | |- DMModel.on_state _ (bind ?c _) = DMModel.on_state _ (bind ?c _) =>
      destruct c; cbn [bind]; [reflexivity|]
  | |- DMModel.on_state _ (if ?c then _ else _)
       = DMModel.on_state _ (if ?c then _ else _) =>
      destruct c; [reflexivity|]
  end.

Lemma no_reuse (self : DMModel.t) (method : string) (n : nat) :
  DMModel._pymc3_model self = None
  \/ (DMModel._fit_method self <> Some "mle"
      /\ DMModel._fit_method self <> Some "map") ->
  method = "mle" \/ method = "map" ->
  Params.is_None (DMModel._pymc3_model self)
  || negb (DMModel.eqb_method (DMModel._fit_method self) method)
  || negb (n =? DMModel.n_subjects self) = true.
Proof.
  intros [Hnone|[Hmle Hmap]] Hmethod.
  - rewrite Hnone. reflexivity.
  - assert (Hmiss : DMModel.eqb_method (DMModel._fit_method self) method
                    = false).
    { unfold DMModel.eqb_method.
      destruct (DMModel._fit_method self) as [stored|]; [|reflexivity].
      apply String.eqb_neq. intros E. subst stored.
      destruct Hmethod as [->| ->]; congruence. }
    rewrite Hmiss. cbn [negb]. rewrite orb_true_r. reflexivity.
Qed.

Lemma fit_body_mle_flat (lib : DMModel.backend) (self : DMModel.t)
    (data : DMModel.loaded) (outcomes : option outcomes_arg)
    (hierarchical recovery : bool)
    (fit_kwargs sample_kwargs : option DMModel.kwargs) (logp_method : string)
    (suppress_table : bool) :
  DMModel._pymc3_model self = None
  \/ (DMModel._fit_method self <> Some "mle"
      /\ DMModel._fit_method self <> Some "map") ->
  DMModel.flat_priors self = true ->
  DMModel.on_state DMModel.estimates
    (DMModel.fit_body lib self data outcomes "MLE" hierarchical recovery
       fit_kwargs sample_kwargs logp_method suppress_table)
  = DMModel.on_state DMModel.estimates
      (DMModel.fit_body lib self data outcomes "MAP" hierarchical recovery
         fit_kwargs sample_kwargs logp_method suppress_table).
Proof.
  intros Hcache Hflat. unfold DMModel.fit_body. cbv zeta.
  repeat same_estimates_prefix.
  cbn [DMModel._pymc3_model DMModel._fit_method DMModel.n_subjects
       DMModel.set_logp_method DMModel.set_subjects
       DMModel.set_sims].
  change (lower "MLE") with "mle". change (lower "MAP") with "map".
  rewrite (no_reuse self "mle" _ Hcache (or_introl eq_refl)).
  rewrite (no_reuse self "map" _ Hcache (or_intror eq_refl)).
  change (DMModel.is_in "MLE" ["MLE"; "mle"]) with true.
  change (DMModel.is_in "MAP" ["MLE"; "mle"]) with false.
  change (DMModel.is_in "MAP" ["MAP"; "map"]) with true.
  cbv iota.
  rewrite create_model_mle_flat by exact Hflat.
  repeat same_estimates_prefix.
  apply fit_MAP_estimates. reflexivity.
Qed.

(** Two runs of [fit] on the same loader compare as their bodies do. *)
Lemma fit_with_on_state (view : DMModel.t -> DMModel.t)
    (lib : DMModel.backend)
    (loader : csv_file -> option (list Z) -> result (list pyobj))
    (self : DMModel.t) (responses : csv_file)
    (outcomes : option outcomes_arg) (m1 m2 : string)
    (h1 h2 recovery : bool) (exclude : option (list Z))
    (fit_kwargs sample_kwargs : option DMModel.kwargs) (logp_method : string)
    (suppress_table : bool) :
  (forall data,
      DMModel.on_state view
        (DMModel.fit_body lib self data outcomes m1 h1 recovery fit_kwargs
           sample_kwargs logp_method suppress_table)
      = DMModel.on_state view
          (DMModel.fit_body lib self data outcomes m2 h2 recovery fit_kwargs
             sample_kwargs logp_method suppress_table)) ->
  DMModel.on_state view
    (DMModel.fit_with lib loader self responses outcomes m1 h1 recovery
       exclude fit_kwargs sample_kwargs logp_method suppress_table)
  = DMModel.on_state view
      (DMModel.fit_with lib loader self responses outcomes m2 h2 recovery
         exclude fit_kwargs sample_kwargs logp_method suppress_table).
Proof.
  intros Hbody. unfold DMModel.fit_with.
  destruct (loader responses exclude) as [e|returned]; [reflexivity|].
  cbn [bind].
  destruct (DMModel.unpack_loaded returned) as [e|data]; [reflexivity|].
  cbn [bind]. apply Hbody.
Qed.

Lemma create_model_binds (lib : DMModel.backend) (self s' : DMModel.t)
    (mle : bool) :
  DMModel._create_model lib self mle = inr s' ->
  Model.map_result
    (fun p => Utils.generate_pymc_distribution p (DMModel.n_subjects self)
                false mle)
    (DMModel.learning_parameters self)
  = inr (DMModel.learning_parameters s')
  /\ DMModel.n_subjects s' = DMModel.n_subjects self.
Proof.
  unfold DMModel._create_model. intros H.
  apply bind_inr in H as [r [_ H]].
  apply bind_inr in H as [o [_ H]].
  apply bind_inr in H as [tm [_ H]].
  apply bind_inr in H as [runs [_ H]].
  apply bind_inr in H as [m [Hm H]].
  apply bind_inr in H as [x [_ H]].
  apply bind_inr in H as [q [_ H]].
  injection H as <-.
  unfold Model.PyMCModel_init in Hm.
  destruct (negb (n_unique runs =? 1)); [discriminate Hm|].
  apply bind_inr in Hm as [[[[ls' dyn] stat] os'] [Hinit Hm]].
  apply bind_inr in Hm as [n [_ Hm]].
  injection Hm as <-.
  unfold Model._initialise_parameters in Hinit.
  apply bind_inr in Hinit as [bound [Hbound Hinit]].
  apply bind_inr in Hinit as [[dyn' stat'] [_ Hinit]].
  apply bind_inr in Hinit as [first [_ Hinit]].
  apply bind_inr in Hinit as [obs' [_ Hinit]].
  injection Hinit as <- _ _ _.
  cbn. split; [exact Hbound | reflexivity].
Qed.

Lemma set_value_bound (self s' : DMModel.t) (r o : ndarray)
    (tm : matrix) (runs : list nat) :
  DMModel.set_value self r o tm runs = inr s' ->
  DMModel.learning_parameters s' = DMModel.learning_parameters self.
Proof.
  unfold DMModel.set_value. intros H.
  repeat (apply bind_inr in H as [? [_ H]]).
  injection H as <-. reflexivity.
Qed.

Lemma fit_MAP_n_subjects (lib : DMModel.backend) (self s' : DMModel.t)
    (mle recovery suppress_table : bool) (kw : DMModel.kwargs) :
  DMModel._fit_MAP lib self mle recovery suppress_table kw = inr s' ->
  DMModel.n_subjects s' = DMModel.n_subjects self.
Proof.
  unfold DMModel._fit_MAP. intros H.
  apply bind_inr in H as [model [_ H]].
  apply bind_inr in H as [found [_ H]].
  apply bind_inr in H as [untransformed [_ H]].
  apply bind_inr in H as [s1 [Hrecovery H]].
  apply bind_inr in H as [o [_ H]].
  unfold model_fit in H. injection H as <-.
  destruct (recovery && negb (Params.is_None _)) eqn:Hflag in Hrecovery.
  - apply bind_inr in Hrecovery as [[s2 se_cor] [Hrec Hret]].
    injection Hret as <-.
    apply recovery_table in Hrec as [merged ->].
    destruct mle, suppress_table; reflexivity.
  - injection Hrecovery as <-.
    destruct mle, suppress_table; reflexivity.
Qed.

(** A fit with a point-estimate method that does not reuse a compiled model
    binds the learning parameters of the state with the MLE override
    exactly when the method is MLE. *)
Lemma fit_body_binds (lib : DMModel.backend) (self s' : DMModel.t)
    (data : DMModel.loaded) (outcomes : option outcomes_arg)
    (fit_method : string) (hierarchical recovery : bool)
    (fit_kwargs sample_kwargs : option DMModel.kwargs) (logp_method : string)
    (suppress_table : bool) :
  DMModel._pymc3_model self = None
  \/ (DMModel._fit_method self <> Some "mle"
      /\ DMModel._fit_method self <> Some "map") ->
  lower fit_method = "mle" \/ lower fit_method = "map" ->
  DMModel.is_in fit_method ["MLE"; "mle"; "MAP"; "map"] = true ->
  DMModel.fit_body lib self data outcomes fit_method hierarchical recovery
    fit_kwargs sample_kwargs logp_method suppress_table = inr s' ->
  Model.map_result
    (fun p => Utils.generate_pymc_distribution p (DMModel.n_subjects s') false
                (DMModel.is_in fit_method ["MLE"; "mle"]))
    (DMModel.learning_parameters self)
  = inr (DMModel.learning_parameters s').
Proof.
  intros Hcache Hlower Hpoint. unfold DMModel.fit_body. intros H.
  destruct (Params.is_None outcomes && Params.is_None (DMModel.l_outcomes data));
    [discriminate H|].
  apply bind_inr in H as [outcomes_loaded [_ H]].
  apply bind_inr in H as [responses_now [_ H]].
  apply bind_inr in H as [n_response_trials [_ H]].
  apply bind_inr in H as [outcomes_now [_ H]].
  apply bind_inr in H as [n_outcome_trials [_ H]].
  destruct (negb (n_response_trials =? n_outcome_trials)); [discriminate H|].
  apply bind_inr in H as [n_outcome_columns [_ H]].
  apply bind_inr in H as [s1 [Hcreate H]].
  apply bind_inr in H as [s2 [Hset H]].
  cbn [DMModel._pymc3_model DMModel._fit_method DMModel.n_subjects
       DMModel.set_logp_method DMModel.set_subjects DMModel.set_sims]
    in Hcreate.
  rewrite (no_reuse self (lower fit_method) _ Hcache Hlower) in Hcreate.
  apply create_model_binds in Hcreate as [Hbound Hn1].
  cbn [DMModel.learning_parameters DMModel.n_subjects DMModel.set_n_subjects
       DMModel.set_shared DMModel.set_logp_method DMModel.set_subjects
       DMModel.set_sims] in Hbound.
  apply set_value_bound in Hset.
  assert (Hready : forall ready : DMModel.t,
    DMModel.same_model
      (DMModel.set__fit_method
         (DMModel.set_n_subjects s2 (length (DMModel.l_subjects data)))
         (Some (lower fit_method))) ready ->
    DMModel.n_subjects ready
    = DMModel.n_subjects
        (DMModel.set__fit_method
           (DMModel.set_n_subjects s2 (length (DMModel.l_subjects data)))
           (Some (lower fit_method))) ->
    Model.map_result
      (fun p => Utils.generate_pymc_distribution p (DMModel.n_subjects ready)
                  false (DMModel.is_in fit_method ["MLE"; "mle"]))
      (DMModel.learning_parameters self)
    = inr (DMModel.learning_parameters ready)).
  { intros ready [_ [Hl _]] Hn. rewrite Hn, Hl. cbn. rewrite Hset.
    exact Hbound. }
  destruct (DMModel.is_in fit_method ["MLE"; "mle"]) eqn:Hmle.
  { apply Hready;
      [exact (fit_MAP_same_model _ _ _ _ _ _ _ H)
      | exact (fit_MAP_n_subjects _ _ _ _ _ _ _ H)]. }
  destruct (DMModel.is_in fit_method ["MAP"; "map"]) eqn:Hmap.
  { apply Hready;
      [exact (fit_MAP_same_model _ _ _ _ _ _ _ H)
      | exact (fit_MAP_n_subjects _ _ _ _ _ _ _ H)]. }
  exfalso. unfold DMModel.is_in in Hpoint, Hmle, Hmap.
  cbn [existsb] in Hpoint, Hmle, Hmap.
  destruct (String.eqb fit_method "MLE"), (String.eqb fit_method "mle"),
    (String.eqb fit_method "MAP"), (String.eqb fit_method "map");
    discriminate.
Qed.




(** * Further properties of the code *)

(** ** Loading data *)

Lemma sequence_results_inr {A : Type} (l : list (result A)) (r : list A) :
  sequence_results l = inr r -> Forall2 (fun c a => c = inr a) l r.
Proof.
  revert r. induction l as [|c rest IH]; simpl; intros r H.
  - injection H as <-. constructor.
  - apply bind_inr in H as [a [-> H]].
    apply bind_inr in H as [r' [Hrest H]].
    injection H as <-. constructor; auto.
Qed.

Lemma map_result_inr {A B : Type} (f : A -> result B) (l : list A)
    (r : list B) :
  Model.map_result f l = inr r -> Forall2 (fun a b => f a = inr b) l r.
Proof.
  revert r. induction l as [|a rest IH]; simpl; intros r H.
  - injection H as <-. constructor.
  - apply bind_inr in H as [b [Hb H]].
    apply bind_inr in H as [r' [Hrest H]].
    injection H as <-. constructor; auto.
Qed.

Lemma Forall2_In_r {A B : Type} (P : A -> B -> Prop) (l : list A)
    (r : list B) (b : B) :
  Forall2 P l r -> In b r -> exists a, In a l /\ P a b.
Proof.
  induction 1 as [|a b' l r Hab _ IH]; simpl; [tauto|].
  intros [<-|Hin]; [eauto|].
  destruct (IH Hin) as [a' [Ha' Hp]]. eauto.
Qed.

Lemma insert_sorted_In (z x : Z) (l : list Z) :
  In x (insert_sorted z l) <-> x = z \/ In x l.
Proof.
  induction l as [|y rest IH]; simpl.
  - intuition.
  - destruct (z <? y)%Z eqn:Hlt; [simpl; intuition|].
    destruct (z =? y)%Z eqn:Heq.
    + apply Z.eqb_eq in Heq. subst y. simpl. intuition.
    + simpl. rewrite IH. intuition.
Qed.

Lemma insert_sorted_sorted (z : Z) (l : list Z) :
  StronglySorted Z.lt l -> StronglySorted Z.lt (insert_sorted z l).
Proof.
  induction l as [|y rest IH]; simpl; intros Hs.
  - repeat constructor.
  - inversion Hs as [|? ? Hrest Hall]; subst.
    destruct (z <? y)%Z eqn:Hlt.
    + apply Z.ltb_lt in Hlt. constructor; [exact Hs|].
      constructor; [exact Hlt|].
      eapply Forall_impl; [|exact Hall]. intros a Ha. lia.
    + destruct (z =? y)%Z eqn:Heq; [exact Hs|].
      apply Z.ltb_ge in Hlt. apply Z.eqb_neq in Heq.
      constructor; [auto|].
      apply Forall_forall. intros a Ha.
      apply insert_sorted_In in Ha as [->|Ha]; [lia|].
      rewrite Forall_forall in Hall. auto.
Qed.

Lemma unique_sorted (l : list Z) : StronglySorted Z.lt (unique l).
Proof.
  induction l as [|z rest IH]; simpl; [constructor|].
  apply insert_sorted_sorted, IH.
Qed.

Lemma unique_In (l : list Z) (x : Z) : In x (unique l) <-> In x l.
Proof.
  induction l as [|z rest IH]; simpl; [tauto|].
  rewrite insert_sorted_In, IH. intuition.
Qed.

Lemma contains_refl (s : string) : contains s s = true.
Proof.
  assert (Hp : String.prefix s s = true).
  { induction s as [|c s IH]; simpl; [reflexivity|].
    destruct (ascii_dec c c); [exact IH | contradiction]. }
  destruct s; simpl; [reflexivity|].
  simpl in Hp. rewrite Hp. reflexivity.
Qed.

Lemma load_data_returned (f : csv_file) (returned : list pyobj) :
  load_data f = inr returned ->
  exists data sims,
    returned = [ObjSubjects (unique (map Subject (rows f)));
                ObjArray (A2 data); ObjSims (Some sims)]
    /\ sequence_results
         (map (fun s =>
                 sequence_results
                   (map (fun t =>
                           pivot_cell
                             (length (rows f)
                              / length (unique (map Subject (rows f))))
                             (rows f) t s)
                        (seq 0 (length (rows f)
                                / length (unique (map Subject (rows f)))))))
              (unique (map Subject (rows f))))
       = inr data.
Proof.
  unfold load_data. intros H.
  destruct (negb (parses f)); [discriminate H|].
  destruct (existsb (String.eqb "Subject") (columns f)) eqn:Hsubject;
    [|discriminate H].
  destruct (negb (existsb (String.eqb "Response") (columns f)));
    [discriminate H|].
  cbn [negb orb] in H.
  destruct (length (unique (map Subject (rows f))) =? 0); [discriminate H|].
  destruct (negb (length (rows f) mod _ =? 0)); [discriminate H|].
  apply bind_inr in H as [pivoted [Hpivot H]].
  injection H as <-.
  assert (Hsims : negb (length (filter (fun i => contains "_sim" i
                                                 || contains "Subject" i)
                                       (columns f)) =? 0) = true).
  { apply existsb_exists in Hsubject as [c [Hin Hc]].
    apply String.eqb_eq in Hc. subst c.
    assert (Hf : In "Subject" (filter (fun i => contains "_sim" i
                                                || contains "Subject" i)
                                      (columns f))).
    { apply filter_In. split; [exact Hin | reflexivity]. }
    destruct (filter _ (columns f)); [destruct Hf | reflexivity]. }
  rewrite Hsims. eauto.
Qed.

(** X1. When [load_data] succeeds it returns exactly three values: the
    subject identifiers in strictly increasing order, each identifier of the
    file once; a response array with one row per subject and
    [len(data) / n_subjects] entries per row; and a table of simulated
    values that is never [None], because the column [Subject] itself
    matches the test that selects the simulation columns. *)
Theorem load_data_shape (f : csv_file) (returned : list pyobj) :
  load_data f = inr returned ->
  exists ids data sims,
    returned = [ObjSubjects ids; ObjArray (A2 data); ObjSims (Some sims)]
    /\ StronglySorted Z.lt ids
    /\ (forall z, In z ids <-> In z (map Subject (rows f)))
    /\ length data = length ids
    /\ Forall (fun r => length r = length (rows f) / length ids) data.
Proof.
  intros H. apply load_data_returned in H as [data [sims [-> Hpivot]]].
  exists (unique (map Subject (rows f))), data, sims.
  split; [reflexivity|].
  split; [apply unique_sorted|].
  split; [intros z; apply unique_In|].
  apply sequence_results_inr in Hpivot.
  split.
  - apply Forall2_length in Hpivot. rewrite length_map in Hpivot.
    symmetry. exact Hpivot.
  - apply Forall_forall. intros r Hr.
    destruct (Forall2_In_r _ _ _ _ Hpivot Hr) as [c [Hc Hr']].
    apply in_map_iff in Hc as [s [<- _]].
    apply sequence_results_inr, Forall2_length in Hr'.
    rewrite length_map, length_seq in Hr'. symmetry. exact Hr'.
Qed.

Lemma load_data_shape_witness :
  exists ids data sims,
    [ObjSubjects [1; 2]%Z; ObjArray (A2 [[0; 1]; [1; 1]]%Q);
     ObjSims (Some [ {| Subject := 1; Response := 0; sim_values := [] |};
                     {| Subject := 2; Response := 1; sim_values := [] |} ])]
    = [ObjSubjects ids; ObjArray (A2 data); ObjSims (Some sims)]
    /\ StronglySorted Z.lt ids
    /\ (forall z, In z ids <-> In z (map Subject (rows Examples.response_file)))
    /\ length data = length ids
    /\ Forall (fun r => length r
                        = length (rows Examples.response_file) / length ids)
              data.
Proof.
  exact (load_data_shape Examples.response_file _ eq_refl).
Defined.

(** X2. A response file that parses and has the two required columns but no
    rows makes [load_data] raise [ZeroDivisionError]: the number of
    distinct subjects is zero when the trial count is taken modulo it. *)
Theorem load_data_no_rows (f : csv_file) :
  parses f = true ->
  In "Subject" (columns f) ->
  In "Response" (columns f) ->
  rows f = [] ->
  load_data f = inl (ZeroDivisionError "integer division or modulo by zero").
Proof.
  intros Hparses Hsubject Hresponse Hrows. unfold load_data.
  rewrite Hparses, Hrows.
  replace (existsb (String.eqb "Subject") (columns f)) with true.
  2:{ symmetry. apply existsb_exists. exists "Subject".
      split; [exact Hsubject | reflexivity]. }
  replace (existsb (String.eqb "Response") (columns f)) with true.
  2:{ symmetry. apply existsb_exists. exists "Response".
      split; [exact Hresponse | reflexivity]. }
  reflexivity.
Qed.

Lemma load_data_no_rows_witness :
  load_data {| parses := true; columns := ["Subject"; "Response"]; rows := [] |}
  = inl (ZeroDivisionError "integer division or modulo by zero").
Proof.
  apply load_data_no_rows; simpl; auto.
Defined.

(** X3. [load_outcomes] never returns outcomes read from a csv file: when
    [np.loadtxt] rejects the file, the fallback unpacks the result of
    [load_data] into two names, and [load_data] returns three values or
    raises. *)
Theorem load_outcomes_csv_fallback (message : string) (as_csv : csv_file) :
  succeeded (load_outcomes (OutcomesFile (inl (ValueError message)) as_csv))
  = false.
Proof.
  unfold load_outcomes.
  destruct (load_data as_csv) as [e|returned] eqn:Hload; [reflexivity|].
  apply load_data_returned in Hload as [data [sims [-> _]]].
  reflexivity.
Qed.

(** ** Model functions and their one-step wrapper *)

Lemma count_commas_app (a b : string) :
  count_commas (a ++ b) = count_commas a + count_commas b.
Proof.
  induction a as [|c a IH]; simpl; [reflexivity|].
  rewrite IH. lia.
Qed.

Lemma count_commas_concat (names : list string) :
  Forall (fun n => count_commas n = 0) names ->
  count_commas (String.concat ", " names) = length names - 1.
Proof.
  induction 1 as [|n rest Hn Hrest IH]; [reflexivity|].
  destruct rest as [|n' rest].
  - simpl. rewrite Hn. reflexivity.
  - change (String.concat ", " (n :: n' :: rest))
      with (n ++ ", " ++ String.concat ", " (n' :: rest))%string.
    rewrite !count_commas_app, Hn, IH. simpl. lia.
Qed.

Lemma last_line (header : list string) (line : string) :
  exists first others,
    header ++ [line] = first :: others /\ last others first = line.
Proof.
  destruct header as [|first header]; simpl.
  - exists line, []. split; reflexivity.
  - exists first, (header ++ [line]). split; [reflexivity|].
    apply last_last.
Qed.

(** X4. For a function whose last source line follows the documented
    convention, [return (name_1, ..., name_k)] with names that contain no
    comma, [n_returns] counts exactly [k] returned values, whatever the
    lines before it. *)
Theorem n_returns_convention (header : list string) (indent : string)
    (names : list string) :
  names <> [] ->
  count_commas indent = 0 ->
  Forall (fun n => count_commas n = 0) names ->
  n_returns
    (Some (header
           ++ [(indent ++ "return (" ++ String.concat ", " names ++ ")")%string]))
  = inr (length names).
Proof.
  intros Hnames Hindent Hfree.
  destruct (last_line header
              (indent ++ "return (" ++ String.concat ", " names ++ ")")%string)
    as [first [others [-> Hlast]]].
  unfold n_returns. cbv zeta. rewrite Hlast.
  rewrite !count_commas_app, Hindent, count_commas_concat by exact Hfree.
  destruct names as [|n names]; [contradiction|]. simpl. unfold ret. f_equal. lia.
Qed.

Lemma n_returns_convention_witness :
  n_returns
    (Some (["def rescorla_wagner(o, t, v, alpha):"; "    pe = o - v";
            "    value = v + alpha * pe"]
           ++ [("    " ++ "return (" ++ String.concat ", " ["value"; "pe"]
                ++ ")")%string]))
  = inr 2.
Proof.
  apply (n_returns_convention
           ["def rescorla_wagner(o, t, v, alpha):"; "    pe = o - v";
            "    value = v + alpha * pe"] "    " ["value"; "pe"]).
  - discriminate.
  - reflexivity.
  - repeat constructor.
Defined.

Lemma skipn_repeat {A : Type} (a : A) (k n : nat) :
  skipn k (repeat a n) = repeat a (n - k).
Proof.
  revert n. induction k as [|k IH]; intros n.
  - rewrite Nat.sub_0_r. reflexivity.
  - destruct n; simpl; [reflexivity | apply IH].
Qed.

(** X5. The one-step initial model made by [function_wrapper] never calls
    the wrapped function.  Given a first argument and at least [n_reused]
    further ones, it returns those [n_reused] arguments followed by
    [n_returns - n_reused] copies of the first argument, that is
    [max(n_returns, n_reused)] values; called without arguments it raises
    [IndexError]. *)
Theorem function_wrapper_outputs (f : py_function) (n_returns n_reused : nat)
    (first : vector) (rest : list vector) :
  n_reused <= length rest ->
  function_wrapper f n_returns n_reused (first :: rest)
  = inr (firstn n_reused rest ++ repeat first (n_returns - n_reused))
  /\ length (firstn n_reused rest ++ repeat first (n_returns - n_reused))
     = Nat.max n_returns n_reused
  /\ function_wrapper f n_returns n_reused []
     = inl (IndexError "list index out of range").
Proof.
  intros Hrest. unfold function_wrapper. simpl.
  rewrite skipn_repeat. split; [reflexivity|]. split; [|reflexivity].
  rewrite length_app, length_firstn, repeat_length. lia.
Qed.

Lemma function_wrapper_outputs_witness :
  function_wrapper Examples.rescorla_wagner_call 2 1 [[1]; [1]; [0]; [1 # 2]]%Q
  = inr (firstn 1 [[1]; [0]; [1 # 2]]%Q ++ repeat [1]%Q (2 - 1))
  /\ length (firstn 1 [[1]; [0]; [1 # 2]]%Q ++ repeat [1]%Q (2 - 1))
     = Nat.max 2 1
  /\ function_wrapper Examples.rescorla_wagner_call 2 1 []
     = inl (IndexError "list index out of range").
Proof.
  apply (function_wrapper_outputs Examples.rescorla_wagner_call 2 1 [1]%Q
           [[1]; [0]; [1 # 2]]%Q).
  simpl. lia.
Defined.

(** ** Choices *)




(** ** Binding parameters to distributions *)

Lemma mle_override_fields (p : parameter) :
  name (mle_override p) = name p
  /\ fixed (mle_override p) = fixed p
  /\ dynamic (mle_override p) = dynamic p
  /\ mean (mle_override p) = mean p
  /\ lower_bound (mle_override p) = lower_bound p
  /\ upper_bound (mle_override p) = upper_bound p
  /\ transform_method (mle_override p) = transform_method p
  /\ pymc_distribution (mle_override p) = pymc_distribution p
  /\ backward (mle_override p) = backward p.
Proof.
  unfold mle_override.
  destruct (negb (String.eqb (distribution p) "uniform")
            && negb (String.eqb (distribution p) "flat")
            && negb (String.eqb (distribution p) "fixed"));
    [destruct (negb (is_None (upper_bound p))
               && negb (is_None (lower_bound p)))|];
    repeat split.
Qed.

(** X8. A fixed parameter is always bound to a constant array holding one
    copy of its mean per subject, whatever the flags [hierarchical] and
    [mle]; in particular the single-subject check of hierarchical priors
    does not apply to it. *)
Theorem generate_fixed_parameter (p : parameter) (n_subjects : nat)
    (hierarchical mle : bool) :
  fixed p = true ->
  exists p',
    generate_pymc_distribution p n_subjects hierarchical mle = inr p'
    /\ pymc_distribution p' = Some (Const (repeat (mean p) n_subjects))
    /\ name p' = name p
    /\ dynamic p' = dynamic p.
Proof.
  intros Hfixed. unfold generate_pymc_distribution.
  destruct (mle_override_fields p)
    as [Hname [Hfix [Hdyn [Hmean _]]]].
  destruct mle; cbv zeta.
  - rewrite Hfix, Hfixed. eexists. split; [reflexivity|].
    simpl. rewrite Hmean, Hname, Hdyn. auto.
  - rewrite Hfixed. eexists. split; [reflexivity|]. simpl. auto.
Qed.

Lemma generate_fixed_parameter_witness :
  exists p',
    generate_pymc_distribution (Examples.fixed_parameter "v" 0 true) 1 true
      false = inr p'
    /\ pymc_distribution p'
       = Some (Const (repeat (mean (Examples.fixed_parameter "v" 0 true)) 1))
    /\ name p' = name (Examples.fixed_parameter "v" 0 true)
    /\ dynamic p' = dynamic (Examples.fixed_parameter "v" 0 true).
Proof.
  apply (generate_fixed_parameter (Examples.fixed_parameter "v" 0 true) 1
           true false).
  reflexivity.
Defined.

(** X9. For a parameter that is not fixed, [generate_pymc_distribution]
    with [hierarchical=True] and fewer than two subjects raises
    [ValueError], whatever the declared distribution. *)
Theorem generate_hierarchical_single_subject (p : parameter)
    (n_subjects : nat) (mle : bool) :
  fixed p = false ->
  n_subjects < 2 ->
  generate_pymc_distribution p n_subjects true mle
  = inl (ValueError "Hierarchical parameters only possible with > 1 subject").
Proof.
  intros Hfixed Hn. unfold generate_pymc_distribution.
  destruct (mle_override_fields p) as [_ [Hfix _]].
  apply Nat.ltb_lt in Hn.
  destruct mle; cbv zeta; rewrite ?Hfix, Hfixed, Hn; reflexivity.
Qed.

Lemma generate_hierarchical_single_subject_witness :
  generate_pymc_distribution Examples.alpha_uniform 1 true false
  = inl (ValueError "Hierarchical parameters only possible with > 1 subject").
Proof.
  apply (generate_hierarchical_single_subject Examples.alpha_uniform 1 false).
  - reflexivity.
  - lia.
Defined.

(** X10. Under maximum likelihood the declared prior of a parameter has no
    influence: two parameters that are not fixed and agree on name, bounds
    and transform, whatever distributions other than uniform, flat and
    fixed they declare and whatever their mean and variance, are bound to
    the same variable, which is uniform when both bounds are given and
    flat otherwise. *)
Theorem generate_mle_ignores_prior (p q : parameter) (n_subjects : nat) :
  fixed p = false -> fixed q = false ->
  uniform_or_flat p = false -> uniform_or_flat q = false ->
  name p = name q ->
  lower_bound p = lower_bound q ->
  upper_bound p = upper_bound q ->
  transform_method p = transform_method q ->
  exists p' q' d,
    generate_pymc_distribution p n_subjects false true = inr p'
    /\ generate_pymc_distribution q n_subjects false true = inr q'
    /\ pymc_distribution p' = Some (RandomVariable d)
    /\ pymc_distribution q' = Some (RandomVariable d)
    /\ d = (if negb (is_None (upper_bound p))
               && negb (is_None (lower_bound p))
            then Uniform (name p) (lower_bound p) (upper_bound p)
                   (rv_shape false n_subjects)
            else if 1 <? n_subjects
                 then Flat (name p) (Some n_subjects) (transform_method p)
                 else Flat (name p) None None).
Proof.
  intros Hp Hq Hup Huq Hname Hlower Hupper Htransform.
  unfold generate_pymc_distribution, mle_override. cbv zeta.
  unfold uniform_or_flat in Hup, Huq.
  apply orb_false_iff in Hup as [Hup Hp3].
  apply orb_false_iff in Hup as [Hp1 Hp2].
  apply orb_false_iff in Huq as [Huq Hq3].
  apply orb_false_iff in Huq as [Hq1 Hq2].
  rewrite Hp1, Hp2, Hp3, Hq1, Hq2, Hq3. cbn [negb andb].
  rewrite <- Hlower, <- Hupper.
  destruct (negb (is_None (upper_bound p)) && negb (is_None (lower_bound p)));
    cbn; rewrite Hp, Hq; cbn;
    rewrite <- ?Hlower, <- ?Hupper, <- ?Hname, <- ?Htransform;
    destruct (1 <? n_subjects); cbn; eexists _, _, _; repeat split.
Qed.

Lemma generate_mle_ignores_prior_witness :
  exists p' q' d,
    generate_pymc_distribution
      (mkParameter "alpha" "normal" false false (Some 0%Q) (Some 1%Q) (1 # 2)
         (Some 1%Q) None None false) 2 false true = inr p'
    /\ generate_pymc_distribution
         (mkParameter "alpha" "cauchy" false false (Some 0%Q) (Some 1%Q) 0
            None None None false) 2 false true = inr q'
    /\ pymc_distribution p' = Some (RandomVariable d)
    /\ pymc_distribution q' = Some (RandomVariable d)
    /\ d = Uniform "alpha" (Some 0%Q) (Some 1%Q) (Some 2).
Proof.
  apply (generate_mle_ignores_prior
           (mkParameter "alpha" "normal" false false (Some 0%Q) (Some 1%Q)
              (1 # 2) (Some 1%Q) None None false)
           (mkParameter "alpha" "cauchy" false false (Some 0%Q) (Some 1%Q) 0
              None None None false) 2); reflexivity.
Defined.

Lemma generate_fields (p p' : parameter) (n_subjects : nat)
    (hierarchical mle : bool) :
  generate_pymc_distribution p n_subjects hierarchical mle = inr p' ->
  name p' = name p /\ dynamic p' = dynamic p /\ fixed p' = fixed p
  /\ mean p' = mean p.
Proof.
  unfold generate_pymc_distribution. cbv zeta. intros H.
  set (q := if mle then mle_override p else p) in H.
  assert (Hq : name q = name p /\ dynamic q = dynamic p
               /\ fixed q = fixed p /\ mean q = mean p).
  { subst q. destruct mle; [|auto].
    destruct (mle_override_fields p) as [Hn [Hf [Hd [Hm _]]]]. auto. }
  clearbody q. destruct Hq as [Hn [Hd [Hf Hm]]].
  rewrite <- Hn, <- Hd, <- Hf, <- Hm. clear Hn Hd Hf Hm. revert H.
  destruct (fixed q) eqn:Hfixed.
  { intros H; injection H as <-; simpl; auto. }
  repeat match goal with
         | |- (if ?c then _ else _) = _ -> _ => destruct c
         | |- raise _ = inr _ -> _ => intros H; discriminate H
         | |- ret _ = inr _ -> _ => intros H; injection H as <-; simpl; auto
         end.
Qed.

Lemma generate_individual_succeeds (p : parameter) (n_subjects : nat)
    (mle : bool) :
  exists p', generate_pymc_distribution p n_subjects false mle = inr p'.
Proof.
  unfold generate_pymc_distribution. cbv zeta.
  cbn [andb].
  repeat match goal with
         | |- exists _, (if ?c then _ else _) = _ => destruct c
         end; eexists; reflexivity.
Qed.

Lemma generate_unsupported (p : parameter) (n_subjects : nat) :
  fixed p = false ->
  pymc_distribution p = None ->
  String.eqb (distribution p) "normal" = false ->
  String.eqb (distribution p) "uniform" = false ->
  String.eqb (distribution p) "flat" = false ->
  generate_pymc_distribution p n_subjects false false = inr p.
Proof.
  intros Hfixed Hnone H1 H2 H3. unfold generate_pymc_distribution.
  cbv zeta. rewrite Hfixed, H1, H2, H3. reflexivity.
Qed.

Lemma split_parameters_unbound (ps : list parameter) (p : parameter) :
  In p ps -> pymc_distribution p = None ->
  Model.split_parameters ps
  = inl (AttributeError
      "Parameter {0} has no distribution information, make sure at least the mean is specified").
Proof.
  intros Hin Hnone. induction ps as [|q ps IH]; [destruct Hin|].
  simpl. destruct Hin as [->|Hin].
  - rewrite Hnone. reflexivity.
  - destruct (pymc_distribution q); [|reflexivity].
    rewrite (IH Hin). reflexivity.
Qed.

Lemma map_result_total {A B : Type} (f : A -> result B) (l : list A) :
  (forall a, exists b, f a = inr b) ->
  exists r, Model.map_result f l = inr r.
Proof.
  intros Hf. induction l as [|a l [r IH]]; simpl; [eauto|].
  destruct (Hf a) as [b ->]. simpl. rewrite IH. simpl. eauto.
Qed.

(** X11. Outside maximum likelihood, a learning parameter whose declared
    distribution is none of normal, uniform, flat and fixed is left without
    a PyMC3 variable by [generate_pymc_distribution], and
    [_initialise_parameters] then stops with the [AttributeError] about
    missing distribution information. *)
Theorem unsupported_distribution_rejected (learning_parameters : list parameter)
    (observation_parameters : list (option parameter)) (n_subjects : nat)
    (n_runs : list nat) (p : parameter) :
  In p learning_parameters ->
  fixed p = false ->
  pymc_distribution p = None ->
  ~ In (distribution p) ["normal"; "uniform"; "flat"] ->
  Model._initialise_parameters learning_parameters observation_parameters
    n_subjects n_runs false false
  = inl (AttributeError
      "Parameter {0} has no distribution information, make sure at least the mean is specified").
Proof.
  intros Hin Hfixed Hnone Hdist. unfold Model._initialise_parameters.
  destruct (map_result_total
              (fun p => generate_pymc_distribution p n_subjects false false)
              learning_parameters
              (fun a => generate_individual_succeeds a n_subjects false))
    as [bound Hbound].
  rewrite Hbound. simpl.
  assert (Hp : In p bound).
  { apply map_result_inr in Hbound.
    clear - Hbound Hin Hfixed Hnone Hdist.
    induction Hbound as [|a b l r Hab _ IH]; [destruct Hin|].
    destruct Hin as [->|Hin]; [left | right; auto].
    rewrite generate_unsupported in Hab; auto.
    - injection Hab as <-. reflexivity.
    - apply String.eqb_neq. intros E. apply Hdist. rewrite E. simpl. auto.
    - apply String.eqb_neq. intros E. apply Hdist. rewrite E. simpl. auto.
    - apply String.eqb_neq. intros E. apply Hdist. rewrite E. simpl. auto. }
  rewrite (split_parameters_unbound bound p Hp Hnone). reflexivity.
Qed.

Lemma unsupported_distribution_rejected_witness :
  Model._initialise_parameters
    [Examples.v_uniform;
     mkParameter "alpha" "cauchy" false false None None 0 None None None false]
    [None] 1 [1] false false
  = inl (AttributeError
      "Parameter {0} has no distribution information, make sure at least the mean is specified").
Proof.
  apply (unsupported_distribution_rejected
           [Examples.v_uniform;
            mkParameter "alpha" "cauchy" false false None None 0 None None
              None false]
           [None] 1 [1]
           (mkParameter "alpha" "cauchy" false false None None 0 None None
              None false)).
  - right; left; reflexivity.
  - reflexivity.
  - reflexivity.
  - simpl. intros [H|[H|[H|[]]]]; discriminate H.
Defined.

Lemma split_parameters_filter (ps : list parameter)
    (dyn stat : list bound_value) :
  Model.split_parameters ps = inr (dyn, stat) ->
  map Some dyn = map pymc_distribution (filter dynamic ps)
  /\ map Some stat
     = map pymc_distribution (filter (fun p => negb (dynamic p)) ps).
Proof.
  revert dyn stat. induction ps as [|p ps IH]; simpl; intros dyn stat H.
  - injection H as <- <-. split; reflexivity.
  - destruct (pymc_distribution p) as [b|] eqn:Hb; [|discriminate H].
    apply bind_inr in H as [[dyn' stat'] [Hrest H]].
    destruct (IH _ _ Hrest) as [Hdyn Hstat].
    destruct (dynamic p); injection H as <- <-; simpl;
      rewrite ?Hb, ?Hdyn, ?Hstat; split; reflexivity.
Qed.

Lemma initialise_parameters_fields (learning_parameters : list parameter)
    (observation_parameters : list (option parameter)) (n_subjects : nat)
    (n_runs : list nat) (mle hierarchical : bool)
    (bound : list parameter) (dyn stat : list bound_value)
    (observation : list (option parameter)) :
  Model._initialise_parameters learning_parameters observation_parameters
    n_subjects n_runs mle hierarchical
  = inr (bound, dyn, stat, observation) ->
  map name bound = map name learning_parameters
  /\ map dynamic bound = map dynamic learning_parameters
  /\ map Some dyn = map pymc_distribution (filter dynamic bound)
  /\ map Some stat
     = map pymc_distribution (filter (fun p => negb (dynamic p)) bound)
  /\ length dyn = length (filter dynamic learning_parameters)
  /\ length observation = length observation_parameters.
Proof.
  unfold Model._initialise_parameters. intros H.
  apply bind_inr in H as [bound' [Hbound H]].
  apply bind_inr in H as [[dyn' stat'] [Hsplit H]].
  apply bind_inr in H as [first [Hfirst H]].
  apply bind_inr in H as [observation' [Hobs H]].
  injection H as <- <- <- <-.
  apply map_result_inr in Hbound.
  assert (Hfields : map name bound' = map name learning_parameters
                    /\ map dynamic bound' = map dynamic learning_parameters).
  { clear - Hbound. induction Hbound as [|a b l r Hab _ [IH1 IH2]];
      [split; reflexivity|].
    apply generate_fields in Hab as [Hn [Hd _]].
    simpl. rewrite Hn, Hd, IH1, IH2. split; reflexivity. }
  destruct Hfields as [Hnames Hdynamic].
  destruct (split_parameters_filter _ _ _ Hsplit) as [Hdyn Hstat].
  repeat split; auto.
  - apply (f_equal (@length _)) in Hdyn. rewrite !length_map in Hdyn.
    rewrite Hdyn. clear - Hdynamic.
    revert learning_parameters Hdynamic.
    induction bound' as [|b bs IH]; intros [|a l] Hd; try discriminate Hd;
      [reflexivity|].
    simpl in Hd. injection Hd as Hd Hrest. simpl. rewrite Hd.
    destruct (dynamic a); simpl; rewrite (IH l Hrest); reflexivity.
  - destruct first as [p0|].
    + apply map_result_inr, Forall2_length in Hobs. symmetry. exact Hobs.
    + injection Hobs as <-. reflexivity.
Qed.

(** X12. When [_initialise_parameters] succeeds, the learning parameters it
    returns keep the names and the dynamic flags of those given, in order;
    the dynamic parameters are the bound values of the ones flagged
    dynamic and the static parameters those of the others, each in the
    order of the learning parameters. *)
Theorem initialise_parameters_split (learning_parameters : list parameter)
    (observation_parameters : list (option parameter)) (n_subjects : nat)
    (n_runs : list nat) (mle hierarchical : bool)
    (bound : list parameter) (dyn stat : list bound_value)
    (observation : list (option parameter)) :
  Model._initialise_parameters learning_parameters observation_parameters
    n_subjects n_runs mle hierarchical
  = inr (bound, dyn, stat, observation) ->
  map name bound = map name learning_parameters
  /\ map dynamic bound = map dynamic learning_parameters
  /\ map Some dyn = map pymc_distribution (filter dynamic bound)
  /\ map Some stat
     = map pymc_distribution (filter (fun p => negb (dynamic p)) bound)
  /\ length dyn = length (filter dynamic learning_parameters)
  /\ length observation = length observation_parameters.
Proof.
  apply initialise_parameters_fields.
Qed.

Lemma initialise_parameters_split_witness :
  map name [Examples.fixed_parameter "v" 0 true]
  = map name [Examples.fixed_parameter "v" 0 true]
  /\ length [Const [0%Q]] = length (filter dynamic [Examples.fixed_parameter "v" 0 true]).
Proof.
  destruct (initialise_parameters_split
              [Examples.fixed_parameter "v" 0 true] [None] 1 [1] false false
              [set_pymc_distribution (Examples.fixed_parameter "v" 0 true)
                 (Const [0%Q]) false]
              [Const [0%Q]] [] [None] eq_refl)
    as [Hnames [_ [_ [_ [Hlen _]]]]].
  split; [exact Hnames | exact Hlen].
Defined.

(** ** The recurrence *)

Lemma scan_loop_length (fn : py_function) (rows : list (list vector))
    (outputs_info : list (option vector)) (state non_sequences : list vector)
    (records : list (list vector)) :
  scan_loop fn rows outputs_info state non_sequences = inr records ->
  length records = length rows.
Proof.
  revert state records.
  induction rows as [|r rows IH]; simpl; intros state records H.
  - injection H as <-. reflexivity.
  - apply bind_inr in H as [outs [_ H]].
    apply bind_inr in H as [rest [Hrest H]].
    injection H as <-. simpl. f_equal. exact (IH _ _ Hrest).
Qed.

Lemma length_steps (slices : list matrix) :
  length (steps slices) = n_steps slices.
Proof. unfold steps. rewrite length_map, length_seq. reflexivity. Qed.

(** The tensors that [scan] hands back, before a single one is unwrapped. *)
Lemma scan_inr (fn : py_function) (sequences : list sequence)
    (outputs_info : list (option vector)) (non_sequences : list vector)
    (out : scan_outputs) :
  scan fn sequences outputs_info non_sequences = inr out ->
  exists outs,
    out = match outs with
          | [m] => Single m
          | _ => Several outs
          end
    /\ Forall (fun m => length m = n_steps (map tap_slice sequences)) outs
    /\ (outputs_info <> [] -> length outs = length outputs_info).
Proof.
  unfold scan. cbv zeta. intros H.
  apply bind_inr in H as [traced [_ H]].
  destruct (negb (length traced =? length outputs_info)
            && negb (length outputs_info =? 0)) eqn:Hcheck;
    [discriminate H|].
  apply bind_inr in H as [records [Hloop H]].
  injection H as <-.
  apply scan_loop_length in Hloop. rewrite length_steps in Hloop.
  eexists. split; [reflexivity|]. split.
  - apply Forall_forall. intros m Hm.
    apply in_map_iff in Hm as [i [<- _]].
    rewrite length_map. exact Hloop.
  - intros Hinfo. rewrite length_map, length_seq.
    apply andb_false_iff in Hcheck as [Hcheck|Hcheck].
    + apply negb_false_iff, Nat.eqb_eq in Hcheck. exact Hcheck.
    + apply negb_false_iff, Nat.eqb_eq in Hcheck.
      destruct outputs_info; [contradiction | discriminate Hcheck].
Qed.

Lemma as_lists_inr (outs outs0 vl vl0 : list matrix) :
  outs <> [] ->
  Model.as_lists
    (match outs with [m] => Single m | _ => Several outs end)
    (match outs0 with [m] => Single m | _ => Several outs0 end)
  = inr (vl, vl0) ->
  vl = outs /\ vl0 = outs0.
Proof.
  intros Hne H.
  destruct outs as [|m [|m' outs]]; [contradiction| |];
    destruct outs0 as [|m0 [|m0' outs0]]; simpl in H;
    try discriminate H; injection H as <- <-; auto.
Qed.

Lemma indexed_cons {A : Type} (a : A) (l : list A) :
  exists rest, indexed (a :: l) = (0, a) :: rest.
Proof. unfold indexed. simpl. eauto. Qed.

(** The part of [get_value] that both shape properties rest on: with at
    least one dynamic parameter the returned value is the first tensor of
    the one-step scan stacked on the first tensor of the main scan. *)
Lemma get_value_stacked (self : Model._PyMCModel) (pt : Model.point)
    (x prob : matrix) :
  Model.pm_observation_model self = None ->
  Model.pm_n_dynamic self = length (Model.pm_dynamic_parameters self) ->
  Model.get_value self pt x = inr (A2 prob) ->
  exists value _value v vs v0 vs0,
    scan (Model.call (Model.pm_learning_model self))
      [ {| input := x; taps := (-1)%Z |};
        {| input := ones_like x; taps := (-1)%Z |} ]
      (Model.outputs_info self pt) (Model.static_parameters_reshaped self pt)
    = inr value
    /\ scan (Model.pm_learning_model_initial self)
         [ {| input := firstn 1 x; taps := 0%Z |};
           {| input := firstn 2 (ones_like x); taps := 0%Z |} ]
         (Model.outputs_info self pt)
         (Model.static_parameters_reshaped self pt)
       = inr _value
    /\ Model.outputs_info self pt <> []
    /\ Model.as_lists value _value = inr (v :: vs, v0 :: vs0)
    /\ prob = v0 ++ v.
Proof.
  intros Hobs Hdyn. unfold Model.get_value. cbv zeta. rewrite Hobs.
  intros H.
  apply bind_inr in H as [reshaped [_ H]].
  apply bind_inr in H as [scans [Hscans H]].
  apply bind_inr in H as [[vl vl0] [Hlists H]].
  apply bind_inr in H as [stacked [Hstacked H]].
  apply bind_inr in H as [dynamics [_ H]].
  apply bind_inr in H as [first [Hfirst H]].
  injection H as <-.
  destruct (scan (Model.call (Model.pm_learning_model self)) _ _ _)
    as [e|value] eqn:Hvalue.
  { simpl in Hscans. destruct e; try discriminate Hscans.
    destruct (contains _ _); discriminate Hscans. }
  simpl in Hscans.
  destruct (scan (Model.pm_learning_model_initial self) _ _ _)
    as [e|_value] eqn:H_value.
  { simpl in Hscans. destruct e; try discriminate Hscans.
    destruct (contains _ _); discriminate Hscans. }
  simpl in Hscans. injection Hscans as <-. simpl in Hlists.
  unfold getitem in Hfirst.
  destruct stacked as [|p0 stacked]; [discriminate Hfirst|].
  simpl in Hfirst. injection Hfirst as ->.
  destruct (firstn (Model.pm_n_dynamic self) vl) as [|v rest] eqn:Hfirstn;
    [discriminate Hstacked|].
  destruct (indexed_cons v rest) as [others Hindexed].
  rewrite Hindexed in Hstacked. simpl in Hstacked.
  apply bind_inr in Hstacked as [p [Hp Hstacked]].
  apply bind_inr in Hstacked as [ps [_ Hstacked]].
  injection Hstacked as <- <-.
  apply bind_inr in Hp as [v0 [Hv0 Hp]]. injection Hp as <-.
  unfold getitem in Hv0.
  destruct vl0 as [|v0' vs0]; [discriminate Hv0|].
  simpl in Hv0. injection Hv0 as ->.
  destruct vl as [|v' vs];
    [destruct (Model.pm_n_dynamic self); discriminate Hfirstn|].
  assert (Hn : Model.pm_n_dynamic self <> 0).
  { intros E. rewrite E in Hfirstn. discriminate Hfirstn. }
  destruct (Model.pm_n_dynamic self) as [|n] eqn:En; [contradiction|].
  simpl in Hfirstn. injection Hfirstn as -> _.
  exists value, _value, v, vs, v0, vs0.
  repeat split; auto.
  unfold Model.outputs_info, Model.outputs_info_of,
    Model.dynamic_parameters_reshaped.
  destruct (Model.pm_dynamic_parameters self); [discriminate Hdyn|].
  discriminate.
Qed.

Lemma n_steps_main (x : matrix) :
  n_steps (map tap_slice [ {| input := x; taps := (-1)%Z |};
                           {| input := ones_like x; taps := (-1)%Z |} ])
  = length x - 1.
Proof.
  unfold n_steps, tap_slice, ones_like. cbn -[firstn skipn Nat.min Nat.sub].
  rewrite !length_firstn, !length_map.
  change (Pos.to_nat 1) with 1. unfold matrix, vector in *. lia.
Qed.

Lemma n_steps_initial (x : matrix) :
  n_steps (map tap_slice
             [ {| input := firstn 1 x; taps := 0%Z |};
               {| input := firstn 2 (ones_like x); taps := 0%Z |} ])
  = Nat.min 1 (length x).
Proof.
  unfold n_steps, tap_slice, ones_like. cbn -[firstn skipn Nat.min Nat.sub].
  rewrite !length_skipn, !length_firstn, !length_map.
  unfold matrix, vector in *. lia.
Qed.

(** X13. One record per trial: when a model without observation model is
    evaluated on [N] rows of outcomes, the value that [get_value] returns
    has [N] rows, one from the one-step scan on the first trial and [N - 1]
    from the main scan over [x[0:-1]]. *)
Theorem get_value_one_record_per_trial (self : Model._PyMCModel)
    (pt : Model.point) (x prob : matrix) :
  Model.pm_observation_model self = None ->
  Model.pm_n_dynamic self = length (Model.pm_dynamic_parameters self) ->
  Model.get_value self pt x = inr (A2 prob) ->
  length prob = length x.
Proof.
  intros Hobs Hdyn H.
  destruct (get_value_stacked self pt x prob Hobs Hdyn H)
    as [value [_value [v [vs [v0 [vs0
          [Hvalue [H_value [Hinfo [Hlists ->]]]]]]]]]].
  apply scan_inr in Hvalue as [outs [-> [Hrows Hlen]]].
  apply scan_inr in H_value as [outs0 [-> [Hrows0 _]]].
  assert (Houts : outs <> []).
  { intros E. specialize (Hlen Hinfo). rewrite E in Hlen.
    destruct (Model.outputs_info self pt); [contradiction | discriminate]. }
  apply as_lists_inr in Hlists as [<- <-]; [|exact Houts].
  inversion Hrows as [|? ? Hv _]; subst.
  inversion Hrows0 as [|? ? Hv0 _]; subst.
  rewrite length_app, Hv, Hv0.
  rewrite n_steps_main, n_steps_initial. unfold matrix, vector in *. lia.
Qed.

Lemma get_value_one_record_per_trial_witness :
  length [[1]; [1]; [3]]%Q = length Examples.outcomes_123.
Proof.
  apply (get_value_one_record_per_trial
           (Examples.built (Examples.fold_distribution Examples.cumulative))
           DMModel.placeholder Examples.outcomes_123 [[1]; [1]; [3]]%Q);
    reflexivity.
Defined.

(** X14. The record of trial 0: for every model whose one-step initial
    model is made by [function_wrapper] with at least one reused output,
    the first row that [get_value] returns is the row of ones that the
    scan passes as its second sequence, whatever the initial values of the
    dynamic parameters. *)
Theorem get_value_trial_0 (self : Model._PyMCModel) (pt : Model.point)
    (f : py_function) (n_returns n_reused : nat) (first : vector)
    (rest prob : matrix) :
  Model.pm_observation_model self = None ->
  Model.pm_n_dynamic self = length (Model.pm_dynamic_parameters self) ->
  Model.pm_learning_model_initial self
  = function_wrapper f n_returns n_reused ->
  0 < n_reused ->
  Model.get_value self pt (first :: rest) = inr (A2 prob) ->
  hd [] prob = map (fun _ => 1%Q) first.
Proof.
  intros Hobs Hdyn Hinitial Hreused H.
  destruct (get_value_stacked self pt _ prob Hobs Hdyn H)
    as [value [_value [v [vs [v0 [vs0
          [Hvalue [H_value [Hinfo [Hlists ->]]]]]]]]]].
  apply scan_inr in Hvalue as [outs [-> [_ Hlen]]].
  assert (Houts : outs <> []).
  { intros E. specialize (Hlen Hinfo). rewrite E in Hlen.
    destruct (Model.outputs_info self pt); [contradiction | discriminate]. }
  rewrite Hinitial in H_value. unfold scan in H_value. cbv zeta in H_value.
  apply bind_inr in H_value as [traced [Htraced H_value]].
  destruct (negb (length traced =? _) && _); [discriminate H_value|].
  apply bind_inr in H_value as [records [Hloop H_value]].
  injection H_value as <-.
  cbn [map app] in Htraced.
  destruct (function_wrapper_first_output f n_returns n_reused [] []
              (initial_state (Model.outputs_info self pt)
               ++ Model.static_parameters_reshaped self pt) Hreused)
    as [others Hwrapped].
  pose proof (eq_trans (eq_sym Htraced) Hwrapped) as Etraced.
  injection Etraced as ->. clear Htraced Hwrapped.
  assert (Hsteps : steps (map tap_slice
                     [ {| input := firstn 1 (first :: rest); taps := 0%Z |};
                       {| input := firstn 2 (ones_like (first :: rest));
                          taps := 0%Z |} ])
                   = [[first; map (fun _ => 1%Q) first]]).
  { unfold steps, n_steps, tap_slice, ones_like. simpl.
    destruct rest; reflexivity. }
  rewrite Hsteps in Hloop. cbn [scan_loop app] in Hloop.
  apply bind_inr in Hloop as [outs1 [Houts1 Hloop]].
  destruct (function_wrapper_first_output f n_returns n_reused first
              (map (fun _ => 1%Q) first)
              (initial_state (Model.outputs_info self pt)
               ++ Model.static_parameters_reshaped self pt) Hreused)
    as [others1 Hwrapped1].
  pose proof (eq_trans (eq_sym Houts1) Hwrapped1) as Eouts1.
  injection Eouts1 as ->. clear Houts1 Hwrapped1.
  cbn [bind ret] in Hloop. injection Hloop as <-.
  apply (as_lists_inr outs
           (map (fun i => map (fun r => nth i r []) [_ :: others1])
                (seq 0 (length (@nil Q :: others)))))
    in Hlists as [_ Hv0]; [|exact Houts].
  cbn [length seq map nth] in Hv0.
  injection Hv0 as -> _. reflexivity.
Qed.

Lemma get_value_trial_0_witness :
  hd [] [[1]; [1]; [3]]%Q = map (fun _ => 1%Q) [1]%Q.
Proof.
  apply (get_value_trial_0
           (Examples.built (Examples.fold_distribution Examples.cumulative))
           DMModel.placeholder Examples.cumulative_call 1 1 [1]%Q
           [[2]; [3]]%Q [[1]; [1]; [3]]%Q); try reflexivity.
  lia.
Defined.

(** ** The distribution and the fitting methods *)

(** X15. A distribution is only built when all subjects have the same
    number of runs.  Its count of dynamic parameters is the number of
    learning parameters flagged dynamic, which is also the number of bound
    dynamic values, and the counted number of returned values is at least
    one. *)
Theorem PyMCModel_init_invariants (learning_model : Model.learning_function)
    (learning_model_initial : py_function)
    (learning_parameters : list parameter)
    (observation_model : option Model.observation_function)
    (observation_parameters : list (option parameter))
    (observation_dynamic_inputs : list nat) (responses : ndarray)
    (hierarchical : bool) (n_subjects : nat) (time : matrix)
    (n_runs : list nat) (mle : bool) (outcomes : ndarray)
    (logp_method : string) (m : Model._PyMCModel) :
  Model.PyMCModel_init learning_model learning_model_initial
    learning_parameters observation_model observation_parameters
    observation_dynamic_inputs responses hierarchical n_subjects time n_runs
    mle outcomes logp_method = inr m ->
  n_unique n_runs = 1
  /\ Model.pm_n_dynamic m = length (Model.pm_dynamic_parameters m)
  /\ Model.pm_n_dynamic m = length (filter dynamic learning_parameters)
  /\ 1 <= Model.pm_n_learning_returns m
  /\ map name (Model.pm_learning_parameters m) = map name learning_parameters.
Proof.
  unfold Model.PyMCModel_init. intros H.
  destruct (negb (n_unique n_runs =? 1)) eqn:Hruns; [discriminate H|].
  apply negb_false_iff, Nat.eqb_eq in Hruns.
  apply bind_inr in H as [[[[bound dyn] stat] observation] [Hinit H]].
  apply bind_inr in H as [n [Hn H]].
  injection H as <-. cbn.
  destruct (initialise_parameters_fields _ _ _ _ _ _ _ _ _ _ Hinit)
    as [Hnames [_ [_ [_ [Hlen _]]]]].
  repeat split; auto.
  unfold n_returns in Hn.
  destruct (Model.source learning_model) as [[|first others]|];
    try discriminate Hn.
  injection Hn as <-. lia.
Qed.

Lemma PyMCModel_init_invariants_witness :
  n_unique [1] = 1
  /\ Model.pm_n_dynamic
       (Examples.built (Examples.fold_distribution Examples.cumulative))
     = length (Model.pm_dynamic_parameters
                 (Examples.built
                    (Examples.fold_distribution Examples.cumulative)))
  /\ Model.pm_n_dynamic
       (Examples.built (Examples.fold_distribution Examples.cumulative))
     = length (filter dynamic [Examples.fixed_parameter "v" 0 true])
  /\ 1 <= Model.pm_n_learning_returns
            (Examples.built (Examples.fold_distribution Examples.cumulative))
  /\ map name (Model.pm_learning_parameters
                 (Examples.built
                    (Examples.fold_distribution Examples.cumulative)))
     = map name [Examples.fixed_parameter "v" 0 true].
Proof.
  exact (PyMCModel_init_invariants Examples.cumulative
           (function_wrapper Examples.cumulative_call 1 1)
           [Examples.fixed_parameter "v" 0 true] None [None] [0]
           (A2 [[0; 0; 0]%Q]) false 1 [] [1] false
           (A2 Examples.outcomes_123) "ll"
           (Examples.built (Examples.fold_distribution Examples.cumulative))
           eq_refl).
Defined.

(** *** What a fit records *)

Lemma settings_announce (self : DMModel.t) (hierarchical : bool) :
  let s := DMModel.announce_hierarchical self hierarchical in
  DMModel._fit_method s = DMModel._fit_method self
  /\ DMModel.subjects s = DMModel.subjects self
  /\ DMModel.n_subjects s = DMModel.n_subjects self
  /\ DMModel.logp_method s = DMModel.logp_method self
  /\ DMModel.sims s = DMModel.sims self.
Proof.
  unfold DMModel.announce_hierarchical.
  repeat match goal with
         | |- context [if ?c then _ else _] => destruct c
         end; cbn; auto.
Qed.

Lemma fit_MAP_settings (lib : DMModel.backend) (self s' : DMModel.t)
    (mle recovery suppress_table : bool) (kw : DMModel.kwargs) :
  DMModel._fit_MAP lib self mle recovery suppress_table kw = inr s' ->
  DMModel._fit_method s' = DMModel._fit_method self
  /\ DMModel.subjects s' = DMModel.subjects self
  /\ DMModel.n_subjects s' = DMModel.n_subjects self
  /\ DMModel.logp_method s' = DMModel.logp_method self
  /\ DMModel.sims s' = DMModel.sims self
  /\ DMModel.fit_complete s' = true.
Proof.
  unfold DMModel._fit_MAP. intros H.
  apply bind_inr in H as [model [_ H]].
  apply bind_inr in H as [found [_ H]].
  apply bind_inr in H as [untransformed [_ H]].
  apply bind_inr in H as [s1 [Hrecovery H]].
  apply bind_inr in H as [o [_ H]].
  unfold model_fit in H. injection H as <-.
  destruct (recovery && negb (Params.is_None _)) eqn:Hflag in Hrecovery.
  - apply bind_inr in Hrecovery as [[s2 se_cor] [Hrec Hret]].
    injection Hret as <-.
    apply recovery_table in Hrec as [merged ->].
    destruct mle, suppress_table; cbn; auto 10.
  - injection Hrecovery as <-.
    destruct mle, suppress_table; cbn; auto 10.
Qed.

Lemma fit_MCMC_settings (lib : DMModel.backend) (self s' : DMModel.t)
    (hierarchical recovery suppress_table : bool) (kw : DMModel.kwargs) :
  DMModel._fit_MCMC lib self hierarchical recovery suppress_table kw = inr s' ->
  DMModel._fit_method s' = DMModel._fit_method self
  /\ DMModel.subjects s' = DMModel.subjects self
  /\ DMModel.n_subjects s' = DMModel.n_subjects self
  /\ DMModel.logp_method s' = DMModel.logp_method self
  /\ DMModel.sims s' = DMModel.sims self
  /\ DMModel.fit_complete s' = true.
Proof.
  unfold DMModel._fit_MCMC. intros H.
  apply bind_inr in H as [model [_ H]].
  apply bind_inr in H as [sampled [_ H]].
  apply bind_inr in H as [tab [_ H]].
  apply bind_inr in H as [s1 [Hrecovery H]].
  injection H as <-.
  destruct (settings_announce
              (DMModel.print self "Fitting model using NUTS") hierarchical)
    as [Hm [Hs [Hn [Hl Hsims]]]].
  destruct (recovery && negb (Params.is_None _)) eqn:Hflag in Hrecovery.
  - apply bind_inr in Hrecovery as [[s2 se_cor] [Hrec Hret]].
    injection Hret as <-.
    apply recovery_table in Hrec as [merged ->].
    destruct suppress_table; cbn in *; rewrite Hm, Hs, Hn, Hl, Hsims; auto 10.
  - destruct recovery; injection Hrecovery as <-;
      destruct suppress_table; cbn in *; rewrite Hm, Hs, Hn, Hl, Hsims;
      auto 10.
Qed.

Lemma fit_variational_settings (lib : DMModel.backend)
    (self s' : DMModel.t) (hierarchical recovery suppress_table : bool)
    (fit_kwargs sample_kwargs : DMModel.kwargs) :
  DMModel._fit_variational lib self hierarchical recovery suppress_table
    fit_kwargs sample_kwargs = inr s' ->
  DMModel._fit_method s' = DMModel._fit_method self
  /\ DMModel.subjects s' = DMModel.subjects self
  /\ DMModel.n_subjects s' = DMModel.n_subjects self
  /\ DMModel.logp_method s' = DMModel.logp_method self
  /\ DMModel.sims s' = DMModel.sims self
  /\ DMModel.fit_complete s' = true.
Proof.
  unfold DMModel._fit_variational. intros H.
  apply bind_inr in H as [model [_ H]].
  apply bind_inr in H as [approx [_ H]].
  apply bind_inr in H as [sampled [_ H]].
  apply bind_inr in H as [tab [_ H]].
  apply bind_inr in H as [s1 [Hrecovery H]].
  injection H as <-.
  destruct (settings_announce
              (DMModel.print self "Fitting model using ADVI") hierarchical)
    as [Hm [Hs [Hn [Hl Hsims]]]].
  destruct (recovery && negb (Params.is_None _)) eqn:Hflag in Hrecovery.
  - apply bind_inr in Hrecovery as [[s2 se_cor] [Hrec Hret]].
    injection Hret as <-.
    apply recovery_table in Hrec as [merged ->].
    destruct suppress_table; cbn in *; rewrite Hm, Hs, Hn, Hl, Hsims; auto 10.
  - injection Hrecovery as <-;
      destruct suppress_table; cbn in *; rewrite Hm, Hs, Hn, Hl, Hsims;
      auto 10.
Qed.

Lemma create_model_settings (lib : DMModel.backend) (self s' : DMModel.t)
    (mle : bool) :
  DMModel._create_model lib self mle = inr s' ->
  DMModel.subjects s' = DMModel.subjects self
  /\ DMModel.logp_method s' = DMModel.logp_method self
  /\ DMModel.sims s' = DMModel.sims self.
Proof.
  unfold DMModel._create_model. intros H.
  repeat (apply bind_inr in H as [? [_ H]]).
  injection H as <-. cbn. auto.
Qed.

Lemma set_value_settings (self s' : DMModel.t) (r o : ndarray)
    (tm : matrix) (runs : list nat) :
  DMModel.set_value self r o tm runs = inr s' ->
  DMModel.subjects s' = DMModel.subjects self
  /\ DMModel.logp_method s' = DMModel.logp_method self
  /\ DMModel.sims s' = DMModel.sims self
  /\ DMModel.outcomes s' = Some o
  /\ DMModel.responses s' = Some r
  /\ DMModel._pymc3_model s'
     = option_map
         (fun model =>
            {| DMModel.observed :=
                 let m := DMModel.observed model in
                 {| Model.pm_learning_model := Model.pm_learning_model m;
                    Model.pm_learning_model_initial :=
                      Model.pm_learning_model_initial m;
                    Model.pm_observation_model := Model.pm_observation_model m;
                    Model.pm_learning_parameters :=
                      Model.pm_learning_parameters m;
                    Model.pm_observation_parameters :=
                      Model.pm_observation_parameters m;
                    Model.pm_observation_dynamic_inputs :=
                      Model.pm_observation_dynamic_inputs m;
                    Model.pm_n_subjects := Model.pm_n_subjects m;
                    Model.pm_responses := r;
                    Model.pm_outcomes := o;
                    Model.pm_time := tm;
                    Model.pm_n_runs := runs;
                    Model.pm_logp_method := Model.pm_logp_method m;
                    Model.pm_dynamic_parameters :=
                      Model.pm_dynamic_parameters m;
                    Model.pm_static_parameters := Model.pm_static_parameters m;
                    Model.pm_n_dynamic := Model.pm_n_dynamic m;
                    Model.pm_n_learning_returns :=
                      Model.pm_n_learning_returns m |};
               DMModel.vars := DMModel.vars model |})
         (DMModel._pymc3_model self).
Proof.
  unfold DMModel.set_value. intros H.
  repeat (apply bind_inr in H as [? [_ H]]).
  injection H as <-. cbn. auto 10.
Qed.

Lemma is_in_incl (s : string) (l l' : list string) :
  incl l l' -> DMModel.is_in s l = true -> DMModel.is_in s l' = true.
Proof.
  unfold DMModel.is_in. intros Hincl H.
  apply existsb_exists in H as [x [Hx Hs]].
  apply existsb_exists. exists x. split; [apply Hincl, Hx | exact Hs].
Qed.

(** X16. What a successful fit leaves behind, whatever the method: the
    method is one of the eight allowed names, its lower-case form is
    stored, the subjects, their number, the likelihood method and the
    simulated values of the data are recorded, the fit is marked complete
    and a compiled model is present. *)
Theorem fit_body_records (lib : DMModel.backend) (self s' : DMModel.t)
    (data : DMModel.loaded) (outcomes : option outcomes_arg)
    (fit_method : string) (hierarchical recovery : bool)
    (fit_kwargs sample_kwargs : option DMModel.kwargs) (logp_method : string)
    (suppress_table : bool) :
  DMModel.fit_body lib self data outcomes fit_method hierarchical recovery
    fit_kwargs sample_kwargs logp_method suppress_table = inr s' ->
  DMModel.is_in fit_method
    ["MLE"; "MAP"; "Variational"; "MCMC"; "mle"; "map"; "variational"; "mcmc"]
  = true
  /\ DMModel._fit_method s' = Some (lower fit_method)
  /\ DMModel.subjects s' = DMModel.l_subjects data
  /\ DMModel.n_subjects s' = length (DMModel.l_subjects data)
  /\ DMModel.logp_method s' = logp_method
  /\ DMModel.sims s' = DMModel.l_sims data
  /\ DMModel.fit_complete s' = true.
Proof.
  unfold DMModel.fit_body. intros H.
  destruct (Params.is_None outcomes && Params.is_None (DMModel.l_outcomes data));
    [discriminate H|].
  apply bind_inr in H as [outcomes_loaded [_ H]].
  apply bind_inr in H as [responses_now [_ H]].
  apply bind_inr in H as [n_response_trials [_ H]].
  apply bind_inr in H as [outcomes_now [_ H]].
  apply bind_inr in H as [n_outcome_trials [_ H]].
  destruct (negb (n_response_trials =? n_outcome_trials)); [discriminate H|].
  apply bind_inr in H as [n_outcome_columns [_ H]].
  apply bind_inr in H as [s1 [Hcreate H]].
  apply bind_inr in H as [s2 [Hset H]].
  assert (Hs1 : DMModel.subjects s1 = DMModel.l_subjects data
                /\ DMModel.logp_method s1 = logp_method
                /\ DMModel.sims s1 = DMModel.l_sims data).
  { match type of Hcreate with
    | (if ?c then _ else _) = _ => destruct c
    end.
    - apply create_model_settings in Hcreate as [Hs [Hl Hsims]].
      rewrite Hs, Hl, Hsims. cbn. auto.
    - injection Hcreate as <-. cbn. auto. }
  destruct Hs1 as [Hs1 [Hl1 Hsims1]].
  apply set_value_settings in Hset as [Hs2 [Hl2 [Hsims2 _]]].
  assert (Hready : forall ready : DMModel.t,
    DMModel._fit_method ready
    = DMModel._fit_method
        (DMModel.set__fit_method
           (DMModel.set_n_subjects s2 (length (DMModel.l_subjects data)))
           (Some (lower fit_method)))
    /\ DMModel.subjects ready
       = DMModel.subjects
           (DMModel.set__fit_method
              (DMModel.set_n_subjects s2 (length (DMModel.l_subjects data)))
              (Some (lower fit_method)))
    /\ DMModel.n_subjects ready
       = DMModel.n_subjects
           (DMModel.set__fit_method
              (DMModel.set_n_subjects s2 (length (DMModel.l_subjects data)))
              (Some (lower fit_method)))
    /\ DMModel.logp_method ready
       = DMModel.logp_method
           (DMModel.set__fit_method
              (DMModel.set_n_subjects s2 (length (DMModel.l_subjects data)))
              (Some (lower fit_method)))
    /\ DMModel.sims ready
       = DMModel.sims
           (DMModel.set__fit_method
              (DMModel.set_n_subjects s2 (length (DMModel.l_subjects data)))
              (Some (lower fit_method)))
    /\ DMModel.fit_complete ready = true ->
    DMModel._fit_method ready = Some (lower fit_method)
    /\ DMModel.subjects ready = DMModel.l_subjects data
    /\ DMModel.n_subjects ready = length (DMModel.l_subjects data)
    /\ DMModel.logp_method ready = logp_method
    /\ DMModel.sims ready = DMModel.l_sims data
    /\ DMModel.fit_complete ready = true).
  { intros ready [Hm [Hs [Hn [Hl [Hsims Hc]]]]].
    rewrite Hm, Hs, Hn, Hl, Hsims, Hc. cbn.
    rewrite Hs2, Hl2, Hsims2, Hs1, Hl1, Hsims1. auto 10. }
  destruct (DMModel.is_in fit_method ["MLE"; "mle"]) eqn:Hmle.
  { split; [|exact (Hready _ (fit_MAP_settings _ _ _ _ _ _ _ H))].
    revert Hmle. apply is_in_incl. intros x [<-|[<-|[]]]; simpl; auto 10. }
  destruct (DMModel.is_in fit_method ["MAP"; "map"]) eqn:Hmap.
  { split; [|exact (Hready _ (fit_MAP_settings _ _ _ _ _ _ _ H))].
    revert Hmap. apply is_in_incl. intros x [<-|[<-|[]]]; simpl; auto 10. }
  destruct (DMModel.is_in fit_method ["variational"; "Variational"]) eqn:Hvar.
  { split; [|exact (Hready _ (fit_variational_settings _ _ _ _ _ _ _ _ H))].
    revert Hvar. apply is_in_incl. intros x [<-|[<-|[]]]; simpl; auto 10. }
  destruct (DMModel.is_in fit_method ["MCMC"; "mcmc"]) eqn:Hmcmc.
  { split; [|exact (Hready _ (fit_MCMC_settings _ _ _ _ _ _ _ H))].
    revert Hmcmc. apply is_in_incl. intros x [<-|[<-|[]]]; simpl; auto 10. }
  discriminate H.
Qed.

Lemma fit_body_records_witness :
  exists s',
    DMModel.fit_body Examples.fixed_answers Examples.learner
      Examples.two_subjects None "MAP" false false None None "ll" true
    = inr s'
    /\ DMModel.is_in "MAP"
         ["MLE"; "MAP"; "Variational"; "MCMC"; "mle"; "map"; "variational";
          "mcmc"] = true
    /\ DMModel._fit_method s' = Some (lower "MAP")
    /\ DMModel.subjects s' = DMModel.l_subjects Examples.two_subjects
    /\ DMModel.n_subjects s' = length (DMModel.l_subjects Examples.two_subjects)
    /\ DMModel.logp_method s' = "ll"
    /\ DMModel.sims s' = DMModel.l_sims Examples.two_subjects
    /\ DMModel.fit_complete s' = true.
Proof.
  destruct (DMModel.fit_body Examples.fixed_answers Examples.learner
              Examples.two_subjects None "MAP" false false None None "ll"
              true) as [e|s'] eqn:Hfit.
  - exfalso.
    assert (Hok : succeeded
                    (DMModel.fit_body Examples.fixed_answers Examples.learner
                       Examples.two_subjects None "MAP" false false None None
                       "ll" true) = true)
      by (lazy; reflexivity).
    rewrite Hfit in Hok. discriminate Hok.
  - exists s'. split; [reflexivity|].
    exact (fit_body_records Examples.fixed_answers Examples.learner s'
             Examples.two_subjects None "MAP" false false None None "ll" true
             Hfit).
Defined.

(** *** What a fit refuses *)

(** X17. Responses that arrive as a single row, or as a one-dimensional
    array, cannot be fit: the single row is unwrapped to one dimension and
    the check of the trial counts then reads [responses.shape[1]], which
    raises [IndexError] before any model is built. *)
Theorem fit_body_one_dimensional_responses (lib : DMModel.backend)
    (self : DMModel.t) (data : DMModel.loaded)
    (outcomes : option outcomes_arg) (fit_method : string)
    (hierarchical recovery : bool)
    (fit_kwargs sample_kwargs : option DMModel.kwargs) (logp_method : string)
    (suppress_table : bool) :
  (exists row, DMModel.l_responses data = A2 [row])
  \/ (exists v, DMModel.l_responses data = A1 v) ->
  DMModel.l_outcomes data <> None
  \/ (exists given, outcomes = Some given
                    /\ succeeded (load_outcomes given) = true) ->
  DMModel.fit_body lib self data outcomes fit_method hierarchical recovery
    fit_kwargs sample_kwargs logp_method suppress_table
  = inl (IndexError "tuple index out of range").
Proof.
  intros Hresponses Houtcomes. unfold DMModel.fit_body.
  assert (Hloaded : exists loaded,
    Params.is_None outcomes && Params.is_None (DMModel.l_outcomes data)
    = false
    /\ match DMModel.l_outcomes data, outcomes with
       | Some loaded_outcomes, _ => ret (AsArray loaded_outcomes)
       | None, Some given => load_outcomes given
       | None, None => raise (ValueError "No outcomes provided")
       end = inr loaded).
  { destruct Houtcomes as [Hsome|[given [-> Hgiven]]].
    - destruct (DMModel.l_outcomes data) as [o|]; [|contradiction].
      exists (AsArray o). split; [apply andb_false_r | reflexivity].
    - destruct (load_outcomes given) as [e|v]; [discriminate Hgiven|].
      destruct (DMModel.l_outcomes data) as [o|]; eexists;
        split; reflexivity. }
  destruct Hloaded as [loaded [-> ->]].
  destruct Hresponses as [[row ->]|[v ->]]; [reflexivity|].
  destruct v as [|q [|q' v]]; reflexivity.
Qed.

Lemma fit_body_one_dimensional_responses_witness :
  DMModel.fit_body Examples.fixed_answers Examples.learner
    {| DMModel.l_subjects := [1]%Z;
       DMModel.l_n_runs := [1];
       DMModel.l_responses := A2 [[0; 1; 1]]%Q;
       DMModel.l_sims := None;
       DMModel.l_outcomes := Some (A2 [[1]; [0]; [1]]%Q) |}
    None "MAP" false false None None "ll" true
  = inl (IndexError "tuple index out of range").
Proof.
  apply (fit_body_one_dimensional_responses Examples.fixed_answers
           Examples.learner
           {| DMModel.l_subjects := [1]%Z;
              DMModel.l_n_runs := [1];
              DMModel.l_responses := A2 [[0; 1; 1]]%Q;
              DMModel.l_sims := None;
              DMModel.l_outcomes := Some (A2 [[1]; [0]; [1]]%Q) |}
           None "MAP" false false None None "ll" true).
  - left. exists [0; 1; 1]%Q. reflexivity.
  - left. discriminate.
Defined.

(** X18. For responses of two or more rows, a number of trials that
    differs from the number of outcome rows makes the fit raise the
    [ValueError] on unequal lengths, before any model is built and
    whatever the method. *)
Theorem fit_body_unequal_lengths (lib : DMModel.backend)
    (self : DMModel.t) (data : DMModel.loaded)
    (outcomes : option outcomes_arg) (fit_method : string)
    (hierarchical recovery : bool)
    (fit_kwargs sample_kwargs : option DMModel.kwargs) (logp_method : string)
    (suppress_table : bool) (first second : vector) (others : matrix)
    (o : ndarray) :
  DMModel.l_responses data = A2 (first :: second :: others) ->
  DMModel.l_outcomes data = Some o
  \/ (DMModel.l_outcomes data = None /\ outcomes = Some (OutcomesArray o)) ->
  length first <> hd 0 (shape o) ->
  DMModel.fit_body lib self data outcomes fit_method hierarchical recovery
    fit_kwargs sample_kwargs logp_method suppress_table
  = inl (ValueError
      "Responses ({0}) and outcomes ({1}) have unequal lengths").
Proof.
  intros Hresponses Houtcomes Hlengths. unfold DMModel.fit_body.
  rewrite Hresponses.
  assert (Hcheck : negb (length first =? hd 0 (shape o)) = true)
    by (apply negb_true_iff, Nat.eqb_neq; exact Hlengths).
  destruct Houtcomes as [->|[-> ->]];
    rewrite ?andb_false_r; cbn -[Nat.eqb];
    destruct o; cbn -[Nat.eqb] in *; rewrite Hcheck; reflexivity.
Qed.

Lemma fit_body_unequal_lengths_witness :
  DMModel.fit_body Examples.fixed_answers Examples.learner
    {| DMModel.l_subjects := [1; 2]%Z;
       DMModel.l_n_runs := [1; 1];
       DMModel.l_responses := A2 [[0; 1; 1]; [1; 1; 0]]%Q;
       DMModel.l_sims := None;
       DMModel.l_outcomes := None |}
    (Some (OutcomesArray (A2 [[1; 1]; [0; 1]]%Q))) "MAP" false false None
    None "ll" true
  = inl (ValueError
      "Responses ({0}) and outcomes ({1}) have unequal lengths").
Proof.
  apply (fit_body_unequal_lengths Examples.fixed_answers Examples.learner
           {| DMModel.l_subjects := [1; 2]%Z;
              DMModel.l_n_runs := [1; 1];
              DMModel.l_responses := A2 [[0; 1; 1]; [1; 1; 0]]%Q;
              DMModel.l_sims := None;
              DMModel.l_outcomes := None |}
           (Some (OutcomesArray (A2 [[1; 1]; [0; 1]]%Q))) "MAP" false false
           None None "ll" true [0; 1; 1]%Q [1; 1; 0]%Q []
           (A2 [[1; 1]; [0; 1]]%Q)).
  - reflexivity.
  - right. split; reflexivity.
  - simpl. lia.
Defined.

(** *** Fitting again *)

Lemma set_value_parameters (self s' : DMModel.t) (r o : ndarray)
    (tm : matrix) (runs : list nat) :
  DMModel.set_value self r o tm runs = inr s' ->
  DMModel.learning_parameters s' = DMModel.learning_parameters self
  /\ DMModel.observation_parameters s' = DMModel.observation_parameters self.
Proof.
  unfold DMModel.set_value. intros H.
  repeat (apply bind_inr in H as [? [_ H]]).
  injection H as <-. cbn. auto.
Qed.

(** X19. A fit on a state that holds a compiled model from a fit with the
    same method (up to letter case) and the same number of subjects does not
    build a new model: the compiled model keeps its variables, its bound
    parameters and its likelihood method, even when a different
    [logp_method] is passed, and only the data it reads are replaced. *)
Theorem fit_body_reuses_model (lib : DMModel.backend) (self s' : DMModel.t)
    (data : DMModel.loaded) (outcomes : option outcomes_arg)
    (fit_method : string) (hierarchical recovery : bool)
    (fit_kwargs sample_kwargs : option DMModel.kwargs) (logp_method : string)
    (suppress_table : bool) (model : DMModel.pymc3_model) :
  DMModel._pymc3_model self = Some model ->
  DMModel._fit_method self = Some (lower fit_method) ->
  DMModel.n_subjects self = length (DMModel.l_subjects data) ->
  DMModel.fit_body lib self data outcomes fit_method hierarchical recovery
    fit_kwargs sample_kwargs logp_method suppress_table = inr s' ->
  exists model',
    DMModel._pymc3_model s' = Some model'
    /\ DMModel.vars model' = DMModel.vars model
    /\ Model.pm_learning_parameters (DMModel.observed model')
       = Model.pm_learning_parameters (DMModel.observed model)
    /\ Model.pm_observation_parameters (DMModel.observed model')
       = Model.pm_observation_parameters (DMModel.observed model)
    /\ Model.pm_dynamic_parameters (DMModel.observed model')
       = Model.pm_dynamic_parameters (DMModel.observed model)
    /\ Model.pm_static_parameters (DMModel.observed model')
       = Model.pm_static_parameters (DMModel.observed model)
    /\ Model.pm_logp_method (DMModel.observed model')
       = Model.pm_logp_method (DMModel.observed model)
    /\ Model.pm_n_runs (DMModel.observed model') = DMModel.l_n_runs data
    /\ DMModel.learning_parameters s' = DMModel.learning_parameters self
    /\ DMModel.logp_method s' = logp_method.
Proof.
  intros Hmodel Hmethod Hsubjects. unfold DMModel.fit_body. intros H.
  destruct (Params.is_None outcomes && Params.is_None (DMModel.l_outcomes data));
    [discriminate H|].
  apply bind_inr in H as [outcomes_loaded [_ H]].
  apply bind_inr in H as [responses_now [_ H]].
  apply bind_inr in H as [n_response_trials [_ H]].
  apply bind_inr in H as [outcomes_now [_ H]].
  apply bind_inr in H as [n_outcome_trials [_ H]].
  destruct (negb (n_response_trials =? n_outcome_trials)); [discriminate H|].
  apply bind_inr in H as [n_outcome_columns [_ H]].
  apply bind_inr in H as [s1 [Hcreate H]].
  apply bind_inr in H as [s2 [Hset H]].
  cbn [DMModel._pymc3_model DMModel._fit_method DMModel.n_subjects
       DMModel.set_logp_method DMModel.set_subjects DMModel.set_sims]
    in Hcreate.
  rewrite Hmodel, Hmethod, Hsubjects in Hcreate.
  unfold DMModel.eqb_method in Hcreate.
  rewrite String.eqb_refl, Nat.eqb_refl in Hcreate.
  cbn [Params.is_None negb orb] in Hcreate. injection Hcreate as <-.
  pose proof (set_value_parameters _ _ _ _ _ _ Hset) as [Hlp _].
  pose proof (set_value_settings _ _ _ _ _ _ Hset)
    as [_ [Hlm [_ [_ [_ Hcompiled]]]]].
  cbn [DMModel._pymc3_model DMModel.learning_parameters DMModel.logp_method
       DMModel.set_logp_method DMModel.set_subjects DMModel.set_sims]
    in Hcompiled, Hlp, Hlm.
  rewrite Hmodel in Hcompiled. cbn [option_map] in Hcompiled.
  assert (Hready : forall ready : DMModel.t,
    DMModel.same_model
      (DMModel.set__fit_method
         (DMModel.set_n_subjects s2 (length (DMModel.l_subjects data)))
         (Some (lower fit_method))) ready ->
    DMModel.logp_method ready
    = DMModel.logp_method
        (DMModel.set__fit_method
           (DMModel.set_n_subjects s2 (length (DMModel.l_subjects data)))
           (Some (lower fit_method))) ->
    exists model',
      DMModel._pymc3_model ready = Some model'
      /\ DMModel.vars model' = DMModel.vars model
      /\ Model.pm_learning_parameters (DMModel.observed model')
         = Model.pm_learning_parameters (DMModel.observed model)
      /\ Model.pm_observation_parameters (DMModel.observed model')
         = Model.pm_observation_parameters (DMModel.observed model)
      /\ Model.pm_dynamic_parameters (DMModel.observed model')
         = Model.pm_dynamic_parameters (DMModel.observed model)
      /\ Model.pm_static_parameters (DMModel.observed model')
         = Model.pm_static_parameters (DMModel.observed model)
      /\ Model.pm_logp_method (DMModel.observed model')
         = Model.pm_logp_method (DMModel.observed model)
      /\ Model.pm_n_runs (DMModel.observed model') = DMModel.l_n_runs data
      /\ DMModel.learning_parameters ready = DMModel.learning_parameters self
      /\ DMModel.logp_method ready = logp_method).
  { intros ready [Hm [Hl _]] Hlogp.
    cbn in Hm, Hl, Hlogp. rewrite Hm, Hl, Hlogp, Hcompiled, Hlp, Hlm.
    eexists. split; [reflexivity|]. cbn. auto 12. }
  repeat match type of H with
         | (if ?c then _ else _) = _ => destruct c
         end; try discriminate H; apply Hready.
  - exact (fit_MAP_same_model _ _ _ _ _ _ _ H).
  - apply fit_MAP_settings in H. tauto.
  - exact (fit_MAP_same_model _ _ _ _ _ _ _ H).
  - apply fit_MAP_settings in H. tauto.
  - exact (fit_variational_same_model _ _ _ _ _ _ _ _ H).
  - apply fit_variational_settings in H. tauto.
  - exact (fit_MCMC_same_model _ _ _ _ _ _ _ H).
  - apply fit_MCMC_settings in H. tauto.
Qed.

Lemma fit_body_reuses_model_witness :
  exists model s' model',
    DMModel._pymc3_model (Examples.declared (Examples.fitted "MAP" false))
    = Some model
    /\ DMModel.fit_body Examples.fixed_answers
         (Examples.declared (Examples.fitted "MAP" false))
         Examples.two_subjects None "map" false false None None "r2" true
       = inr s'
    /\ DMModel._pymc3_model s' = Some model'
    /\ Model.pm_logp_method (DMModel.observed model')
       = Model.pm_logp_method (DMModel.observed model)
    /\ DMModel.logp_method s' = "r2".
Proof.
  destruct (DMModel._pymc3_model
              (Examples.declared (Examples.fitted "MAP" false)))
    as [model|] eqn:Hmodel.
  2:{ exfalso.
      assert (Hok : Params.is_None
                      (DMModel._pymc3_model
                         (Examples.declared (Examples.fitted "MAP" false)))
                    = false) by (lazy; reflexivity).
      rewrite Hmodel in Hok. discriminate Hok. }
  destruct (DMModel.fit_body Examples.fixed_answers
              (Examples.declared (Examples.fitted "MAP" false))
              Examples.two_subjects None "map" false false None None "r2"
              true) as [e|s'] eqn:Hfit.
  { exfalso.
    assert (Hok : succeeded
                    (DMModel.fit_body Examples.fixed_answers
                       (Examples.declared (Examples.fitted "MAP" false))
                       Examples.two_subjects None "map" false false None None
                       "r2" true) = true) by (lazy; reflexivity).
    rewrite Hfit in Hok. discriminate Hok. }
  assert (Hmethod : DMModel._fit_method
                      (Examples.declared (Examples.fitted "MAP" false))
                    = Some (lower "map")) by (lazy; reflexivity).
  assert (Hsubjects : DMModel.n_subjects
                        (Examples.declared (Examples.fitted "MAP" false))
                      = length (DMModel.l_subjects Examples.two_subjects))
    by (lazy; reflexivity).
  destruct (fit_body_reuses_model Examples.fixed_answers
              (Examples.declared (Examples.fitted "MAP" false)) s'
              Examples.two_subjects None "map" false false None None "r2"
              true model Hmodel Hmethod Hsubjects Hfit)
    as [model' [Hm' [_ [_ [_ [_ [_ [Hlogp [_ [_ Hstate]]]]]]]]]].
  exists model, s', model'. auto.
Defined.

(** ** Simulation *)

Lemma simulate_parameters_inr (self : DMModel.t) (og : option outcomes_arg)
    (given : list (string * DMModel.pvalue))
    (observation : option (list (string * DMModel.pvalue)))
    (n_subjects : nat) (combinations : bool) (runs_per_subject : nat)
    (ready : DMModel.prepared) :
  DMModel.simulate_parameters self og (Some given) observation n_subjects
    combinations runs_per_subject = inr ready ->
  DMModel.parameter_combinations combinations false
    (n_subjects * runs_per_subject)
    (map (fun pv => DMModel.as_list (snd pv)) given
     ++ map (fun pv => DMModel.as_list (snd pv))
            (match observation with Some o => o | None => [] end))
  = inr (DMModel.p_combinations ready).
Proof.
  unfold DMModel.simulate_parameters. cbn [Params.is_None andb].
  intros H.
  apply bind_inr in H as [[[[[sl so] from_fit] n] outcomes_now] [Hpre H]].
  apply bind_inr in Hpre as [loaded [_ Hpre]].
  injection Hpre as <- <- <- <- _.
  cbn [bind ret] in H.
  apply bind_inr in H as [combos [Hcombos H]].
  apply bind_inr in H as [[sl' so'] [_ H]].
  injection H as <-. cbn [DMModel.p_combinations].
  rewrite !map_map in Hcombos. cbn [fst snd] in Hcombos. exact Hcombos.
Qed.

(** X20. Every row of parameter values that a call of [simulate] with
    supplied values builds holds exactly one value per parameter of the two
    dictionaries, with and without combinations; with [combinations=True]
    the number of rows is the product of the numbers of values of all
    parameters times [n_subjects * runs_per_subject]. *)
Theorem parameter_combinations_rows (self : DMModel.t)
    (og : option outcomes_arg) (given : list (string * DMModel.pvalue))
    (observation : option (list (string * DMModel.pvalue)))
    (n_subjects : nat) (combinations : bool) (runs_per_subject : nat)
    (ready : DMModel.prepared) :
  DMModel.simulate_parameters self og (Some given) observation n_subjects
    combinations runs_per_subject = inr ready ->
  Forall (fun r => length r
                   = length given
                     + length (match observation with
                               | Some o => o
                               | None => []
                               end))
         (DMModel.p_combinations ready)
  /\ (combinations = true ->
      length (DMModel.p_combinations ready)
      = fold_right Nat.mul 1
          (map (fun pv => length (DMModel.as_list (snd pv)))
               (given ++ match observation with
                         | Some o => o
                         | None => []
                         end))
        * (n_subjects * runs_per_subject)).
Proof.
  intros H. apply simulate_parameters_inr in H. split.
  - apply parameter_combinations_width in H.
    rewrite length_app, !length_map in H. exact H.
  - intros ->. unfold DMModel.parameter_combinations in H.
    injection H as <-.
    rewrite length_repeat_rows, length_product, map_app, !map_map, <- map_app.
    reflexivity.
Qed.

Lemma parameter_combinations_rows_witness :
  exists ready,
    DMModel.simulate_parameters Examples.learner
      (Some (OutcomesArray (A1 [1; 0; 1]%Q))) (Some Examples.three_by_four)
      None 1 true 2 = inr ready
    /\ Forall (fun r => length r = 2 + 0) (DMModel.p_combinations ready)
    /\ length (DMModel.p_combinations ready) = 3 * (4 * 1) * (1 * 2).
Proof.
  destruct (DMModel.simulate_parameters Examples.learner
              (Some (OutcomesArray (A1 [1; 0; 1]%Q)))
              (Some Examples.three_by_four) None 1 true 2)
    as [e|ready] eqn:Hready.
  - exfalso.
    assert (Hok : succeeded
                    (DMModel.simulate_parameters Examples.learner
                       (Some (OutcomesArray (A1 [1; 0; 1]%Q)))
                       (Some Examples.three_by_four) None 1 true 2) = true)
      by (vm_compute; reflexivity).
    rewrite Hready in Hok. discriminate Hok.
  - exists ready. split; [reflexivity|].
    destruct (parameter_combinations_rows Examples.learner
                (Some (OutcomesArray (A1 [1; 0; 1]%Q)))
                Examples.three_by_four None 1 true 2 ready Hready)
      as [Hwidth Hcount].
    split; [exact Hwidth | exact (Hcount eq_refl)].
Defined.

Lemma filter_keys_nil (key : string) (d : list (string * vector)) :
  ~ In key (DMModel.keys d) ->
  filter (fun pv => String.eqb (fst pv) key) d = [].
Proof.
  unfold DMModel.keys. induction d as [|[k v] d IH]; simpl; intros Hkey;
    [reflexivity|].
  destruct (String.eqb k key) eqn:Hk.
  - apply String.eqb_eq in Hk. exfalso. apply Hkey. left. exact Hk.
  - apply IH. intros Hin. apply Hkey. right. exact Hin.
Qed.

Lemma learning_values_without (learning_parameters : list parameter)
    (sim_learning : list (string * vector)) (p : parameter) :
  In p learning_parameters ->
  ~ In (name p) (DMModel.keys sim_learning) ->
  DMModel.learning_values learning_parameters sim_learning
  = inl (ValueError DMModel.no_value_provided).
Proof.
  intros Hin Hkey. unfold DMModel.learning_values.
  generalize (@nil vector, @nil vector) as acc.
  induction learning_parameters as [|i rest IH]; [destruct Hin|].
  intros acc. simpl.
  destruct Hin as [->|Hin].
  - rewrite (filter_keys_nil _ _ Hkey). reflexivity.
  - destruct (map snd (filter _ sim_learning)); [reflexivity|].
    destruct (dynamic i); simpl; apply IH; exact Hin.
Qed.

Lemma row_numbers_divisible (n_rows runs_per_subject : nat) :
  0 < runs_per_subject ->
  n_rows mod runs_per_subject = 0 ->
  exists numbers, DMModel.row_numbers n_rows runs_per_subject = inr numbers.
Proof.
  intros Hruns Hdiv. unfold DMModel.row_numbers.
  destruct (runs_per_subject =? 0) eqn:E;
    [apply Nat.eqb_eq in E; lia|].
  apply map_result_In_total. intros i Hi. apply in_seq in Hi.
  unfold getitem.
  destruct (nth_error _ i) eqn:Hnth; [eauto|].
  apply nth_error_None in Hnth.
  rewrite length_repeat_rows, length_seq in Hnth.
  apply Nat.Div0.div_exact in Hdiv. lia.
Qed.

(** X21. [simulate] needs a value for every learning parameter of the
    model: when the rows of parameter values are numbered without error
    and the dictionary of values lacks the name of a learning parameter,
    the simulation stops with the [ValueError] that no value was provided,
    before the outcomes are looked at. *)
Theorem simulate_inputs_missing_value (ready : DMModel.prepared)
    (runs_per_subject : nat) (p : parameter) :
  0 < runs_per_subject ->
  length (DMModel.p_combinations ready) mod runs_per_subject = 0 ->
  In p (DMModel.learning_parameters (DMModel.prepared_self ready)) ->
  ~ In (name p)
       (DMModel.keys
          (DMModel.sim_learning_parameters (DMModel.prepared_self ready))) ->
  DMModel.simulate_inputs ready runs_per_subject
  = inl (ValueError DMModel.no_value_provided).
Proof.
  intros Hruns Hdiv Hin Hkey. unfold DMModel.simulate_inputs. cbv zeta.
  destruct (row_numbers_divisible _ _ Hruns Hdiv) as [numbers ->].
  cbn [bind].
  rewrite (learning_values_without _ _ p Hin Hkey). reflexivity.
Qed.

Lemma simulate_inputs_missing_value_witness :
  DMModel.simulate_inputs
    {| DMModel.prepared_self :=
         DMModel.set_sim_learning_parameters Examples.learner
           [("v", [1 # 2]%Q)];
       DMModel.p_combinations := [[1 # 2]%Q];
       DMModel.prepared_outcomes := AsArray (A1 [1; 0; 1]%Q);
       DMModel.prepared_n_subjects := 1;
       DMModel.params_from_fit := false |} 1
  = inl (ValueError DMModel.no_value_provided).
Proof.
  apply (simulate_inputs_missing_value
           {| DMModel.prepared_self :=
                DMModel.set_sim_learning_parameters Examples.learner
                  [("v", [1 # 2]%Q)];
              DMModel.p_combinations := [[1 # 2]%Q];
              DMModel.prepared_outcomes := AsArray (A1 [1; 0; 1]%Q);
              DMModel.prepared_n_subjects := 1;
              DMModel.params_from_fit := false |} 1 Examples.alpha_uniform).
  - lia.
  - reflexivity.
  - right; left; reflexivity.
  - simpl. intros [H|[]]. discriminate H.
Defined.

Lemma transpose_rows_shape (cols : nat) (m : matrix) :
  length (transpose_rows cols m) = cols
  /\ Forall (fun r => length r = length m) (transpose_rows cols m).
Proof.
  revert m. induction cols as [|c IH]; intros m; simpl.
  - split; [reflexivity | constructor].
  - destruct (IH (map (fun row => tl row) m)) as [Hlen Hrows].
    split; [f_equal; exact Hlen|].
    constructor; [apply length_map|].
    rewrite length_map in Hrows. exact Hrows.
Qed.

Lemma concat_repeat_one {A : Type} (a : A) (n : nat) :
  concat (repeat [a] n) = repeat a n.
Proof. induction n as [|n IH]; simpl; [reflexivity | f_equal; exact IH]. Qed.

(** X22. The orientation of the outcomes in a simulation with supplied
    parameter values and a single outcome sequence of [T] trials, for [N]
    rows of parameter values: the sequence is repeated for every row and
    reaches the scan as [T] rows of [N] entries, except when [N] equals
    [n_subjects * runs_per_subject] (a single combination of parameter
    values), where the second transposition turns it back into [N] rows of
    [T] entries. *)
Theorem simulation_outcomes_orientation (self : DMModel.t) (v : vector)
    (n_rows n_subjects : nat) :
  v <> [] ->
  0 < n_rows ->
  exists self' m,
    DMModel.simulation_outcomes self (AsArray (A1 v)) n_rows n_subjects false
    = inr (self', m)
    /\ if n_rows =? n_subjects
       then length m = n_rows /\ Forall (fun r => length r = length v) m
       else length m = length v /\ Forall (fun r => length r = n_rows) m.
Proof.
  intros Hv Hrows. unfold DMModel.simulation_outcomes.
  cbn [length].
  assert (Htiled : exists self',
    (if 1 <? n_rows
     then
       if 1 =? 0
       then raise (ValueError
         "Unable to repeat outcome arrays to match number of subjects, make sure to either provide a unique list of outcomes for each subject or make sure the number of simulated subjects is divisible by the number of outcomes. Number of outcome arrays = {0}, number of simulated subject = {1}")
       else ret (DMModel.warn self
                   "Fewer outcome lists than simulated subjects, attempting to use same outcomes for each subject",
                 concat (repeat [v] (n_rows / 1)))
     else ret (self, [v]))
    = inr (self', repeat v n_rows)).
  { destruct (1 <? n_rows) eqn:Hlt.
    - rewrite Nat.div_1_r, concat_repeat_one. cbn. eauto.
    - apply Nat.ltb_ge in Hlt. assert (n_rows = 1) as -> by lia. cbn. eauto. }
  destruct Htiled as [self' ->]. cbn [bind negb].
  rewrite repeat_length, Nat.eqb_refl. cbn [orb negb].
  assert (Hcols : n_cols (repeat v n_rows) = length v).
  { destruct n_rows; [lia | reflexivity]. }
  unfold DMModel.matrix_T. rewrite Hcols.
  destruct (transpose_rows_shape (length v) (repeat v n_rows))
    as [Hlen1 Hrows1].
  rewrite repeat_length in Hrows1.
  destruct (n_rows =? n_subjects); eexists _, _; (split; [reflexivity|]).
  - assert (Hcols1 : n_cols (transpose_rows (length v) (repeat v n_rows))
                     = n_rows).
    { destruct (transpose_rows (length v) (repeat v n_rows)) as [|r rs].
      - destruct v; [contradiction | discriminate Hlen1].
      - inversion Hrows1 as [|? ? Hr _]. exact Hr. }
    rewrite Hcols1.
    destruct (transpose_rows_shape n_rows
                (transpose_rows (length v) (repeat v n_rows))) as [Hlen2 Hrows2].
    rewrite Hlen1 in Hrows2. split; assumption.
  - split; assumption.
Qed.

Lemma simulation_outcomes_orientation_witness :
  exists self' m,
    DMModel.simulation_outcomes Examples.learner (AsArray (A1 [1; 0; 1]%Q)) 1 1
      false = inr (self', m)
    /\ length m = 1 /\ Forall (fun r => length r = length [1; 0; 1]%Q) m.
Proof.
  apply (simulation_outcomes_orientation Examples.learner [1; 0; 1]%Q 1 1).
  - discriminate.
  - lia.
Defined.

(** X23. Single values simulate identical subjects: when every parameter
    is given one number and the outcomes are an array, the first part of
    [simulate] succeeds for [n_subjects * runs_per_subject > 0] and builds
    that many rows of parameter values, each holding the given numbers in
    the order of the two dictionaries. *)
Theorem simulate_single_values (self : DMModel.t) (a : ndarray)
    (learning observation : list (string * Q))
    (n_subjects runs_per_subject : nat) :
  learning <> [] ->
  0 < n_subjects * runs_per_subject ->
  exists ready,
    DMModel.simulate_parameters self (Some (OutcomesArray a))
      (Some (map (fun nq => (fst nq, DMModel.Scalar (snd nq))) learning))
      (Some (map (fun nq => (fst nq, DMModel.Scalar (snd nq))) observation))
      n_subjects false runs_per_subject = inr ready
    /\ DMModel.p_combinations ready
       = repeat (map snd (learning ++ observation))
                (n_subjects * runs_per_subject)
    /\ DMModel.prepared_n_subjects ready = n_subjects * runs_per_subject
    /\ DMModel.prepared_outcomes ready = AsArray a
    /\ DMModel.params_from_fit ready = false.
Proof.
  intros Hlearning Hsubjects. unfold DMModel.simulate_parameters.
  cbn [Params.is_None andb load_outcomes bind ret].
  rewrite !map_map. cbn [fst snd DMModel.as_list].
  set (values := map (fun x : string * Q => [snd x]) learning
                 ++ map (fun x : string * Q => [snd x]) observation).
  assert (Hcombos :
    DMModel.parameter_combinations false false
      (n_subjects * runs_per_subject) values
    = inr (repeat (map snd (learning ++ observation))
                  (n_subjects * runs_per_subject))).
  { unfold DMModel.parameter_combinations, values.
    destruct learning as [|[k q] learning]; [contradiction|].
    cbn [map app snd length negb].
    assert (Hall : all (map (fun i : list Q => length i =? 1)
                            ([q] :: map (fun x : string * Q => [snd x]) learning
                             ++ map (fun x : string * Q => [snd x])
                                    observation)) = true).
    { unfold all. apply forallb_forall. intros b Hb.
      apply in_map_iff in Hb as [l [<- Hl]].
      destruct Hl as [<-|Hl]; [reflexivity|].
      apply in_app_or in Hl as [Hl|Hl];
        apply in_map_iff in Hl as [x [<- _]]; reflexivity. }
    cbn [map length] in Hall. rewrite Hall. cbn [negb seq map nth].
    unfold repeat_rows. cbn [flat_map]. rewrite app_nil_r.
    rewrite map_app, !map_map. cbn [nth]. rewrite <- map_app. reflexivity. }
  rewrite Hcombos. cbn [bind].
  set (combos := repeat (map snd (learning ++ observation))
                        (n_subjects * runs_per_subject)).
  match goal with
  | |- exists ready, bind (DMModel.fold_result ?f ?l ?b) _ = _ /\ _ =>
      destruct (fold_result_total f l b) as [[sl so] Hfold]
  end.
  { intros acc [i key] Hin. apply In_indexed in Hin.
    destruct (column_total combos (length (learning ++ observation)) i)
      as [c Hc].
    - unfold combos. destruct (n_subjects * runs_per_subject); [lia|].
      discriminate.
    - unfold combos. apply Forall_forall. intros r Hr.
      apply repeat_spec in Hr. subst r. apply length_map.
    - unfold DMModel.keys in Hin.
      rewrite length_app, !length_map in Hin. rewrite length_app. exact Hin.
    - cbn [fst snd]. rewrite Hc. cbn [bind].
      destruct (DMModel.is_in key _); eauto. }
  rewrite Hfold. cbn [bind]. eexists. split; [reflexivity|].
  cbn. auto.
Qed.

Lemma simulate_single_values_witness :
  exists ready,
    DMModel.simulate_parameters Examples.learner
      (Some (OutcomesArray (A1 [1; 0; 1]%Q)))
      (Some (map (fun nq => (fst nq, DMModel.Scalar (snd nq)))
                 [("v", (1 # 2)%Q); ("alpha", (3 # 10)%Q)]))
      (Some (map (fun nq => (fst nq, DMModel.Scalar (snd nq))) []))
      2 false 1 = inr ready
    /\ DMModel.p_combinations ready
       = repeat (map snd ([("v", (1 # 2)%Q); ("alpha", (3 # 10)%Q)] ++ []))
                (2 * 1)
    /\ DMModel.prepared_n_subjects ready = 2 * 1
    /\ DMModel.prepared_outcomes ready = AsArray (A1 [1; 0; 1]%Q)
    /\ DMModel.params_from_fit ready = false.
Proof.
  apply (simulate_single_values Examples.learner (A1 [1; 0; 1]%Q)
           [("v", (1 # 2)%Q); ("alpha", (3 # 10)%Q)] [] 2 1).
  - discriminate.
  - simpl. lia.
Defined.

(** ** Declaring a model *)

Lemma marker_index_from (ps : list parameter) (s : string) (k : nat)
    (acc : option nat) :
  (forall i, acc = Some i ->
             i < k /\ True) ->
  forall i,
    fold_left (fun acc nj => if String.eqb (name (snd nj)) s
                             then Some (fst nj) else acc)
              (combine (seq k (length ps)) ps) acc = Some i ->
    acc = Some i
    \/ (k <= i /\ exists p, nth_error ps (i - k) = Some p /\ name p = s).
Proof.
  revert k acc. induction ps as [|p ps IH]; simpl; intros k acc Hacc i H.
  - left. exact H.
  - apply (IH (S k)) in H.
    + destruct H as [H|[Hk [q [Hq Hname]]]].
      * destruct (String.eqb (name p) s) eqn:Hp.
        -- injection H as <-. right. split; [lia|].
           exists p. rewrite Nat.sub_diag. split; [reflexivity|].
           apply String.eqb_eq. exact Hp.
        -- left. exact H.
      * right. split; [lia|]. exists q. split; [|exact Hname].
        replace (i - k) with (S (i - S k)) by lia. exact Hq.
    + intros j Hj. destruct (String.eqb (name p) s).
      * injection Hj as <-. split; [lia | exact I].
      * destruct (Hacc j Hj) as [Hlt _]. split; [lia | exact I].
Qed.

Lemma marker_index_Some (ps : list parameter) (s : string) (i : nat) :
  DMModel.marker_index ps s = Some i ->
  exists p, nth_error ps i = Some p /\ name p = s.
Proof.
  unfold DMModel.marker_index, indexed. intros H.
  apply (marker_index_from ps s 0 None) in H.
  - destruct H as [H|[_ [p [Hp Hname]]]]; [discriminate H|].
    rewrite Nat.sub_0_r in Hp. eauto.
  - intros j Hj. discriminate Hj.
Qed.

(** X24. What [DMModel.__init__] sets up: the dynamic inputs of the
    observation model start with index 0, followed by one index per marker
    string, each pointing at a learning parameter of that name; the marker
    strings are removed from the observation parameters; the one-step
    initial model reuses as many outputs as there are learning parameters
    flagged dynamic; and the new model is neither compiled nor fit. *)
Theorem init_dynamic_inputs (learning_model : Model.learning_function)
    (learning_parameters : list parameter)
    (observation_model : option Model.observation_function)
    (observation_parameters : list DMModel.obs_entry) (logp_method : string)
    (self : DMModel.t) :
  DMModel.init learning_model learning_parameters observation_model
    observation_parameters logp_method = inr self ->
  exists indices n,
    DMModel.observation_dynamic_inputs self = 0 :: indices
    /\ Forall2 (fun s i => exists p, nth_error learning_parameters i = Some p
                                     /\ name p = s)
         (flat_map (fun e => match e with
                             | DMModel.ObsMarker s => [s]
                             | _ => []
                             end) observation_parameters)
         indices
    /\ DMModel.observation_parameters self
       = flat_map (fun e => match e with
                            | DMModel.ObsParameter p => [Some p]
                            | DMModel.ObsNone => [None]
                            | DMModel.ObsMarker _ => []
                            end) observation_parameters
    /\ n_returns (Model.source learning_model) = inr n
    /\ DMModel.learning_model_initial self
       = function_wrapper (Model.call learning_model) n
           (length (filter dynamic learning_parameters))
    /\ DMModel._pymc3_model self = None
    /\ DMModel.fit_complete self = false.
Proof.
  unfold DMModel.init. intros H.
  apply bind_inr in H as [n [Hn H]].
  apply bind_inr in H as [n_obs [_ H]].
  apply bind_inr in H as [indices [Hindices H]].
  injection H as <-. exists indices, n. cbn.
  repeat split; auto.
  apply map_result_inr in Hindices.
  eapply Forall2_impl; [|exact Hindices].
  intros s i Hsi. cbn in Hsi.
  destruct (DMModel.marker_index learning_parameters s) as [j|] eqn:Hj;
    [|discriminate Hsi].
  injection Hsi as <-. apply marker_index_Some. exact Hj.
Qed.

Lemma init_dynamic_inputs_witness :
  exists indices n,
    DMModel.observation_dynamic_inputs Examples.learner = 0 :: indices
    /\ Forall2 (fun s i => exists p,
                  nth_error [Examples.v_uniform; Examples.alpha_uniform] i
                  = Some p /\ name p = s)
         [] indices
    /\ DMModel.observation_parameters Examples.learner = [None]
    /\ n_returns (Model.source Examples.rescorla_wagner) = inr n
    /\ DMModel.learning_model_initial Examples.learner
       = function_wrapper (Model.call Examples.rescorla_wagner) n
           (length (filter dynamic
                      [Examples.v_uniform; Examples.alpha_uniform]))
    /\ DMModel._pymc3_model Examples.learner = None
    /\ DMModel.fit_complete Examples.learner = false.
Proof.
  exact (init_dynamic_inputs Examples.rescorla_wagner
           [Examples.v_uniform; Examples.alpha_uniform] None
           [DMModel.ObsNone] "ll" Examples.learner eq_refl).
Defined.

(** ** Back-transforming the estimates *)

Lemma substring_skip (a b : string) (i n : nat) :
  substring (String.length a + i) n (a ++ b) = substring i n b.
Proof. induction a as [|c a IH]; simpl; [reflexivity | exact IH]. Qed.

Lemma substring_whole (s : string) : substring 0 (String.length s) s = s.
Proof. induction s as [|c s IH]; simpl; [reflexivity | f_equal; exact IH]. Qed.

Lemma substring_prefix (a b : string) :
  substring 0 (String.length a) (a ++ b) = a.
Proof.
  induction a as [|c a IH]; simpl; [destruct b; reflexivity | f_equal; exact IH].
Qed.

Lemma append_assoc (a b c : string) :
  ((a ++ b) ++ c)%string = (a ++ b ++ c)%string.
Proof. induction a as [|x a IH]; simpl; [reflexivity | f_equal; exact IH]. Qed.

Lemma length_append (a b : string) :
  String.length (a ++ b) = String.length a + String.length b.
Proof. induction a as [|c a IH]; simpl; [reflexivity | f_equal; exact IH]. Qed.

Lemma prefix_refl (s : string) : String.prefix s s = true.
Proof.
  induction s as [|c s IH]; simpl; [reflexivity|].
  destruct (ascii_dec c c); [exact IH | contradiction].
Qed.

Lemma prefix_app (s rest : string) : String.prefix s (s ++ rest) = true.
Proof.
  induction s as [|c s IH]; simpl; [destruct rest; reflexivity|].
  destruct (ascii_dec c c); [exact IH | contradiction].
Qed.

Lemma contains_suffix (needle a : string) :
  contains needle (a ++ needle) = true.
Proof.
  induction a as [|c a IH].
  - apply contains_refl.
  - change ((String c a ++ needle)%string) with (String c (a ++ needle)).
    cbn [contains]. rewrite IH.
    destruct (String.prefix needle (String c (a ++ needle))); reflexivity.
Qed.

Lemma no_underscore_cons (c : ascii) (t : string) :
  contains "_" (String c t) = false ->
  c <> "_"%char /\ contains "_" t = false.
Proof.
  cbn [contains String.prefix].
  destruct (ascii_dec "_" c) as [<-|Hc].
  - destruct t; discriminate.
  - intros H. split; [congruence | exact H].
Qed.

(** Past the underscore that follows the name, no position of the key is
    followed by an underscore, a character and a double underscore. *)
Lemma no_later_match (t : string) (i : nat) :
  contains "_" t = false ->
  DMModel.followed_by_suffix
    (substring i (String.length t + 2 - i) (t ++ "__")) = false.
Proof.
  revert i. induction t as [|c t IH]; intros i Ht.
  - destruct i as [|[|[|i]]]; reflexivity.
  - apply no_underscore_cons in Ht as [Hc Ht].
    destruct i as [|i].
    + cbn. destruct c as [[] [] [] [] [] [] [] []]; try reflexivity.
      contradiction Hc. reflexivity.
    + change ((String c t ++ "__")%string) with (String c (t ++ "__")).
      cbn [substring String.length]. apply IH. exact Ht.
Qed.

Lemma longest_prefix_found (m : string) (k j : nat) :
  0 < k -> k <= j ->
  DMModel.followed_by_suffix (substring k (String.length m - k) m) = true ->
  (forall i, k < i -> i <= j ->
             DMModel.followed_by_suffix
               (substring i (String.length m - i) m) = false) ->
  DMModel.longest_prefix j m = Some (substring 0 k m).
Proof.
  intros Hk Hkj Hfound Hlater.
  induction j as [|j IH]; [lia|].
  cbn [DMModel.longest_prefix].
  destruct (Nat.eq_dec k (S j)) as [<-|Hne].
  - rewrite Hfound. reflexivity.
  - rewrite (Hlater (S j)) by lia.
    apply IH; [lia|]. intros i Hi Hij. apply Hlater; lia.
Qed.

Lemma search_transformed_suffix (nm t : string) :
  nm <> "" -> t <> "" -> contains "_" t = false ->
  DMModel.search_transformed (nm ++ "_" ++ t ++ "__") = Some nm.
Proof.
  intros Hnm Ht Hfree. unfold DMModel.search_transformed.
  transitivity
    (Some (substring 0 (String.length nm) (nm ++ "_" ++ t ++ "__")));
    [|f_equal; apply substring_prefix].
  apply longest_prefix_found.
  - destruct nm; [contradiction | simpl; lia].
  - rewrite length_append. lia.
  - rewrite length_append.
    replace (String.length nm + String.length ("_" ++ t ++ "__")
             - String.length nm)
      with (String.length ("_" ++ t ++ "__")) by lia.
    rewrite <- (Nat.add_0_r (String.length nm)) at 1.
    rewrite substring_skip, substring_whole.
    destruct t as [|c t]; [contradiction|].
    cbn [append DMModel.followed_by_suffix].
    apply contains_suffix.
  - intros i Hi Hle.
    rewrite !length_append in *. cbn [String.length append] in *.
    replace i with (String.length (nm ++ "_") + (i - String.length nm - 1))
      by (rewrite length_append; simpl; lia).
    replace ((nm ++ String "_" (t ++ "__"))%string)
      with (((nm ++ "_") ++ (t ++ "__"))%string)
      by (rewrite append_assoc; reflexivity).
    rewrite substring_skip.
    assert (Hn : forall n,
               n = String.length t + 2 - (i - String.length nm - 1) ->
               DMModel.followed_by_suffix
                 (substring (i - String.length nm - 1) n (t ++ "__"))
               = false)
      by (intros n ->; apply no_later_match; exact Hfree).
    apply Hn. rewrite !length_append. simpl. lia.
Qed.

(** X26. Reading one fitted value back.  A key of the form
    [name_transform__], where the transform is not empty and has no
    underscore, is matched by the regular expression to the parameter
    [name]: its value is replaced by [p.backward(value)] and stored under
    the parameter's own name, and a parameter without a backward transform
    raises [AttributeError].  A key equal to the parameter's name, without
    double underscore, is stored under that name unchanged. *)
Theorem untransform_one_key (lib : DMModel.backend) (p : parameter)
    (raw acc : DMModel.estimate) (t : string) (v : vector) :
  name p <> "" -> t <> "" -> contains "_" t = false ->
  DMModel.search_transformed (name p ++ "_" ++ t ++ "__") = Some (name p)
  /\ DMModel.untransform_one lib p raw acc
       ((name p ++ "_" ++ t ++ "__")%string, v)
     = (if backward p
        then inr (DMModel.setitem acc (name p)
                    (DMModel.backward_eval lib p v))
        else inl (AttributeError
               "Parameter instance has no attribute 'backward'"))
  /\ (contains "__" (name p) = false ->
      DMModel.untransform_one lib p raw acc (name p, v)
      = inr (DMModel.setitem acc (name p) v)).
Proof.
  intros Hname Ht Hfree.
  pose proof (search_transformed_suffix (name p) t Hname Ht Hfree) as Hsearch.
  split; [exact Hsearch|]. split.
  - unfold DMModel.untransform_one. cbn [fst snd].
    rewrite Hsearch, String.eqb_refl. cbn [orb].
    replace ((name p ++ "_" ++ t ++ "__")%string)
      with (((name p ++ "_" ++ t) ++ "__")%string)
      by (rewrite !append_assoc; reflexivity).
    rewrite contains_suffix. destruct (backward p); reflexivity.
  - intros Hplain. unfold DMModel.untransform_one. cbn [fst snd].
    rewrite String.eqb_refl, orb_true_r, Hplain. reflexivity.
Qed.

Lemma untransform_one_key_witness :
  DMModel.search_transformed ("alpha" ++ "_" ++ "interval" ++ "__")
  = Some "alpha"
  /\ DMModel.untransform_one Examples.fixed_answers
       (set_pymc_distribution Examples.alpha_uniform (Const []) true) []
       [] (("alpha" ++ "_" ++ "interval" ++ "__")%string, [0]%Q)
     = inr [("alpha", [(1 # 2) + 0]%Q)].
Proof.
  destruct (untransform_one_key Examples.fixed_answers
              (set_pymc_distribution Examples.alpha_uniform (Const []) true)
              [] [] "interval" [0]%Q) as [Hsearch [Hback _]];
    try discriminate; try reflexivity.
  split; [exact Hsearch | exact Hback].
Defined.

(** ** Observation models *)

(** X27. A distribution with an observation model cannot be evaluated
    unless its first observation parameter is a parameter: with an empty
    list [get_value] raises [IndexError], and with [None] in first place
    the parameters are reshaped to [None], which cannot be appended to the
    dynamic inputs of the observation model. *)
Theorem get_value_needs_observation_parameters (self : Model._PyMCModel)
    (pt : Model.point) (x : matrix) (om : Model.observation_function) :
  Model.pm_observation_model self = Some om ->
  hd None (Model.pm_observation_parameters self) = None ->
  succeeded (Model.get_value self pt x) = false.
Proof.
  intros Hmodel Hfirst. unfold Model.get_value. cbv zeta.
  unfold Model.observation_parameters_reshaped.
  destruct (Model.pm_observation_parameters self) as [|first rest];
    [reflexivity|].
  simpl in Hfirst. subst first. cbn [getitem nth_error bind ret].
  rewrite Hmodel.
  match goal with
  | |- succeeded (bind ?c _) = false => destruct c as [e|scans]
  end; [reflexivity|]. cbn [bind].
  destruct (Model.as_lists (fst scans) (snd scans)) as [e|[value _value]];
    [reflexivity|]. cbn [bind].
  match goal with
  | |- succeeded (bind ?c _) = false => destruct c as [e|stacked]
  end; [reflexivity|]. cbn [bind].
  match goal with
  | |- succeeded (bind ?c _) = false => destruct c as [e|dynamics]
  end; reflexivity.
Qed.

Lemma get_value_needs_observation_parameters_witness :
  succeeded
    (Model.get_value
       {| Model.pm_learning_model := Examples.cumulative;
          Model.pm_learning_model_initial :=
            function_wrapper Examples.cumulative_call 1 1;
          Model.pm_observation_model :=
            Some {| Model.obs_call :=
                      fun args => ret (hd (A1 []) args, []);
                    Model.obs_source :=
                      Some ["def identity(v):"; "    return (v, [])"] |};
          Model.pm_learning_parameters := [];
          Model.pm_observation_parameters := [None];
          Model.pm_observation_dynamic_inputs := [0];
          Model.pm_n_subjects := 1;
          Model.pm_responses := A2 [[0; 0; 0]%Q];
          Model.pm_outcomes := A2 Examples.outcomes_123;
          Model.pm_time := [];
          Model.pm_n_runs := [1];
          Model.pm_logp_method := "ll";
          Model.pm_dynamic_parameters := [Const [0%Q]];
          Model.pm_static_parameters := [];
          Model.pm_n_dynamic := 1;
          Model.pm_n_learning_returns := 1 |}
       DMModel.placeholder Examples.outcomes_123) = false.
Proof.
  apply (get_value_needs_observation_parameters _ _ _
           {| Model.obs_call := fun args => ret (hd (A1 []) args, []);
              Model.obs_source :=
                Some ["def identity(v):"; "    return (v, [])"] |});
    reflexivity.
Defined.
